(** * FidelityFX reflection denoiser: reprojection and prefilter kernels

    A shallow embedding of
    [ffx_denoiser_reflections_prefilter.h] and
    [ffx_denoiser_reflections_reproject.h], and the properties of the two
    kernels.

    - [int] and [uint] values are [Z] with the 32-bit wrap-around written
      out.
    - [float] is an abstract type [F] with the operators and intrinsics of
      the shading language collected in the class [FloatOps]; the kernels
      are written once, for every such [F].  The instance [R_FloatOps]
      reads them over the real numbers; the properties that need
      arithmetic are stated there, the others for every [F].
    - a [groupshared] array [T name[16][16]] is a total map from (row,
      column) to [T].  An index outside the array has no defined meaning
      in the shading language: every access is recorded with its index,
      and staying inside the array is a property of the record.
    - a kernel is a function of the shared memory that its thread finds,
      returning its result, the shared memory it leaves and the list of
      the accesses it made (texture callbacks, shared-memory loads and
      stores, barriers), in program order.  At a barrier the shared memory
      becomes what the group has made of it, a parameter of the kernel.
    - the callbacks, macros, constants and globals that the two headers
      take from [ffx_denoiser_reflections_common.h] and from the including
      shader are the fields of the records [Prefilter.Env] and
      [Reproject.Env]; a load, sample or store callback is one access to
      the texture it is named after.
    - [floatx] is [float4]: the headers swizzle it with [.xyzw] and assign
      it to [float4] tiles. *)

From Stdlib Require Import ZArith List Bool Lia Permutation QArith.
From Stdlib Require Import Reals Lra Qreals.
Import ListNotations.

#[local] Open Scope Z_scope.

(** ** Integers *)

(** [int]: 32-bit two's complement. *)
Definition wrap32 (z : Z) : Z := (z + 2 ^ 31) mod 2 ^ 32 - 2 ^ 31.
(** [uint]: 32-bit unsigned; also the conversion [int] -> [uint]. *)
Definition to_uint (z : Z) : Z := z mod 2 ^ 32.

Definition iadd (a b : Z) : Z := wrap32 (a + b).
Definition isub (a b : Z) : Z := wrap32 (a - b).
Definition imul (a b : Z) : Z := wrap32 (a * b).
(** [/] on [int] truncates toward zero. *)
Definition idiv (a b : Z) : Z := wrap32 (Z.quot a b).

(** [int2] and [uint2], as (x, y). *)
Definition int2 : Type := (Z * Z)%type.

Definition int2_add (a b : int2) : int2 := (iadd (fst a) (fst b), iadd (snd a) (snd b)).
Definition int2_sub (a b : int2) : int2 := (isub (fst a) (fst b), isub (snd a) (snd b)).
(** [v * s] and [v / s] with a scalar. *)
Definition int2_scale (a : int2) (s : Z) : int2 := (imul (fst a) s, imul (snd a) s).
Definition int2_div (a : int2) (s : Z) : int2 := (idiv (fst a) s, idiv (snd a) s).
(** a scalar used where an [int2] is expected *)
Definition splat (s : Z) : int2 := (s, s).

Definition int2_eqb (a b : int2) : bool := (fst a =? fst b) && (snd a =? snd b).

(** [lo, lo+1, ..., lo+n-1] *)
Definition Zseq (lo : Z) (n : nat) : list Z := map (fun k => lo + Z.of_nat k) (seq 0 n).
(** the values of [i] in [for (int i = lo; i <= hi; ++i)] *)
Definition Zrange (lo hi : Z) : list Z := Zseq lo (Z.to_nat (hi - lo + 1)).

(** ** Floats *)

Class FloatOps (F : Type) : Type := {
  flit  : Q -> F;            (* a decimal literal *)
  fadd  : F -> F -> F;
  fsub  : F -> F -> F;
  fmul  : F -> F -> F;
  fdiv  : F -> F -> F;
  fneg  : F -> F;
  fabs  : F -> F;
  fmax  : F -> F -> F;
  fmin  : F -> F -> F;
  fexp  : F -> F;
  fpow  : F -> F -> F;
  fsqrt : F -> F;
  ffrac : F -> F;
  fltb  : F -> F -> bool;    (* [a < b] *)
  of_int : Z -> F;           (* [float(i)] *)
  to_int : F -> Z            (* [int(x)], truncation *)
}.

Declare Scope flt_scope.
Delimit Scope flt_scope with flt.
Infix "+" := fadd : flt_scope.
Infix "-" := fsub : flt_scope.
Infix "*" := fmul : flt_scope.
Infix "/" := fdiv : flt_scope.
Notation "- x" := (fneg x) : flt_scope.
Infix "<?" := fltb : flt_scope.
Notation "a >? b" := (fltb b a) : flt_scope.

Record float2 (F : Type) : Type := mk2 { x2 : F; y2 : F }.
Record float3 (F : Type) : Type := mk3 { x3 : F; y3 : F; z3 : F }.
Record float4 (F : Type) : Type := mk4 { x4 : F; y4 : F; z4 : F; w4 : F }.
Arguments mk2 {F}.
Arguments x2 {F}.
Arguments y2 {F}.
Arguments mk3 {F}.
Arguments x3 {F}.
Arguments y3 {F}.
Arguments z3 {F}.
Arguments mk4 {F}.
Arguments x4 {F}.
Arguments y4 {F}.
Arguments z4 {F}.
Arguments w4 {F}.

Section Vectors.
Context {F : Type} {FO : FloatOps F}.
#[local] Open Scope flt_scope.

Definition f0 : F := flit 0.
Definition f1 : F := flit 1.

Definition saturate (x : F) : F := fmin (fmax x f0) f1.
(** [lerp(x, y, s) = x*(1-s) + y*s] *)
Definition lerp (x y s : F) : F := x * (f1 - s) + y * s.

Definition splat2 (a : F) : float2 F := mk2 a a.
Definition splat4 (a : F) : float4 F := mk4 a a a a.
Definition float2_of_int2 (p : int2) : float2 F := mk2 (of_int (fst p)) (of_int (snd p)).
Definition int2_of_float2 (v : float2 F) : int2 := (to_int (x2 v), to_int (y2 v)).

Definition map2_2 (op : F -> F -> F) (a b : float2 F) : float2 F :=
    mk2 (op (x2 a) (x2 b)) (op (y2 a) (y2 b)).
Definition map2_3 (op : F -> F -> F) (a b : float3 F) : float3 F :=
    mk3 (op (x3 a) (x3 b)) (op (y3 a) (y3 b)) (op (z3 a) (z3 b)).
Definition map2_4 (op : F -> F -> F) (a b : float4 F) : float4 F :=
    mk4 (op (x4 a) (x4 b)) (op (y4 a) (y4 b)) (op (z4 a) (z4 b)) (op (w4 a) (w4 b)).

Definition add2 := map2_2 fadd.
Definition sub2 := map2_2 fsub.
Definition mul2 := map2_2 fmul.
Definition div2 := map2_2 fdiv.
Definition add3 := map2_3 fadd.
Definition sub3 := map2_3 fsub.
Definition add4 := map2_4 fadd.
Definition sub4 := map2_4 fsub.
Definition mul4 := map2_4 fmul.

(** [v * s], the scalar on the right *)
Definition scale2 (v : float2 F) (s : F) : float2 F := mk2 (x2 v * s) (y2 v * s).
Definition scale3 (v : float3 F) (s : F) : float3 F := mk3 (x3 v * s) (y3 v * s) (z3 v * s).
Definition scale4 (v : float4 F) (s : F) : float4 F :=
    mk4 (x4 v * s) (y4 v * s) (z4 v * s) (w4 v * s).
(** [s * v], the scalar on the left *)
Definition smul4 (s : F) (v : float4 F) : float4 F :=
  mk4 (s * x4 v) (s * y4 v) (s * z4 v) (s * w4 v).
Definition sdiv3 (v : float3 F) (s : F) : float3 F := mk3 (x3 v / s) (y3 v / s) (z3 v / s).
Definition sdiv4 (v : float4 F) (s : F) : float4 F :=
    mk4 (x4 v / s) (y4 v / s) (z4 v / s) (w4 v / s).
Definition abs4 (v : float4 F) : float4 F :=
    mk4 (fabs (x4 v)) (fabs (y4 v)) (fabs (z4 v)) (fabs (w4 v)).

(** swizzles *)
Definition xyz (v : float4 F) : float3 F := mk3 (x4 v) (y4 v) (z4 v).
Definition xy4 (v : float4 F) : float2 F := mk2 (x4 v) (y4 v).
Definition xy3 (v : float3 F) : float2 F := mk2 (x3 v) (y3 v).
(** [v.xyz = a] *)
Definition set_xyz (v : float4 F) (a : float3 F) : float4 F :=
    mk4 (x3 a) (y3 a) (z3 a) (w4 v).
(** [float4(n, w)] and [float3(uv, z)] *)
Definition float4_of (n : float3 F) (w : F) : float4 F := mk4 (x3 n) (y3 n) (z3 n) w.
Definition float3_of (uv : float2 F) (z : F) : float3 F := mk3 (x2 uv) (y2 uv) z.

Definition dot (a b : float3 F) : F := x3 a * x3 b + y3 a * y3 b + z3 a * z3 b.
Definition length (v : float3 F) : F := fsqrt (dot v v).
Definition normalize (v : float3 F) : float3 F := sdiv3 v (length v).
Definition lerp3 (a b : float3 F) (s : F) : float3 F :=
    mk3 (lerp (x3 a) (x3 b) s) (lerp (y3 a) (y3 b) s) (lerp (z3 a) (z3 b) s).
End Vectors.

(** ** Accesses *)

(** The textures behind the callbacks, named after the callbacks. *)
Inductive resource : Type :=
  | Roughness | Radiance | RayLength | Depth | WorldSpaceNormal | MotionVector
  | MotionBuffer          (* [Motion::Get] *)
  | Neighborhood          (* [LoadNeighborhood]: radiance, variance, normal, depth *)
  | AverageRadiance
  | RadianceHistory | VarianceHistory | NumSamplesHistory
  | DepthHistory | WorldSpaceNormalHistory | RoughnessHistory
  | RadianceReprojected | Variance | NumSamples | PrefilteredReflections.

Inductive tile_id : Type := Shared0 | Shared1 | SharedDepth.

(** What a store callback is given to store: a [floatx], a [float], or a
    [floatx] and a [float]. *)
Inductive stored (F : Type) : Type :=
  | StFloat4 (v : float4 F)
  | StFloat (v : F)
  | StFloat4Float (radiance : float4 F) (variance : F).
Arguments StFloat4 {F}.
Arguments StFloat {F}.
Arguments StFloat4Float {F}.

Inductive event (F : Type) : Type :=
  | EvLoad (r : resource) (p : int2)              (* [..._Load<r>(p)] *)
  | EvSample (r : resource) (uv : float2 F)       (* [..._Sample<r>(uv)] *)
  | EvStore (r : resource) (p : int2) (v : stored F)   (* [..._Store<r>(p, v)] *)
  | EvSharedLoad (t : tile_id) (idx : int2)
  | EvSharedStore (t : tile_id) (idx : int2)
  | EvBarrier.                                    (* [GroupMemoryBarrierWithGroupSync()] *)
Arguments EvLoad {F}.
Arguments EvSample {F}.
Arguments EvStore {F}.
Arguments EvSharedLoad {F}.
Arguments EvSharedStore {F}.
Arguments EvBarrier {F}.

(** The five store callbacks that the headers call. *)
Abbreviation EvStoreRadianceReprojected p v := (EvStore RadianceReprojected p (StFloat4 v)).
Abbreviation EvStoreVariance p v := (EvStore Variance p (StFloat v)).
Abbreviation EvStoreNumSamples p v := (EvStore NumSamples p (StFloat v)).
Abbreviation EvStoreAverageRadiance p v := (EvStore AverageRadiance p (StFloat4 v)).
Abbreviation EvStorePrefilteredReflections p radiance variance :=
  (EvStore PrefilteredReflections p (StFloat4Float radiance variance)).

(** The texture a store callback writes. *)
Definition store_target {F} (e : event F) : option resource :=
  match e with
  | EvStore r _ _ => Some r
  | _ => None
  end.

(** The texture a load or sample callback reads. *)
Definition read_source {F} (e : event F) : option resource :=
  match e with
  | EvLoad r _ | EvSample r _ => Some r
  | _ => None
  end.

Definition is_history (r : resource) : bool :=
  match r with
  | RadianceHistory | VarianceHistory | NumSamplesHistory
  | DepthHistory | WorldSpaceNormalHistory | RoughnessHistory => true
  | _ => false
  end.

(** The textures of the current frame that the kernels produce. *)
Definition is_output (r : resource) : bool :=
  match r with
  | RadianceReprojected | Variance | NumSamples | AverageRadiance
  | PrefilteredReflections => true
  | _ => false
  end.

Definition is_shared_store {F} (e : event F) : bool :=
  match e with EvSharedStore _ _ => true | _ => false end.

Definition shared_index {F} (e : event F) : option int2 :=
  match e with
  | EvSharedLoad _ idx | EvSharedStore _ idx => Some idx
  | _ => None
  end.

(** ** Shared-memory tiles *)

(** [T name[16][16]], indexed [name[idx.y][idx.x]]. *)
Definition tile (V : Type) : Type := Z -> Z -> V.

Definition tget {V} (t : tile V) (idx : int2) : V := t (snd idx) (fst idx).
Definition tset {V} (t : tile V) (idx : int2) (v : V) : tile V :=
  fun y x => if (y =? snd idx) && (x =? fst idx) then v else t y x.

(** The indices of a 16x16 array. *)
Definition in_tile (idx : int2) : Prop :=
  0 <= fst idx < 16 /\ 0 <= snd idx < 16.
Definition in_tileb (idx : int2) : bool :=
  (0 <=? fst idx) && (fst idx <? 16) && (0 <=? snd idx) && (snd idx <? 16).

(** ** Kernels as state-and-trace functions *)

Section Monad.
Context {F S : Type}.

Definition M (A : Type) : Type := S -> A * S * list (event F).

Definition ret {A} (a : A) : M A := fun s => (a, s, []).
Definition bind {A B} (m : M A) (k : A -> M B) : M B :=
    fun s =>
      let '(a, s1, t1) := m s in
      let '(b, s2, t2) := k a s1 in
      (b, s2, t1 ++ t2).

Definition emit (e : event F) : M unit := fun s => (tt, s, [e]).
Definition get_state : M S := fun s => (s, s, []).
Definition put_state (s' : S) : M unit := fun _ => (tt, s', []).

Definition value {A} (m : M A) (s : S) : A := fst (fst (m s)).
Definition final {A} (m : M A) (s : S) : S := snd (fst (m s)).
Definition events {A} (m : M A) (s : S) : list (event F) := snd (m s).

(** [for (x in l) acc = body(x, acc);] *)
Fixpoint for_each {A X} (l : list X) (body : X -> A -> M A) (acc : A) : M A :=
    match l with
    | [] => ret acc
    | x :: l' => bind (body x acc) (for_each l' body)
    end.
End Monad.

Arguments M : clear implicits.

Notation "x <- m ;; k" := (bind m (fun x => k))
  (at level 61, m at next level, right associativity).
Notation "' p <- m ;; k" := (bind m (fun p => k))
  (at level 61, p pattern, m at next level, right associativity).
Notation "m ;;; k" := (bind m (fun _ => k))
  (at level 61, right associativity).

Section Primitives.
Context {F S : Type}.

(** a callback that loads texel [p] of texture [r] *)
Definition tex_load {X} (r : resource) (f : int2 -> X) (p : int2) : M F S X :=
    emit (EvLoad r p) ;;; ret (f p).
(** a callback that samples texture [r] at [uv] *)
Definition tex_sample {X} (r : resource) (f : float2 F -> X) (uv : float2 F) : M F S X :=
    emit (EvSample r uv) ;;; ret (f uv).

(** [name[idx.y][idx.x]] read and written, [name] being the field [proj] *)
Definition shared_load {V} (t : tile_id) (proj : S -> tile V) (idx : int2) : M F S V :=
    s <- get_state ;; emit (EvSharedLoad t idx) ;;; ret (tget (proj s) idx).
Definition shared_store {V} (t : tile_id) (proj : S -> tile V)
      (upd : S -> tile V -> S) (idx : int2) (v : V) : M F S unit :=
    s <- get_state ;; emit (EvSharedStore t idx) ;;;
    put_state (upd s (tset (proj s) idx v)).

(** [GroupMemoryBarrierWithGroupSync()]: when it returns, the shared
      memory holds what the whole group has stored; [others] is the effect
      of the other threads' stores on what this thread left there. *)
Definition barrier (others : S -> S) : M F S unit :=
    s <- get_state ;; emit EvBarrier ;;; put_state (others s).
End Primitives.

(** The four 8x8 blocks of the 16x16 region. *)
Definition block_offset : list int2 := [(0, 0); (8, 0); (0, 8); (8, 8)].

(** The threads of a group: [numthreads(8, 8, 1)]. *)
Definition group_threads : list int2 :=
  flat_map (fun y => map (fun x => (x, y)) (Zseq 0 8)) (Zseq 0 8).
Definition in_group (gid : int2) : Prop := 0 <= fst gid < 8 /\ 0 <= snd gid < 8.

(** The 256 indices of a tile. *)
Definition tile_indices : list int2 :=
  flat_map (fun y => map (fun x => (x, y)) (Zseq 0 16)) (Zseq 0 16).

(** ** ffx_denoiser_reflections_prefilter.h *)

Module Prefilter.

Record shared (F : Type) : Type := mk_shared {
    g_ffx_dnsr_shared_0 : tile (float4 F);
    g_ffx_dnsr_shared_1 : tile (float4 F);
    g_ffx_dnsr_shared_depth : tile F
  }.
Arguments mk_shared {F}.
Arguments g_ffx_dnsr_shared_0 {F}.
Arguments g_ffx_dnsr_shared_1 {F}.
Arguments g_ffx_dnsr_shared_depth {F}.

Record FFX_DNSR_Reflections_NeighborhoodSample (F : Type) : Type := mk_sample {
    radiance : float4 F;     (* floatx *)
    variance : F;
    normal : float3 F;
    depth : F
  }.
Arguments mk_sample {F}.
Arguments radiance {F}.
Arguments variance {F}.
Arguments normal {F}.
Arguments depth {F}.

(** What the header takes from the common header and the host shader. *)
Record Env (F : Type) : Type := {
    FFX_DNSR_Reflections_LoadRoughness : int2 -> F;
    (* pixel, screen size |-> radiance, variance, normal, depth *)
    FFX_DNSR_Reflections_LoadNeighborhood : int2 -> int2 -> float4 F * F * float3 F * F;
    FFX_DNSR_Reflections_IsGlossyReflection : F -> bool;
    FFX_DNSR_Reflections_IsMirrorReflection : F -> bool;
    FFX_DNSR_Reflections_RoundUp8 : int2 -> int2;
    FFX_DNSR_Reflections_SampleAverageRadiance : float2 F -> float4 F;
    DISPATCH_OFFSET : int2;
    FFX_DNSR_REFLECTIONS_PREFILTER_NORMAL_SIGMA : F;
    FFX_DNSR_REFLECTIONS_PREFILTER_DEPTH_SIGMA : F;
    FFX_DNSR_REFLECTIONS_RADIANCE_WEIGHT_BIAS : F;
    FFX_DNSR_REFLECTIONS_RADIANCE_WEIGHT_VARIANCE_K : F;
    FFX_DNSR_REFLECTIONS_PREFILTER_VARIANCE_BIAS : F;
    FFX_DNSR_REFLECTIONS_PREFILTER_VARIANCE_WEIGHT : F;
    (* the shared memory after the n-th barrier, from the one this thread reached it with *)
    other_threads : nat -> shared F -> shared F
  }.
Arguments FFX_DNSR_Reflections_LoadRoughness {F}.
Arguments FFX_DNSR_Reflections_LoadNeighborhood {F}.
Arguments FFX_DNSR_Reflections_IsGlossyReflection {F}.
Arguments FFX_DNSR_Reflections_IsMirrorReflection {F}.
Arguments FFX_DNSR_Reflections_RoundUp8 {F}.
Arguments FFX_DNSR_Reflections_SampleAverageRadiance {F}.
Arguments DISPATCH_OFFSET {F}.
Arguments FFX_DNSR_REFLECTIONS_PREFILTER_NORMAL_SIGMA {F}.
Arguments FFX_DNSR_REFLECTIONS_PREFILTER_DEPTH_SIGMA {F}.
Arguments FFX_DNSR_REFLECTIONS_RADIANCE_WEIGHT_BIAS {F}.
Arguments FFX_DNSR_REFLECTIONS_RADIANCE_WEIGHT_VARIANCE_K {F}.
Arguments FFX_DNSR_REFLECTIONS_PREFILTER_VARIANCE_BIAS {F}.
Arguments FFX_DNSR_REFLECTIONS_PREFILTER_VARIANCE_WEIGHT {F}.
Arguments other_threads {F}.

(** The 15 offsets of [FFX_DNSR_Reflections_Resolve]. *)
Definition sample_offsets : list int2 :=
    [(0, 1); (-2, 1); (2, -3); (-3, 0); (1, 2); (-1, -2); (3, 0); (-3, 3);
     (0, -3); (-1, -1); (2, 1); (-2, -2); (1, 0); (0, 2); (3, -1)].

Section Kernel.
Context {F : Type} {FO : FloatOps F}.
Variable env : Env F.
#[local] Open Scope flt_scope.

#[local] Abbreviation K := (M F (shared F)).

Definition set_shared_0 (s : shared F) (t : tile (float4 F)) : shared F :=
      mk_shared t (g_ffx_dnsr_shared_1 s) (g_ffx_dnsr_shared_depth s).
Definition set_shared_1 (s : shared F) (t : tile (float4 F)) : shared F :=
      mk_shared (g_ffx_dnsr_shared_0 s) t (g_ffx_dnsr_shared_depth s).
Definition set_shared_depth (s : shared F) (t : tile F) : shared F :=
      mk_shared (g_ffx_dnsr_shared_0 s) (g_ffx_dnsr_shared_1 s) t.

Definition FFX_DNSR_Reflections_LoadFromGroupSharedMemory (idx : int2)
      : K (FFX_DNSR_Reflections_NeighborhoodSample F) :=
      unpacked_radiance <- shared_load Shared0 g_ffx_dnsr_shared_0 idx ;;
      unpacked_normal_variance <- shared_load Shared1 g_ffx_dnsr_shared_1 idx ;;
      d <- shared_load SharedDepth g_ffx_dnsr_shared_depth idx ;;
      ret {| radiance := unpacked_radiance;
             normal := xyz unpacked_normal_variance;
             variance := w4 unpacked_normal_variance;
             depth := d |}.

Definition FFX_DNSR_Reflections_StoreInGroupSharedMemory (group_thread_id : int2)
        (radiance : float4 F) (variance : F) (normal : float3 F) (depth : F) : K unit :=
      shared_store Shared0 g_ffx_dnsr_shared_0 set_shared_0 group_thread_id radiance ;;;
      shared_store Shared1 g_ffx_dnsr_shared_1 set_shared_1 group_thread_id
        (float4_of normal variance) ;;;
      shared_store SharedDepth g_ffx_dnsr_shared_depth set_shared_depth group_thread_id depth.

(** The first loop: the four loads, kept in registers. *)
Fixpoint load_blocks (dispatch_thread_id screen_size : int2) (offset : list int2)
      : K (list (float4 F * F * float3 F * F)) :=
      match offset with
      | [] => ret []
      | o :: rest =>
          r <- tex_load Neighborhood
                 (fun p => FFX_DNSR_Reflections_LoadNeighborhood env p screen_size)
                 (int2_add dispatch_thread_id o) ;;
          rs <- load_blocks dispatch_thread_id screen_size rest ;;
          ret (r :: rs)
      end.

(** The second loop: the registers moved to shared memory. *)
Fixpoint store_blocks (group_thread_id : int2) (offset : list int2)
        (regs : list (float4 F * F * float3 F * F)) : K unit :=
      match offset, regs with
      | o :: rest, (radiance, variance, normal, depth) :: regs' =>
          FFX_DNSR_Reflections_StoreInGroupSharedMemory (int2_add group_thread_id o)
            radiance variance normal depth ;;;
          store_blocks group_thread_id rest regs'
      | _, _ => ret tt
      end.

Definition FFX_DNSR_Reflections_InitializeGroupSharedMemory
        (dispatch_thread_id group_thread_id screen_size : int2) : K unit :=
      let dispatch_thread_id := int2_sub dispatch_thread_id (DISPATCH_OFFSET env) in
      regs <- load_blocks dispatch_thread_id screen_size block_offset ;;
      store_blocks group_thread_id block_offset regs.

Definition FFX_DNSR_Reflections_GetEdgeStoppingNormalWeight
        (normal_p normal_q : float3 F) : F :=
      fpow (fmax (dot normal_p normal_q) f0) (FFX_DNSR_REFLECTIONS_PREFILTER_NORMAL_SIGMA env).

Definition FFX_DNSR_Reflections_GetEdgeStoppingDepthWeight
        (center_depth neighbor_depth : F) : F :=
      fexp (- fabs (center_depth - neighbor_depth) * center_depth
            * FFX_DNSR_REFLECTIONS_PREFILTER_DEPTH_SIGMA env).

Definition FFX_DNSR_Reflections_GetRadianceWeight
        (center_radiance neighbor_radiance : float4 F) (variance : F) : F :=
      fmax (fexp (- (FFX_DNSR_REFLECTIONS_RADIANCE_WEIGHT_BIAS env
                     + variance * FFX_DNSR_REFLECTIONS_RADIANCE_WEIGHT_VARIANCE_K env)
                  * length (sub3 (xyz center_radiance) (xyz neighbor_radiance))))
           (flit (1 # 100)).

(** The accumulators of [FFX_DNSR_Reflections_Resolve]:
        weight, radiance, variance. *)
Definition accumulators : Type := (F * float4 F * F)%type.

Definition variance_weight (center : FFX_DNSR_Reflections_NeighborhoodSample F) : F :=
      fmax (FFX_DNSR_REFLECTIONS_PREFILTER_VARIANCE_BIAS env)
           (f1 - fexp (- (variance center * FFX_DNSR_REFLECTIONS_PREFILTER_VARIANCE_WEIGHT env))).

(** The weight of one neighbor. *)
Definition neighbor_weight (avg_radiance : float4 F)
        (center neighbor : FFX_DNSR_Reflections_NeighborhoodSample F) : F :=
      let weight := f1 in
      let weight := weight * FFX_DNSR_Reflections_GetEdgeStoppingNormalWeight
                               (normal center) (normal neighbor) in
      let weight := weight * FFX_DNSR_Reflections_GetEdgeStoppingDepthWeight
                               (depth center) (depth neighbor) in
      let weight := weight * FFX_DNSR_Reflections_GetRadianceWeight
                               avg_radiance (radiance neighbor) (variance center) in
      weight * variance_weight center.

(** One iteration of the loop over the sample offsets. *)
Definition Resolve_step (group_thread_id : int2) (avg_radiance : float4 F)
        (center : FFX_DNSR_Reflections_NeighborhoodSample F)
        (sample_offset : int2) (acc : accumulators) : K accumulators :=
      let '(accumulated_weight, accumulated_radiance, accumulated_variance) := acc in
      let new_idx := int2_add group_thread_id sample_offset in
      neighbor <- FFX_DNSR_Reflections_LoadFromGroupSharedMemory new_idx ;;
      let weight := neighbor_weight avg_radiance center neighbor in
      ret (accumulated_weight + weight,
           add4 accumulated_radiance (smul4 weight (radiance neighbor)),
           accumulated_variance + weight * weight * variance neighbor).

(** [FFX_DNSR_Reflections_Resolve] up to the end of its loop. *)
Definition Resolve_accumulate (group_thread_id : int2) (avg_radiance : float4 F)
        (center : FFX_DNSR_Reflections_NeighborhoodSample F) : K accumulators :=
      let accumulated_weight :=
        FFX_DNSR_Reflections_GetRadianceWeight avg_radiance (radiance center) (variance center) in
      let accumulated_radiance := scale4 (radiance center) accumulated_weight in
      let accumulated_variance := variance center * accumulated_weight * accumulated_weight in
      for_each sample_offsets (Resolve_step group_thread_id avg_radiance center)
        (accumulated_weight, accumulated_radiance, accumulated_variance).

(** Returns (resolved_radiance, resolved_variance). *)
Definition FFX_DNSR_Reflections_Resolve (group_thread_id : int2) (avg_radiance : float4 F)
        (center : FFX_DNSR_Reflections_NeighborhoodSample F) : K (float4 F * F) :=
      '(accumulated_weight, accumulated_radiance, accumulated_variance) <-
         Resolve_accumulate group_thread_id avg_radiance center ;;
      let accumulated_radiance := sdiv4 accumulated_radiance accumulated_weight in
      let accumulated_variance :=
        accumulated_variance / (accumulated_weight * accumulated_weight) in
      ret (accumulated_radiance, accumulated_variance).

(** [screen_size] is a [uint2] here and an [int2] in the initialization. *)
Definition FFX_DNSR_Reflections_Prefilter
        (dispatch_thread_id group_thread_id screen_size : int2) : K unit :=
      center_roughness <-
        tex_load Roughness (FFX_DNSR_Reflections_LoadRoughness env) dispatch_thread_id ;;
      FFX_DNSR_Reflections_InitializeGroupSharedMemory dispatch_thread_id group_thread_id
        (wrap32 (fst screen_size), wrap32 (snd screen_size)) ;;;
      barrier (other_threads env 0%nat) ;;;
      let group_thread_id := int2_add group_thread_id (splat 4) in
      center <- FFX_DNSR_Reflections_LoadFromGroupSharedMemory group_thread_id ;;
      let needs_denoiser :=
        (variance center >? f0)
        && FFX_DNSR_Reflections_IsGlossyReflection env center_roughness
        && negb (FFX_DNSR_Reflections_IsMirrorReflection env center_roughness) in
      resolved <-    (* resolved_radiance, resolved_variance *)
        (if needs_denoiser then
           let uv8 := div2 (add2 (float2_of_int2 dispatch_thread_id) (splat2 (flit (1 # 2))))
                           (float2_of_int2 (FFX_DNSR_Reflections_RoundUp8 env screen_size)) in
           avg_radiance <-
             tex_sample AverageRadiance (FFX_DNSR_Reflections_SampleAverageRadiance env) uv8 ;;
           FFX_DNSR_Reflections_Resolve group_thread_id avg_radiance center
         else ret (radiance center, variance center)) ;;
      emit (EvStorePrefilteredReflections dispatch_thread_id (fst resolved) (snd resolved)).

(** The initialization of a whole group, its threads taken in the order
        [order]; [dispatch_of] gives each thread its dispatch id. *)
Definition group_initialize (dispatch_of : int2 -> int2) (screen_size : int2)
        (order : list int2) : K unit :=
      for_each order
        (fun gid _ =>
           FFX_DNSR_Reflections_InitializeGroupSharedMemory (dispatch_of gid) gid screen_size)
        tt.
End Kernel.
End Prefilter.

(** ** ffx_denoiser_reflections_reproject.h *)

Module Reproject.

Record shared (F : Type) : Type := mk_shared {
  g_ffx_dnsr_shared_0 : tile (float4 F);
  g_ffx_dnsr_shared_1 : tile F
}.
Arguments mk_shared {F}.
Arguments g_ffx_dnsr_shared_0 {F}.
Arguments g_ffx_dnsr_shared_1 {F}.

Record FFX_DNSR_Reflections_NeighborhoodSample (F : Type) : Type := mk_sample {
  radiance : float4 F      (* floatx *)
}.
Arguments mk_sample {F}.
Arguments radiance {F}.

Record FFX_DNSR_Reflections_Moments (F : Type) : Type := mk_moments {
  mean : float4 F;
  variance : float4 F
}.
Arguments mk_moments {F}.
Arguments mean {F}.
Arguments variance {F}.

(** What the header takes from the common header and the host shader. *)
Record Env (F : Type) : Type := {
  FFX_DNSR_Reflections_LoadRadiance : int2 -> float4 F;
  FFX_DNSR_Reflections_LoadRayLength : int2 -> F;
  FFX_DNSR_Reflections_LoadDepth : int2 -> F;
  FFX_DNSR_Reflections_LoadRoughness : int2 -> F;
  FFX_DNSR_Reflections_LoadWorldSpaceNormal : int2 -> float3 F;
  FFX_DNSR_Reflections_LoadMotionVector : int2 -> float2 F;
  FFX_DNSR_Reflections_SampleWorldSpaceNormalHistory : float2 F -> float3 F;
  FFX_DNSR_Reflections_SampleRadianceHistory : float2 F -> float4 F;
  FFX_DNSR_Reflections_SampleRoughnessHistory : float2 F -> F;
  FFX_DNSR_Reflections_SampleDepthHistory : float2 F -> F;
  FFX_DNSR_Reflections_SampleVarianceHistory : float2 F -> F;
  FFX_DNSR_Reflections_SampleNumSamplesHistory : float2 F -> F;
  FFX_DNSR_Reflections_LoadWorldSpaceNormalHistory : int2 -> float3 F;
  FFX_DNSR_Reflections_LoadDepthHistory : int2 -> F;
  Motion_Get : float2 F -> float2 F;                 (* [Motion::Get(p).xy] *)
  FFX_DNSR_Reflections_GetLinearDepth : float2 F -> F -> F;
  FFX_DNSR_Reflections_Luminance : float3 F -> F;
  FFX_DNSR_Reflections_IsGlossyReflection : F -> bool;
  FFX_DNSR_Reflections_ComputeTemporalVariance : float3 F -> float3 F -> F;
  FFX_DNSR_Reflections_LocalNeighborhoodKernelWeight : Z -> F;
  FFX_DNSR_REFLECTIONS_SAMPLES_FOR_ROUGHNESS : F -> F;
  InvProjectPosition : float3 F -> float3 F;         (* with g_matProjectionToWorld *)
  ProjectPosition : float3 F -> float3 F;            (* with g_matWorldToProjection *)
  Dimensions : float2 F;
  InvDimensions : float2 F;
  g_vCameraPositionWs : float3 F;
  SampleCountIntersection : F;
  DISPATCH_OFFSET : int2;
  FFX_DNSR_REFLECTIONS_LOCAL_NEIGHBORHOOD_RADIUS : Z;
  FFX_DNSR_REFLECTIONS_DISOCCLUSION_NORMAL_WEIGHT : F;
  FFX_DNSR_REFLECTIONS_DISOCCLUSION_DEPTH_WEIGHT : F;
  FFX_DNSR_REFLECTIONS_DISOCCLUSION_THRESHOLD : F;
  FFX_DNSR_REFLECTIONS_REPROJECTION_NORMAL_SIMILARITY_THRESHOLD : F;
  FFX_DNSR_REFLECTIONS_AVG_RADIANCE_LUMINANCE_WEIGHT : F;
  (* the shared memory after the n-th barrier, from the one this thread reached it with *)
  other_threads : nat -> shared F -> shared F
}.
Arguments FFX_DNSR_Reflections_LoadRadiance {F}.
Arguments FFX_DNSR_Reflections_LoadRayLength {F}.
Arguments FFX_DNSR_Reflections_LoadDepth {F}.
Arguments FFX_DNSR_Reflections_LoadRoughness {F}.
Arguments FFX_DNSR_Reflections_LoadWorldSpaceNormal {F}.
Arguments FFX_DNSR_Reflections_LoadMotionVector {F}.
Arguments FFX_DNSR_Reflections_SampleWorldSpaceNormalHistory {F}.
Arguments FFX_DNSR_Reflections_SampleRadianceHistory {F}.
Arguments FFX_DNSR_Reflections_SampleRoughnessHistory {F}.
Arguments FFX_DNSR_Reflections_SampleDepthHistory {F}.
Arguments FFX_DNSR_Reflections_SampleVarianceHistory {F}.
Arguments FFX_DNSR_Reflections_SampleNumSamplesHistory {F}.
Arguments FFX_DNSR_Reflections_LoadWorldSpaceNormalHistory {F}.
Arguments FFX_DNSR_Reflections_LoadDepthHistory {F}.
Arguments Motion_Get {F}.
Arguments FFX_DNSR_Reflections_GetLinearDepth {F}.
Arguments FFX_DNSR_Reflections_Luminance {F}.
Arguments FFX_DNSR_Reflections_IsGlossyReflection {F}.
Arguments FFX_DNSR_Reflections_ComputeTemporalVariance {F}.
Arguments FFX_DNSR_Reflections_LocalNeighborhoodKernelWeight {F}.
Arguments FFX_DNSR_REFLECTIONS_SAMPLES_FOR_ROUGHNESS {F}.
Arguments InvProjectPosition {F}.
Arguments ProjectPosition {F}.
Arguments Dimensions {F}.
Arguments InvDimensions {F}.
Arguments g_vCameraPositionWs {F}.
Arguments SampleCountIntersection {F}.
Arguments DISPATCH_OFFSET {F}.
Arguments FFX_DNSR_REFLECTIONS_LOCAL_NEIGHBORHOOD_RADIUS {F}.
Arguments FFX_DNSR_REFLECTIONS_DISOCCLUSION_NORMAL_WEIGHT {F}.
Arguments FFX_DNSR_REFLECTIONS_DISOCCLUSION_DEPTH_WEIGHT {F}.
Arguments FFX_DNSR_REFLECTIONS_DISOCCLUSION_THRESHOLD {F}.
Arguments FFX_DNSR_REFLECTIONS_REPROJECTION_NORMAL_SIMILARITY_THRESHOLD {F}.
Arguments FFX_DNSR_REFLECTIONS_AVG_RADIANCE_LUMINANCE_WEIGHT {F}.
Arguments other_threads {F}.

Definition spiral_offsets : list int2 :=
  [(1, 0); (1, 1); (0, 1); (-1, 1); (-1, 0); (-1, -1); (0, -1); (1, -1)].

(** [any(p >= size)], [p] an [int2] compared as unsigned with a [uint2] *)
Definition any_ge (p size : int2) : bool :=
  (to_uint (fst size) <=? to_uint (fst p)) || (to_uint (snd size) <=? to_uint (snd p)).

Section Kernel.
Context {F : Type} {FO : FloatOps F}.
Variable env : Env F.
#[local] Open Scope flt_scope.

#[local] Abbreviation K := (M F (shared F)).

Definition set_shared_0 (s : shared F) (t : tile (float4 F)) : shared F :=
  mk_shared t (g_ffx_dnsr_shared_1 s).
Definition set_shared_1 (s : shared F) (t : tile F) : shared F :=
  mk_shared (g_ffx_dnsr_shared_0 s) t.

Definition FFX_DNSR_Reflections_LoadFromGroupSharedMemory (idx : int2)
  : K (FFX_DNSR_Reflections_NeighborhoodSample F) :=
  unpacked_radiance <- shared_load Shared0 g_ffx_dnsr_shared_0 idx ;;
  ret {| radiance := unpacked_radiance |}.

(** [flWeight] defaults to 0. *)
Definition FFX_DNSR_Reflections_StoreInGroupSharedMemory (group_thread_id : int2)
    (radiance_variance : float4 F) (flWeight : F) : K unit :=
  shared_store Shared0 g_ffx_dnsr_shared_0 set_shared_0 group_thread_id radiance_variance ;;;
  shared_store Shared1 g_ffx_dnsr_shared_1 set_shared_1 group_thread_id flWeight.

(** The first loop: the four loads, kept in registers. *)
Fixpoint load_blocks (dispatch_thread_id : int2) (offset : list int2) : K (list (float4 F)) :=
  match offset with
  | [] => ret []
  | o :: rest =>
      r <- tex_load Radiance (FFX_DNSR_Reflections_LoadRadiance env)
             (int2_add dispatch_thread_id o) ;;
      rs <- load_blocks dispatch_thread_id rest ;;
      ret (r :: rs)
  end.

(** The second loop: the registers moved to shared memory. *)
Fixpoint store_blocks (group_thread_id : int2) (offset : list int2)
    (regs : list (float4 F)) : K unit :=
  match offset, regs with
  | o :: rest, radiance :: regs' =>
      FFX_DNSR_Reflections_StoreInGroupSharedMemory (int2_add group_thread_id o) radiance f0 ;;;
      store_blocks group_thread_id rest regs'
  | _, _ => ret tt
  end.

Definition FFX_DNSR_Reflections_InitializeGroupSharedMemory
    (dispatch_thread_id group_thread_id screen_size : int2) : K unit :=
  let dispatch_thread_id := int2_sub dispatch_thread_id (DISPATCH_OFFSET env) in
  regs <- load_blocks dispatch_thread_id block_offset ;;
  store_blocks group_thread_id block_offset regs.

Definition FFX_DNSR_Reflections_LoadFromGroupSharedMemoryRaw (idx : int2) : K (float4 F) :=
  shared_load Shared0 g_ffx_dnsr_shared_0 idx.

Definition FFX_DNSR_Reflections_GetLuminanceWeight (val : float3 F) : F :=
  let luma := FFX_DNSR_Reflections_Luminance env val in
  let weight :=
    fmax (fexp (- luma * FFX_DNSR_REFLECTIONS_AVG_RADIANCE_LUMINANCE_WEIGHT env))
         (flit (1 # 100)) in
  weight.

Definition FFX_DNSR_Reflections_GetHitPositionReprojection (dispatch_thread_id : int2)
    (uv : float2 F) (reflected_ray_length : F) : K (float2 F) :=
  z <- tex_load Depth (FFX_DNSR_Reflections_LoadDepth env) dispatch_thread_id ;;
  let view_space_ray := InvProjectPosition env (float3_of uv z) in
  let surface_depth := length view_space_ray in
  let ray_length := surface_depth + reflected_ray_length in
  let view_space_ray := normalize view_space_ray in
  let vHitPositionWs := add3 (g_vCameraPositionWs env) (scale3 view_space_ray ray_length) in
  let vHitPositionSs := mul2 (xy3 (ProjectPosition env vHitPositionWs)) (Dimensions env) in
  m <- tex_sample MotionBuffer (Motion_Get env) (add2 vHitPositionSs (splat2 (flit (1 # 2)))) ;;
  ret (mul2 m (InvDimensions env)).

Definition FFX_DNSR_Reflections_GetDisocclusionFactor (normal history_normal : float3 F)
    (linear_depth history_linear_depth : F) : F :=
  let normalWeight := FFX_DNSR_REFLECTIONS_DISOCCLUSION_NORMAL_WEIGHT env in
  let depthWeight := FFX_DNSR_REFLECTIONS_DISOCCLUSION_DEPTH_WEIGHT env in
  let depthWeight := depthWeight * saturate (f1 - linear_depth * flit (1 # 100)) in
  let factor :=
    f1 * fexp (- fabs (f1 - fmax f0 (dot normal history_normal)) * normalWeight)
       * fexp (- fabs (history_linear_depth - linear_depth) / linear_depth * depthWeight) in
  factor.

(** The accumulators of the estimate: mean, variance, accumulated weight. *)
Definition estimate_acc : Type := (float4 F * float4 F * F)%type.

(** The body of the inner loop, at row [j] and column [i]. *)
Definition Estimate_step (group_thread_id : int2) (j i : Z) (acc : estimate_acc)
  : K estimate_acc :=
  let '(estimate_mean, estimate_variance, accumulated_weight) := acc in
  let new_idx := int2_add group_thread_id (i, j) in
  s <- FFX_DNSR_Reflections_LoadFromGroupSharedMemory new_idx ;;
  let radiance := radiance s in
  let weight := FFX_DNSR_Reflections_LocalNeighborhoodKernelWeight env i
                * FFX_DNSR_Reflections_LocalNeighborhoodKernelWeight env j in
  ret (add4 estimate_mean (scale4 radiance weight),
       add4 estimate_variance (scale4 (mul4 radiance radiance) weight),
       accumulated_weight + weight).

Definition FFX_DNSR_Reflections_EstimateLocalNeighborhoodInGroup (group_thread_id : int2)
  : K (FFX_DNSR_Reflections_Moments F) :=
  let radius := FFX_DNSR_REFLECTIONS_LOCAL_NEIGHBORHOOD_RADIUS env in
  '(estimate_mean, estimate_variance, accumulated_weight) <-
    for_each (Zrange (- radius)%Z radius)
      (fun j => for_each (Zrange (- radius)%Z radius) (Estimate_step group_thread_id j))
      (splat4 f0, splat4 f0, f0) ;;
  let estimate_mean := sdiv4 estimate_mean accumulated_weight in
  let estimate_variance := sdiv4 estimate_variance accumulated_weight in
  let estimate_variance := abs4 (sub4 estimate_variance (mul4 estimate_mean estimate_mean)) in
  ret {| mean := estimate_mean; variance := estimate_variance |}.

Definition GetContactHardenedRadiance (dispatch_thread_id : int2) : K (float4 F) :=
  radiance <- tex_load Radiance (FFX_DNSR_Reflections_LoadRadiance env) dispatch_thread_id ;;
  flRayLength <- tex_load RayLength (FFX_DNSR_Reflections_LoadRayLength env) dispatch_thread_id ;;
  ret radiance.

Definition GetContactHardenedRadianceHistory (vUV : float2 F) : K (float4 F) :=
  radiance <- tex_sample RadianceHistory (FFX_DNSR_Reflections_SampleRadianceHistory env) vUV ;;
  ret radiance.

(** The out parameters of [FFX_DNSR_Reflections_PickReprojection]. *)
Record picked : Type := mk_picked {
  disocclusion_factor : F;
  reprojection_uv : float2 F;
  reprojection : float4 F
}.

(** Lines 165-210: the choice between the hit and the surface reprojection.
    Returns the normal, the linear depth and the first candidate. *)
Definition Pick_candidate (dispatch_thread_id group_thread_id screen_size : int2)
    (roughness ray_length : F) : K (float3 F * F * picked) :=
  local_neighborhood <- FFX_DNSR_Reflections_EstimateLocalNeighborhoodInGroup group_thread_id ;;
  let uv := div2 (mk2 (of_int (fst dispatch_thread_id) + flit (1 # 2))
                      (of_int (snd dispatch_thread_id) + flit (1 # 2)))
                 (float2_of_int2 screen_size) in
  normal <- tex_load WorldSpaceNormal (FFX_DNSR_Reflections_LoadWorldSpaceNormal env)
              dispatch_thread_id ;;
  surface_reprojection_uv <-
    tex_load MotionVector (FFX_DNSR_Reflections_LoadMotionVector env) dispatch_thread_id ;;
  hit_reprojection_uv <-
    FFX_DNSR_Reflections_GetHitPositionReprojection dispatch_thread_id uv ray_length ;;
  surface_normal <-
    tex_sample WorldSpaceNormalHistory (FFX_DNSR_Reflections_SampleWorldSpaceNormalHistory env)
      surface_reprojection_uv ;;
  hit_normal <-
    tex_sample WorldSpaceNormalHistory (FFX_DNSR_Reflections_SampleWorldSpaceNormalHistory env)
      hit_reprojection_uv ;;
  surface_history <- GetContactHardenedRadianceHistory surface_reprojection_uv ;;
  hit_history <- GetContactHardenedRadianceHistory hit_reprojection_uv ;;
  let hit_normal_similarity := dot (normalize hit_normal) (normalize normal) in
  let surface_normal_similarity := dot (normalize surface_normal) (normalize normal) in
  hit_roughness <-
    tex_sample RoughnessHistory (FFX_DNSR_Reflections_SampleRoughnessHistory env)
      hit_reprojection_uv ;;
  surface_roughness <-
    tex_sample RoughnessHistory (FFX_DNSR_Reflections_SampleRoughnessHistory env)
      surface_reprojection_uv ;;
  '(history_normal, history_linear_depth, reprojection_uv, reprojection) <-
    (if (hit_normal_similarity
           >? FFX_DNSR_REFLECTIONS_REPROJECTION_NORMAL_SIMILARITY_THRESHOLD env)
          && (hit_normal_similarity + flit (1 # 1000) >? surface_normal_similarity)
     then
       hit_history_depth <-
         tex_sample DepthHistory (FFX_DNSR_Reflections_SampleDepthHistory env)
           hit_reprojection_uv ;;
       let hit_history_linear_depth :=
         FFX_DNSR_Reflections_GetLinearDepth env hit_reprojection_uv hit_history_depth in
       ret (hit_normal, hit_history_linear_depth, hit_reprojection_uv, hit_history)
     else
       surface_history_depth <-
         tex_sample DepthHistory (FFX_DNSR_Reflections_SampleDepthHistory env)
           surface_reprojection_uv ;;
       let surface_history_linear_depth :=
         FFX_DNSR_Reflections_GetLinearDepth env surface_reprojection_uv surface_history_depth in
       ret (surface_normal, surface_history_linear_depth, surface_reprojection_uv,
            surface_history)) ;;
  depth <- tex_load Depth (FFX_DNSR_Reflections_LoadDepth env) dispatch_thread_id ;;
  let linear_depth := FFX_DNSR_Reflections_GetLinearDepth env uv depth in
  let disocclusion_factor :=
    FFX_DNSR_Reflections_GetDisocclusionFactor normal history_normal linear_depth
      history_linear_depth in
  ret (normal, linear_depth,
       {| disocclusion_factor := disocclusion_factor;
          reprojection_uv := reprojection_uv;
          reprojection := reprojection |}).

(** The body of the search loops, at radius [r] and offset [spiral_offset];
    the state is (disocclusion_factor, closest_uv, reprojection_uv). *)
Definition Pick_search_step (normal : float3 F) (linear_depth : F) (dudv : float2 F)
    (r : Z) (spiral_offset : int2) (st : F * float2 F * float2 F)
  : K (F * float2 F * float2 F) :=
  let '(disocclusion_factor, closest_uv, reprojection_uv) := st in
  let uv := add2 reprojection_uv (mul2 (float2_of_int2 (int2_scale spiral_offset r)) dudv) in
  history_normal <-
    tex_sample WorldSpaceNormalHistory (FFX_DNSR_Reflections_SampleWorldSpaceNormalHistory env)
      uv ;;
  history_depth <-
    tex_sample DepthHistory (FFX_DNSR_Reflections_SampleDepthHistory env) uv ;;
  let history_linear_depth := FFX_DNSR_Reflections_GetLinearDepth env uv history_depth in
  let weight :=
    FFX_DNSR_Reflections_GetDisocclusionFactor normal history_normal linear_depth
      history_linear_depth in
  if weight >? disocclusion_factor
  then ret (weight, uv, uv)
  else ret (disocclusion_factor, closest_uv, reprojection_uv).

(** Lines 217-244: the search in the vicinity of the candidate. *)
Definition Pick_search (screen_size : int2) (roughness : F) (normal : float3 F)
    (linear_depth : F) (p : picked) : K picked :=
  let closest_uv := reprojection_uv p in
  let dudv := mk2 (f1 / of_int (fst screen_size)) (f1 / of_int (snd screen_size)) in
  let base_search_radius := 1%Z in
  let rough_search_radius := if roughness >? flit (1 # 2) then 2%Z else base_search_radius in
  '(disocclusion_factor, closest_uv, reprojection_uv) <-
    for_each (Zrange 1 rough_search_radius)
      (fun r => for_each spiral_offsets (Pick_search_step normal linear_depth dudv r))
      (disocclusion_factor p, closest_uv, reprojection_uv p) ;;
  reprojection <- GetContactHardenedRadianceHistory reprojection_uv ;;
  ret {| disocclusion_factor := disocclusion_factor;
         reprojection_uv := reprojection_uv;
         reprojection := reprojection |}.

(** Lines 252-253 and 267-287: the bilinear blend of the four texels that
    pass the occlusion test. *)
Definition Pick_blend (screen_size : int2) (normal : float3 F) (linear_depth : F)
    (reprojection_uv : float2 F)
    (reprojection00 reprojection10 reprojection01 reprojection11 : float4 F)
    (normal00 normal10 normal01 normal11 : float3 F)
    (depth00 depth10 depth01 depth11 : F) : picked :=
  let uvx := ffrac (of_int (fst screen_size) * x2 reprojection_uv + flit (1 # 2)) in
  let uvy := ffrac (of_int (snd screen_size) * y2 reprojection_uv + flit (1 # 2)) in
  let half_threshold := FFX_DNSR_REFLECTIONS_DISOCCLUSION_THRESHOLD env / flit 2 in
  let occlusion (n : float3 F) (d : F) : F :=
    if FFX_DNSR_Reflections_GetDisocclusionFactor normal n linear_depth d >? half_threshold
    then f1 else f0 in
  let wx := occlusion normal00 depth00 in
  let wy := occlusion normal10 depth10 in
  let wz := occlusion normal01 depth01 in
  let ww := occlusion normal11 depth11 in
  let wx := wx * (f1 - uvx) * (f1 - uvy) in
  let wy := wy * uvx * (f1 - uvy) in
  let wz := wz * (f1 - uvx) * uvy in
  let ww := ww * uvx * uvy in
  let ws := fmax (wx + wy + wz + ww) (flit (1 # 1000)) in
  let wx := wx / ws in
  let wy := wy / ws in
  let wz := wz / ws in
  let ww := ww / ws in
  let reprojection :=
    add4 (add4 (add4 (scale4 reprojection00 wx) (scale4 reprojection10 wy))
               (scale4 reprojection01 wz)) (scale4 reprojection11 ww) in
  let history_linear_depth := depth00 * wx + depth10 * wy + depth01 * wz + depth11 * ww in
  let history_normal :=
    add3 (add3 (add3 (scale3 normal00 wx) (scale3 normal10 wy)) (scale3 normal01 wz))
         (scale3 normal11 ww) in
  {| disocclusion_factor :=
       FFX_DNSR_Reflections_GetDisocclusionFactor normal history_normal linear_depth
         history_linear_depth;
     reprojection_uv := reprojection_uv;
     reprojection := reprojection |}.

(** Lines 250-287: the sample rebuilt from the 2x2 interpolation neighborhood. *)
Definition Pick_interpolate (screen_size : int2) (normal : float3 F) (linear_depth : F)
    (p : picked) : K picked :=
  let reprojection_uv := reprojection_uv p in
  let reproject_texel_coords :=
    int2_of_float2 (sub2 (mul2 (float2_of_int2 screen_size) reprojection_uv)
                         (splat2 (flit (1 # 2)))) in
  let at_ (o : int2) := int2_add reproject_texel_coords o in
  reprojection00 <- GetContactHardenedRadiance (at_ (0, 0)%Z) ;;
  reprojection10 <- GetContactHardenedRadiance (at_ (1, 0)%Z) ;;
  reprojection01 <- GetContactHardenedRadiance (at_ (0, 1)%Z) ;;
  reprojection11 <- GetContactHardenedRadiance (at_ (1, 1)%Z) ;;
  let load_normal :=
    tex_load WorldSpaceNormalHistory (FFX_DNSR_Reflections_LoadWorldSpaceNormalHistory env) in
  normal00 <- load_normal (at_ (0, 0)%Z) ;;
  normal10 <- load_normal (at_ (1, 0)%Z) ;;
  normal01 <- load_normal (at_ (0, 1)%Z) ;;
  normal11 <- load_normal (at_ (1, 1)%Z) ;;
  let load_depth (q : int2) : K F :=
    d <- tex_load DepthHistory (FFX_DNSR_Reflections_LoadDepthHistory env) q ;;
    ret (FFX_DNSR_Reflections_GetLinearDepth env reprojection_uv d) in
  depth00 <- load_depth (at_ (0, 0)%Z) ;;
  depth10 <- load_depth (at_ (1, 0)%Z) ;;
  depth01 <- load_depth (at_ (0, 1)%Z) ;;
  depth11 <- load_depth (at_ (1, 1)%Z) ;;
  ret (Pick_blend screen_size normal linear_depth reprojection_uv
         reprojection00 reprojection10 reprojection01 reprojection11
         normal00 normal10 normal01 normal11
         depth00 depth10 depth01 depth11).

(** Line 289. *)
Definition Pick_clamp (p : picked) : picked :=
  {| disocclusion_factor :=
       if disocclusion_factor p <? FFX_DNSR_REFLECTIONS_DISOCCLUSION_THRESHOLD env
       then f0 else disocclusion_factor p;
     reprojection_uv := reprojection_uv p;
     reprojection := reprojection p |}.

Definition FFX_DNSR_Reflections_PickReprojection
    (dispatch_thread_id group_thread_id screen_size : int2) (roughness ray_length : F)
  : K picked :=
  '(normal, linear_depth, p) <-
    Pick_candidate dispatch_thread_id group_thread_id screen_size roughness ray_length ;;
  if disocclusion_factor p >? FFX_DNSR_REFLECTIONS_DISOCCLUSION_THRESHOLD env
  then ret p    (* early out *)
  else
    p <- (if disocclusion_factor p <? FFX_DNSR_REFLECTIONS_DISOCCLUSION_THRESHOLD env
          then Pick_search screen_size roughness normal linear_depth p
          else ret p) ;;
    p <- (if disocclusion_factor p <? FFX_DNSR_REFLECTIONS_DISOCCLUSION_THRESHOLD env
          then Pick_interpolate screen_size normal linear_depth p
          else ret p) ;;
    ret (Pick_clamp p).

(** Lines 306-336: the temporal part, for a glossy pixel.  Returns
    [radiance] as the branch leaves it. *)
Definition Reproject_glossy (dispatch_thread_id group_thread_id screen_size : int2)
    (max_samples : Z) (roughness ray_length : F) (radiance : float4 F) : K (float4 F) :=
  p <- FFX_DNSR_Reflections_PickReprojection dispatch_thread_id group_thread_id screen_size
         roughness ray_length ;;
  prev_variance <-
    tex_sample VarianceHistory (FFX_DNSR_Reflections_SampleVarianceHistory env)
      (reprojection_uv p) ;;
  history_samples <-
    tex_sample NumSamplesHistory (FFX_DNSR_Reflections_SampleNumSamplesHistory env)
      (reprojection_uv p) ;;
  let num_samples := history_samples * disocclusion_factor p in
  let s_max_samples :=
    fmax (flit 8) (of_int max_samples * FFX_DNSR_REFLECTIONS_SAMPLES_FOR_ROUGHNESS env roughness) in
  let num_samples := fmin s_max_samples (num_samples + SampleCountIntersection env) in
  let num_samples := fmax f1 num_samples in
  let new_variance :=
    FFX_DNSR_Reflections_ComputeTemporalVariance env (xyz radiance) (xyz (reprojection p)) in
  if disocclusion_factor p <? FFX_DNSR_REFLECTIONS_DISOCCLUSION_THRESHOLD env then
    emit (EvStoreRadianceReprojected dispatch_thread_id (splat4 f0)) ;;;
    emit (EvStoreVariance dispatch_thread_id f1) ;;;
    emit (EvStoreNumSamples dispatch_thread_id f1) ;;;
    ret radiance
  else
    let variance_mix := lerp new_variance prev_variance (f1 / num_samples) in
    emit (EvStoreRadianceReprojected dispatch_thread_id (reprojection p)) ;;;
    emit (EvStoreVariance dispatch_thread_id variance_mix) ;;;
    emit (EvStoreNumSamples dispatch_thread_id num_samples) ;;;
    ret (set_xyz radiance (lerp3 (xyz radiance) (xyz (reprojection p)) (flit (3 # 10)))).

(** The body of the downsampling loop, [i] being 2, 4, 8. *)
Definition Reproject_downsample_step (group_thread_id : int2) (i : Z) : K unit :=
  let ox := imul (fst group_thread_id) i in
  let oy := imul (snd group_thread_id) i in
  let ix := iadd (imul (fst group_thread_id) i) (idiv i 2) in
  let iy := iadd (imul (snd group_thread_id) i) (idiv i 2) in
  (if (ix <? 8)%Z && (iy <? 8)%Z then
     rad_weight00 <- FFX_DNSR_Reflections_LoadFromGroupSharedMemoryRaw (ox, oy) ;;
     rad_weight10 <- FFX_DNSR_Reflections_LoadFromGroupSharedMemoryRaw (ox, iy) ;;
     rad_weight01 <- FFX_DNSR_Reflections_LoadFromGroupSharedMemoryRaw (ix, oy) ;;
     rad_weight11 <- FFX_DNSR_Reflections_LoadFromGroupSharedMemoryRaw (ix, iy) ;;
     let sumColor := add4 (add4 (add4 rad_weight00 rad_weight01) rad_weight10) rad_weight11 in
     w00 <- shared_load Shared1 g_ffx_dnsr_shared_1 (ox, oy) ;;
     w01 <- shared_load Shared1 g_ffx_dnsr_shared_1 (ix, oy) ;;
     w10 <- shared_load Shared1 g_ffx_dnsr_shared_1 (ox, iy) ;;
     w11 <- shared_load Shared1 g_ffx_dnsr_shared_1 (ix, iy) ;;
     let sumWeight := w00 + w01 + w10 + w11 in
     FFX_DNSR_Reflections_StoreInGroupSharedMemory (ox, oy) sumColor sumWeight
   else ret tt) ;;;
  barrier (other_threads env (Z.to_nat (Z.log2 i) + 1)%nat).

(** Lines 338-376: the 8x8 -> 1 downsampling of the radiance through shared
    memory; [group_thread_id] is still the centered one. *)
Definition Reproject_downsample (dispatch_thread_id group_thread_id screen_size : int2)
    (radiance : float4 F) : K unit :=
  let weight := FFX_DNSR_Reflections_GetLuminanceWeight (xyz radiance) in
  let radiance := set_xyz radiance (scale3 (xyz radiance) weight) in
  let radiance_weight :=    (* radiance, weight *)
    if any_ge dispatch_thread_id screen_size || (weight >? flit 1000)
    then (splat4 f0, f0) else (radiance, weight) in
  let group_thread_id := int2_sub group_thread_id (splat 4) in
  FFX_DNSR_Reflections_StoreInGroupSharedMemory group_thread_id
    (fst radiance_weight) (snd radiance_weight) ;;;
  barrier (other_threads env 1%nat) ;;;
  for_each [2; 4; 8]%Z (fun i _ => Reproject_downsample_step group_thread_id i) tt ;;;
  if int2_eqb group_thread_id (0, 0)%Z then
    sumColor <- FFX_DNSR_Reflections_LoadFromGroupSharedMemoryRaw (0, 0)%Z ;;
    sumWeight <- shared_load Shared1 g_ffx_dnsr_shared_1 (0, 0)%Z ;;
    let weight_acc := fmax sumWeight (flit (1 # 1000)) in
    let radiance_avg := sdiv4 sumColor weight_acc in
    let radiance_avg :=
      mk4 (x4 radiance_avg) (y4 radiance_avg) (z4 radiance_avg) (saturate (w4 radiance_avg)) in
    emit (EvStoreAverageRadiance (int2_div dispatch_thread_id 8) radiance_avg)
  else ret tt.

(** [screen_size] is a [uint2]; [temporal_stability_factor] is not used. *)
Definition FFX_DNSR_Reflections_Reproject
    (dispatch_thread_id group_thread_id screen_size : int2)
    (temporal_stability_factor : F) (max_samples : Z) : K unit :=
  FFX_DNSR_Reflections_InitializeGroupSharedMemory dispatch_thread_id group_thread_id
    (wrap32 (fst screen_size), wrap32 (snd screen_size)) ;;;
  barrier (other_threads env 0%nat) ;;;
  let group_thread_id := int2_add group_thread_id (splat 4) in
  roughness <-
    tex_load Roughness (FFX_DNSR_Reflections_LoadRoughness env) dispatch_thread_id ;;
  normal <-
    tex_load WorldSpaceNormal (FFX_DNSR_Reflections_LoadWorldSpaceNormal env)
      dispatch_thread_id ;;
  radiance <- GetContactHardenedRadiance dispatch_thread_id ;;
  ray_length <-
    tex_load RayLength (FFX_DNSR_Reflections_LoadRayLength env) dispatch_thread_id ;;
  radiance <-
    (if FFX_DNSR_Reflections_IsGlossyReflection env roughness
     then Reproject_glossy dispatch_thread_id group_thread_id screen_size max_samples
            roughness ray_length radiance
     else ret radiance) ;;
  Reproject_downsample dispatch_thread_id group_thread_id screen_size radiance.

(** The initialization of a whole group, its threads taken in the order
    [order]; [dispatch_of] gives each thread its dispatch id. *)
Definition group_initialize (dispatch_of : int2 -> int2) (screen_size : int2)
    (order : list int2) : K unit :=
  for_each order
    (fun gid _ =>
       FFX_DNSR_Reflections_InitializeGroupSharedMemory (dispatch_of gid) gid screen_size)
    tt.
End Kernel.
End Reproject.

(** ** The real-number interpretation of [float] *)

Definition Rltb (a b : R) : bool := if Rlt_dec a b then true else false.

(** [pow(x, y)]: [x^y] for a positive base, 0 at base 0; a negative base
    has no defined result and is given 0. *)
Definition R_pow (x y : R) : R := if Rle_dec x 0 then 0%R else Rpower x y.

(** [frac(x) = x - floor(x)] *)
Definition R_frac (x : R) : R := (x - IZR (Int_part x))%R.

(** [int(x)]: the integer part, toward zero. *)
Definition R_trunc (x : R) : Z :=
  if Rle_dec 0 x then Int_part x else (- Int_part (- x))%Z.

#[export] Instance R_FloatOps : FloatOps R := {|
  flit := Q2R;
  fadd := Rplus;
  fsub := Rminus;
  fmul := Rmult;
  fdiv := Rdiv;
  fneg := Ropp;
  fabs := Rabs;
  fmax := Rmax;
  fmin := Rmin;
  fexp := exp;
  fpow := R_pow;
  fsqrt := sqrt;
  ffrac := R_frac;
  fltb := Rltb;
  of_int := IZR;
  to_int := R_trunc
|}.

(** A scene over the reals in which every texture holds [c] everywhere
    and every pixel has the reflection kind [glossy]; the other threads
    leave the shared memory as it is. *)
Definition flat_prefilter_env (c : R) (glossy : bool) : Prefilter.Env R := {|
  Prefilter.FFX_DNSR_Reflections_LoadRoughness := fun _ => c;
  Prefilter.FFX_DNSR_Reflections_LoadNeighborhood :=
    fun _ _ => (mk4 c c c c, c, mk3 c c c, c);
  Prefilter.FFX_DNSR_Reflections_IsGlossyReflection := fun _ => glossy;
  Prefilter.FFX_DNSR_Reflections_IsMirrorReflection := fun _ => false;
  Prefilter.FFX_DNSR_Reflections_RoundUp8 := fun p => p;
  Prefilter.FFX_DNSR_Reflections_SampleAverageRadiance := fun _ => mk4 c c c c;
  Prefilter.DISPATCH_OFFSET := (4, 4);
  Prefilter.FFX_DNSR_REFLECTIONS_PREFILTER_NORMAL_SIGMA := 512%R;
  Prefilter.FFX_DNSR_REFLECTIONS_PREFILTER_DEPTH_SIGMA := 4%R;
  Prefilter.FFX_DNSR_REFLECTIONS_RADIANCE_WEIGHT_BIAS := (6 / 10)%R;
  Prefilter.FFX_DNSR_REFLECTIONS_RADIANCE_WEIGHT_VARIANCE_K := (1 / 10)%R;
  Prefilter.FFX_DNSR_REFLECTIONS_PREFILTER_VARIANCE_BIAS := (1 / 10)%R;
  Prefilter.FFX_DNSR_REFLECTIONS_PREFILTER_VARIANCE_WEIGHT := (44 / 10)%R;
  Prefilter.other_threads := fun _ s => s
|}.

(** The same for the reprojection, the pixels having the normal [normal];
    [depth_weight] and [threshold] are the disocclusion depth weight and
    threshold. *)
Definition flat_reproject_env (c : R) (normal : float3 R) (glossy : bool)
    (depth_weight threshold : R) : Reproject.Env R := {|
  Reproject.FFX_DNSR_Reflections_LoadRadiance := fun _ => mk4 c c c c;
  Reproject.FFX_DNSR_Reflections_LoadRayLength := fun _ => c;
  Reproject.FFX_DNSR_Reflections_LoadDepth := fun _ => c;
  Reproject.FFX_DNSR_Reflections_LoadRoughness := fun _ => c;
  Reproject.FFX_DNSR_Reflections_LoadWorldSpaceNormal := fun _ => normal;
  Reproject.FFX_DNSR_Reflections_LoadMotionVector := fun _ => mk2 c c;
  Reproject.FFX_DNSR_Reflections_SampleWorldSpaceNormalHistory := fun _ => mk3 c c c;
  Reproject.FFX_DNSR_Reflections_SampleRadianceHistory := fun _ => mk4 c c c c;
  Reproject.FFX_DNSR_Reflections_SampleRoughnessHistory := fun _ => c;
  Reproject.FFX_DNSR_Reflections_SampleDepthHistory := fun _ => c;
  Reproject.FFX_DNSR_Reflections_SampleVarianceHistory := fun _ => c;
  Reproject.FFX_DNSR_Reflections_SampleNumSamplesHistory := fun _ => c;
  Reproject.FFX_DNSR_Reflections_LoadWorldSpaceNormalHistory := fun _ => mk3 c c c;
  Reproject.FFX_DNSR_Reflections_LoadDepthHistory := fun _ => c;
  Reproject.Motion_Get := fun p => p;
  Reproject.FFX_DNSR_Reflections_GetLinearDepth := fun _ d => d;
  Reproject.FFX_DNSR_Reflections_Luminance := fun v => x3 v;
  Reproject.FFX_DNSR_Reflections_IsGlossyReflection := fun _ => glossy;
  Reproject.FFX_DNSR_Reflections_ComputeTemporalVariance := fun _ _ => c;
  Reproject.FFX_DNSR_Reflections_LocalNeighborhoodKernelWeight := fun _ => 1%R;
  Reproject.FFX_DNSR_REFLECTIONS_SAMPLES_FOR_ROUGHNESS := fun r => r;
  Reproject.InvProjectPosition := fun v => v;
  Reproject.ProjectPosition := fun v => v;
  Reproject.Dimensions := mk2 64%R 64%R;
  Reproject.InvDimensions := mk2 (1 / 64)%R (1 / 64)%R;
  Reproject.g_vCameraPositionWs := mk3 0%R 0%R 0%R;
  Reproject.SampleCountIntersection := 1%R;
  Reproject.DISPATCH_OFFSET := (4, 4);
  Reproject.FFX_DNSR_REFLECTIONS_LOCAL_NEIGHBORHOOD_RADIUS := 4;
  Reproject.FFX_DNSR_REFLECTIONS_DISOCCLUSION_NORMAL_WEIGHT := (14 / 10)%R;
  Reproject.FFX_DNSR_REFLECTIONS_DISOCCLUSION_DEPTH_WEIGHT := depth_weight;
  Reproject.FFX_DNSR_REFLECTIONS_DISOCCLUSION_THRESHOLD := threshold;
  Reproject.FFX_DNSR_REFLECTIONS_REPROJECTION_NORMAL_SIMILARITY_THRESHOLD := (9999 / 10000)%R;
  Reproject.FFX_DNSR_REFLECTIONS_AVG_RADIANCE_LUMINANCE_WEIGHT := 5%R;
  Reproject.other_threads := fun _ s => s
|}.

(** Shared memory holding [c] everywhere. *)
Definition flat_prefilter_shared (c : R) : Prefilter.shared R :=
  Prefilter.mk_shared (fun _ _ => mk4 c c c c) (fun _ _ => mk4 c c c c) (fun _ _ => c).
Definition flat_reproject_shared (c : R) : Reproject.shared R :=
  Reproject.mk_shared (fun _ _ => mk4 c c c c) (fun _ _ => c).

(** * The vocabulary of the properties *)

(** ** Scenes over the reals *)

Definition zero3 : float3 R := mk3 0%R 0%R 0%R.

(** A scene in which every history is disoccluded: the pixels are glossy
    and have the zero normal, so that every disocclusion factor is
    exp(-1.4), below the threshold 1. *)
Definition disoccluded_env : Reproject.Env R :=
  flat_reproject_env 1 zero3 true 0 1.

(** The same scene with surfaces that are not glossy. *)
Definition matte_env : Reproject.Env R := flat_reproject_env 1 zero3 false 0 1.

(** ** Traces *)

(** Every access made by [m], from any shared memory, satisfies [P]. *)
Definition emits {F S A} (P : event F -> Prop) (m : M F S A) : Prop :=
  forall s, Forall P (events m s).

(** The accesses to shared memory in a trace fall in the index set [I]. *)
Definition shared_within {F} (I : int2 -> Prop) (e : event F) : Prop :=
  forall idx, shared_index e = Some idx -> I idx.

(** The interior of a tile that the prefilter's filter reads. *)
Definition in_interior (idx : int2) : Prop :=
  1 <= fst idx <= 14 /\ 1 <= snd idx <= 14.

Definition tile_id_eqb (a b : tile_id) : bool :=
  match a, b with
  | Shared0, Shared0 | Shared1, Shared1 | SharedDepth, SharedDepth => true
  | _, _ => false
  end.

(** The indices of the stores to tile [t] in a trace, in order. *)
Definition stored_indices {F} (t : tile_id) (tr : list (event F)) : list int2 :=
  flat_map (fun e => match e with
                     | EvSharedStore t' idx => if tile_id_eqb t t' then [idx] else []
                     | _ => []
                     end) tr.

(** The access [e] is to texture [r]. *)
Definition touches {F} (e : event F) (r : resource) : Prop :=
  store_target e = Some r \/ read_source e = Some r.

(** An access that leaves the history textures as they are, and stores, if
    it stores, to one of the textures [outputs]. *)
Definition history_read_only {F} (outputs : list resource) (e : event F) : Prop :=
  (forall r, touches e r -> is_history r = true -> read_source e = Some r)
  /\ (forall r, store_target e = Some r ->
        In r outputs /\ is_output r = true /\ is_history r = false).

(** The stores of the temporal part: reprojected radiance, variance,
    sample count. *)
Definition is_temporal_store {F} (e : event F) : bool :=
  match e with
  | EvStore (RadianceReprojected | Variance | NumSamples) _ _ => true
  | _ => false
  end.

Definition temporal_stores {F} (tr : list (event F)) : list (event F) :=
  filter is_temporal_store tr.

(** The trace holds a store of a reprojected radiance, of a variance and
    of a sample count for the pixel [p]. *)
Definition stores_temporal_outputs {F} (p : int2) (tr : list (event F)) : Prop :=
  exists radiance variance num_samples,
    In (EvStoreRadianceReprojected p radiance) tr
    /\ In (EvStoreVariance p variance) tr
    /\ In (EvStoreNumSamples p num_samples) tr.

Definition is_barrier {F} (e : event F) : bool :=
  match e with EvBarrier => true | _ => false end.

(** What follows the first barrier of a trace. *)
Fixpoint after_first_barrier {F} (tr : list (event F)) : list (event F) :=
  match tr with
  | [] => []
  | EvBarrier :: tr' => tr'
  | _ :: tr' => after_first_barrier tr'
  end.

(** No store to a shared tile follows the first barrier of the trace. *)
Definition populated_once {F} (tr : list (event F)) : Prop :=
  Forall (fun e => is_shared_store e = false) (after_first_barrier tr).

(** The load of one entry of the radiance tile. *)
Definition is_radiance_tile_load {F} (e : event F) : Prop :=
  exists idx, e = EvSharedLoad Shared0 idx.

(** ** Lists of stores *)

(** The stores [ws], index and value, done in order by [put]. *)
Definition apply_writes {S C} (put : S -> int2 -> C -> S) (ws : list (int2 * C)) (s : S) : S :=
  fold_left (fun s w => put s (fst w) (snd w)) ws s.

(** Deciding that a list of indices has no index twice, and that its
    indices are among those of another. *)
Fixpoint nodupb (l : list int2) : bool :=
  match l with
  | [] => true
  | x :: l' => negb (existsb (int2_eqb x) l') && nodupb l'
  end.

Definition inclb (l l' : list int2) : bool :=
  forallb (fun x => existsb (int2_eqb x) l') l.

(** The indices that the initialization of thread [gid] stores to. *)
Definition block_indices (gid : int2) : list int2 := map (int2_add gid) block_offset.

Section InitializationWrites.
Context {F : Type} {FO : FloatOps F}.

(** The entries of the prefilter's three tiles at one index, and their
    update. *)
Definition prefilter_cell (s : Prefilter.shared F) (idx : int2) : float4 F * float4 F * F :=
  (tget (Prefilter.g_ffx_dnsr_shared_0 s) idx,
   tget (Prefilter.g_ffx_dnsr_shared_1 s) idx,
   tget (Prefilter.g_ffx_dnsr_shared_depth s) idx).

Definition prefilter_put (s : Prefilter.shared F) (idx : int2)
    (c : float4 F * float4 F * F) : Prefilter.shared F :=
  Prefilter.mk_shared
    (tset (Prefilter.g_ffx_dnsr_shared_0 s) idx (fst (fst c)))
    (tset (Prefilter.g_ffx_dnsr_shared_1 s) idx (snd (fst c)))
    (tset (Prefilter.g_ffx_dnsr_shared_depth s) idx (snd c)).

(** What the store makes of a loaded neighborhood value. *)
Definition prefilter_pack (reg : float4 F * F * float3 F * F) : float4 F * float4 F * F :=
  let '(radiance, variance, normal, depth) := reg in
  (radiance, float4_of normal variance, depth).

(** The stores of the prefilter's initialization by one thread. *)
Definition prefilter_init_writes (env : Prefilter.Env F)
    (dispatch_thread_id group_thread_id screen_size : int2)
  : list (int2 * (float4 F * float4 F * F)) :=
  map (fun o =>
         (int2_add group_thread_id o,
          prefilter_pack
            (Prefilter.FFX_DNSR_Reflections_LoadNeighborhood env
               (int2_add (int2_sub dispatch_thread_id (Prefilter.DISPATCH_OFFSET env)) o)
               screen_size)))
      block_offset.

(** The entries of the reprojection's two tiles at one index, and their
    update. *)
Definition reproject_cell (s : Reproject.shared F) (idx : int2) : float4 F * F :=
  (tget (Reproject.g_ffx_dnsr_shared_0 s) idx, tget (Reproject.g_ffx_dnsr_shared_1 s) idx).

Definition reproject_put (s : Reproject.shared F) (idx : int2) (c : float4 F * F)
  : Reproject.shared F :=
  Reproject.mk_shared
    (tset (Reproject.g_ffx_dnsr_shared_0 s) idx (fst c))
    (tset (Reproject.g_ffx_dnsr_shared_1 s) idx (snd c)).

(** The stores of the reprojection's initialization by one thread. *)
Definition reproject_init_writes (env : Reproject.Env F)
    (dispatch_thread_id group_thread_id : int2)
  : list (int2 * (float4 F * F)) :=
  map (fun o =>
         (int2_add group_thread_id o,
          (Reproject.FFX_DNSR_Reflections_LoadRadiance env
             (int2_add (int2_sub dispatch_thread_id (Reproject.DISPATCH_OFFSET env)) o),
           f0)))
      block_offset.
End InitializationWrites.

(** ** The moments of the local neighborhood *)

(** The offsets of the (2 radius + 1)^2 neighborhood, row by row. *)
Definition neighborhood (radius : Z) : list int2 :=
  flat_map (fun j => map (fun i => (i, j)) (Zrange (- radius) radius))
           (Zrange (- radius) radius).

Section WeightedMoments.
Context {F : Type} {FO : FloatOps F}.
Variable env : Reproject.Env F.
Variable s : Reproject.shared F.
Variable group_thread_id : int2.

(** Sums over a list, from the left. *)
Definition sum4 {X} (f : X -> float4 F) (l : list X) : float4 F :=
  fold_left (fun acc x => add4 acc (f x)) l (splat4 f0).
Definition sum1 {X} (f : X -> F) (l : list X) : F :=
  fold_left (fun acc x => fadd acc (f x)) l f0.

(** The weight of the kernel at an offset, and the radiance there. *)
Definition kernel_weight (o : int2) : F :=
  fmul (Reproject.FFX_DNSR_Reflections_LocalNeighborhoodKernelWeight env (fst o))
       (Reproject.FFX_DNSR_Reflections_LocalNeighborhoodKernelWeight env (snd o)).
Definition radiance_at (o : int2) : float4 F :=
  tget (Reproject.g_ffx_dnsr_shared_0 s) (int2_add group_thread_id o).

Definition accumulated_kernel_weight : F :=
  sum1 kernel_weight (neighborhood (Reproject.FFX_DNSR_REFLECTIONS_LOCAL_NEIGHBORHOOD_RADIUS env)).

(** The kernel-weighted average of the radiance over the neighborhood. *)
Definition weighted_mean : float4 F :=
  sdiv4 (sum4 (fun o => scale4 (radiance_at o) (kernel_weight o))
           (neighborhood (Reproject.FFX_DNSR_REFLECTIONS_LOCAL_NEIGHBORHOOD_RADIUS env)))
        accumulated_kernel_weight.

(** E[r^2] under the same weights. *)
Definition weighted_second_moment : float4 F :=
  sdiv4 (sum4 (fun o => scale4 (mul4 (radiance_at o) (radiance_at o)) (kernel_weight o))
           (neighborhood (Reproject.FFX_DNSR_REFLECTIONS_LOCAL_NEIGHBORHOOD_RADIUS env)))
        accumulated_kernel_weight.

(** |E[r^2] - mean^2| *)
Definition weighted_variance : float4 F :=
  abs4 (sub4 weighted_second_moment (mul4 weighted_mean weighted_mean)).

(** The three accumulators of the estimate after the offsets [l], as three
    sums. *)
Definition estimate_sums (l : list int2) (acc : float4 F * float4 F * F)
  : float4 F * float4 F * F :=
  (fold_left (fun a o => add4 a (scale4 (radiance_at o) (kernel_weight o)))
             l (fst (fst acc)),
   fold_left (fun a o => add4 a (scale4 (mul4 (radiance_at o) (radiance_at o))
                                        (kernel_weight o)))
             l (snd (fst acc)),
   fold_left (fun a o => fadd a (kernel_weight o)) l (snd acc)).
End WeightedMoments.

(** A float4 whose components are all at least 0. *)
Definition nonneg4 (v : float4 R) : Prop :=
  (0 <= x4 v /\ 0 <= y4 v /\ 0 <= z4 v /\ 0 <= w4 v)%R.

(** ** The reprojection kernel at its call of the pick *)

Section ReprojectCall.
Context {F : Type} {FO : FloatOps F}.
Variable env : Reproject.Env F.

(** The shared memory with which the kernel leaves its first barrier. *)
Definition reproject_synced (dtid gid ss : int2) (s : Reproject.shared F)
  : Reproject.shared F :=
  Reproject.other_threads env 0%nat
    (final (Reproject.FFX_DNSR_Reflections_InitializeGroupSharedMemory env dtid gid
              (wrap32 (fst ss), wrap32 (snd ss))) s).

(** The result of [FFX_DNSR_Reflections_PickReprojection] as the kernel
    calls it. *)
Definition reproject_picked (dtid gid ss : int2) (s : Reproject.shared F)
  : Reproject.picked :=
  value (Reproject.FFX_DNSR_Reflections_PickReprojection env dtid
           (int2_add gid (splat 4)) ss
           (Reproject.FFX_DNSR_Reflections_LoadRoughness env dtid)
           (Reproject.FFX_DNSR_Reflections_LoadRayLength env dtid))
        (reproject_synced dtid gid ss s).

(** [d] is a disocclusion factor of the pixel with normal [normal] and
    linear depth [linear_depth], against some history. *)
Definition factor_of (normal : float3 F) (linear_depth : F) (d : F) : Prop :=
  exists history_normal history_linear_depth,
    d = Reproject.FFX_DNSR_Reflections_GetDisocclusionFactor env normal history_normal
          linear_depth history_linear_depth.
End ReprojectCall.

(** A prefilter scene over the reals with unit normals: every pixel has
    radiance 1, variance 1, normal (0, 0, 1) and depth 1 and is a glossy
    reflection that is not a mirror; the shared memory holds the same. *)
Definition facing_prefilter_env : Prefilter.Env R := {|
  Prefilter.FFX_DNSR_Reflections_LoadRoughness := fun _ => (1 / 2)%R;
  Prefilter.FFX_DNSR_Reflections_LoadNeighborhood :=
    fun _ _ => (mk4 1 1 1 1, 1, mk3 0 0 1, 1)%R;
  Prefilter.FFX_DNSR_Reflections_IsGlossyReflection := fun _ => true;
  Prefilter.FFX_DNSR_Reflections_IsMirrorReflection := fun _ => false;
  Prefilter.FFX_DNSR_Reflections_RoundUp8 := fun p => p;
  Prefilter.FFX_DNSR_Reflections_SampleAverageRadiance := fun _ => (mk4 1 1 1 1)%R;
  Prefilter.DISPATCH_OFFSET := (4, 4);
  Prefilter.FFX_DNSR_REFLECTIONS_PREFILTER_NORMAL_SIGMA := 512%R;
  Prefilter.FFX_DNSR_REFLECTIONS_PREFILTER_DEPTH_SIGMA := 4%R;
  Prefilter.FFX_DNSR_REFLECTIONS_RADIANCE_WEIGHT_BIAS := (6 / 10)%R;
  Prefilter.FFX_DNSR_REFLECTIONS_RADIANCE_WEIGHT_VARIANCE_K := (1 / 10)%R;
  Prefilter.FFX_DNSR_REFLECTIONS_PREFILTER_VARIANCE_BIAS := (1 / 10)%R;
  Prefilter.FFX_DNSR_REFLECTIONS_PREFILTER_VARIANCE_WEIGHT := (44 / 10)%R;
  Prefilter.other_threads := fun _ s => s
|}.

Definition facing_prefilter_shared : Prefilter.shared R :=
  Prefilter.mk_shared (fun _ _ => mk4 1 1 1 1)%R (fun _ _ => mk4 0 0 1 1)%R (fun _ _ => 1%R).

(** ** The prefilter kernel after its barrier *)

(** The three loads of [FFX_DNSR_Reflections_LoadFromGroupSharedMemory]
    of the prefilter at [idx]. *)
Definition sample_loads {F} (idx : int2) : list (event F) :=
  [EvSharedLoad Shared0 idx; EvSharedLoad Shared1 idx; EvSharedLoad SharedDepth idx].

Section PrefilterCall.
Context {F : Type} {FO : FloatOps F}.
Variable env : Prefilter.Env F.

(** The shared memory with which the kernel leaves its barrier. *)
Definition prefilter_synced (dtid gid ss : int2) (s : Prefilter.shared F)
  : Prefilter.shared F :=
  Prefilter.other_threads env 0%nat
    (final (Prefilter.FFX_DNSR_Reflections_InitializeGroupSharedMemory env dtid gid
              (wrap32 (fst ss), wrap32 (snd ss))) s).

(** The sample that the kernel loads as [center]. *)
Definition prefilter_center (dtid gid ss : int2) (s : Prefilter.shared F)
  : Prefilter.FFX_DNSR_Reflections_NeighborhoodSample F :=
  value (Prefilter.FFX_DNSR_Reflections_LoadFromGroupSharedMemory (int2_add gid (splat 4)))
        (prefilter_synced dtid gid ss s).
End PrefilterCall.

(** ** Ranges, and code that only reads *)

(** A float4 whose components all lie between [lo] and [hi]. *)
Definition within4 (lo hi : R) (v : float4 R) : Prop :=
  (lo <= x4 v <= hi /\ lo <= y4 v <= hi /\ lo <= z4 v <= hi /\ lo <= w4 v <= hi)%R.

(** [m] leaves the shared memory as it finds it. *)
Definition leaves_shared {F S A} (m : M F S A) : Prop := forall s, final m s = s.

(** The bilinear interpolation of four values at the fractions [u], [v]. *)
Definition bilinear (u v a00 a10 a01 a11 : R) : R :=
  (a00 * ((1 - u) * (1 - v)) + a10 * (u * (1 - v)) + a01 * ((1 - u) * v) + a11 * (u * v))%R.

(** ** The downsampling of a group *)

Definition is_average_store {F} (e : event F) : bool :=
  match e with EvStore AverageRadiance _ _ => true | _ => false end.

Section GroupDownsample.
Context {F : Type} {FO : FloatOps F}.
Variable env : Reproject.Env F.

(** Lines 370-374: the average that thread (0, 0) makes of the entry
    [0][0] of the two tiles. *)
Definition downsample_average (s : Reproject.shared F) : float4 F :=
  let sumColor := tget (Reproject.g_ffx_dnsr_shared_0 s) (0, 0) in
  let sumWeight := tget (Reproject.g_ffx_dnsr_shared_1 s) (0, 0) in
  let weight_acc := fmax sumWeight (flit (1 # 1000)) in
  let radiance_avg := sdiv4 sumColor weight_acc in
  mk4 (x4 radiance_avg) (y4 radiance_avg) (z4 radiance_avg) (saturate (w4 radiance_avg)).

(** One round of the downsampling loop, the threads of the group taking
    the body one after the other in the order [order]. *)
Definition group_downsample_round (i : Z) (order : list int2) : M F (Reproject.shared F) unit :=
  for_each order (fun gid _ => Reproject.Reproject_downsample_step env gid i) tt.

(** The three rounds, [i] = 2, 4, 8, each in an order of its own. *)
Definition group_downsample (order2 order4 order8 : list int2)
  : M F (Reproject.shared F) unit :=
  group_downsample_round 2 order2 ;;;
  group_downsample_round 4 order4 ;;;
  group_downsample_round 8 order8.

(** The sum of two entries, radiance and weight. *)
Definition add_cell (a b : float4 F * F) : float4 F * F :=
  (add4 (fst a) (fst b), fadd (snd a) (snd b)).

(** The sum of the four entries at distance [h] that a round adds up,
    in the order of the source. *)
Definition quad_sum (cellf : int2 -> float4 F * F) (corner : int2) (h : Z) : float4 F * F :=
  add_cell
    (add_cell (add_cell (cellf corner) (cellf (fst corner + h, snd corner)))
              (cellf (fst corner, snd corner + h)))
    (cellf (fst corner + h, snd corner + h)).

(** The sum of the 2^level x 2^level block at [corner], as a tree. *)
Fixpoint block_sum (cellf : int2 -> float4 F * F) (corner : int2) (level : nat)
  : float4 F * F :=
  match level with
  | O => cellf corner
  | S k => quad_sum (fun c => block_sum cellf c k) corner (2 ^ Z.of_nat k)
  end.
End GroupDownsample.

(** The block that a thread sums in the round [i], and whether it takes
    part in the round. *)
Definition downsample_corner (i : Z) (gid : int2) : int2 := (fst gid * i, snd gid * i).
Definition downsample_active (i : Z) (gid : int2) : bool :=
  (fst gid * i + Z.quot i 2 <? 8) && (snd gid * i + Z.quot i 2 <? 8).
Definition downsample_reads (i : Z) (gid : int2) : list int2 :=
  let c := downsample_corner i gid in
  let h := Z.quot i 2 in
  [c; (fst c + h, snd c); (fst c, snd c + h); (fst c + h, snd c + h)].

(** No active thread of a round stores where another one loads. *)
Definition downsample_disjointb (i : Z) : bool :=
  forallb
    (fun g =>
       forallb
         (fun g' =>
            int2_eqb g g' || negb (downsample_active i g) || negb (downsample_active i g')
            || negb (existsb (int2_eqb (downsample_corner i g)) (downsample_reads i g')))
         group_threads)
    group_threads.

(** Lines 340-345: the radiance and the weight that a thread puts into
    the downsampling. *)
Definition downsample_contribution {F} {FO : FloatOps F} (env : Reproject.Env F)
    (dispatch_thread_id screen_size : int2) (radiance : float4 F) : float4 F * F :=
  let weight := Reproject.FFX_DNSR_Reflections_GetLuminanceWeight env (xyz radiance) in
  let radiance := set_xyz radiance (scale3 (xyz radiance) weight) in
  if Reproject.any_ge dispatch_thread_id screen_size || fltb (flit 1000) weight
  then (splat4 f0, f0) else (radiance, weight).

(** ** Barriers and what lies between them *)

(** The number of barriers in a trace. *)
Definition barrier_count {F} (tr : list (event F)) : nat :=
  List.length (filter is_barrier tr).

(** An access that reads no history texture. *)
Definition reads_no_history {F} (e : event F) : Prop :=
  forall r, read_source e = Some r -> is_history r = false.

(** The accesses between the [n]-th barrier of a trace and the next one;
    those before the first barrier for [n] = 0. *)
Fixpoint barrier_interval {F} (n : nat) (tr : list (event F)) : list (event F) :=
  match tr with
  | [] => []
  | EvBarrier :: tr' =>
      match n with
      | O => []
      | S n' => barrier_interval n' tr'
      end
  | e :: tr' =>
      match n with
      | O => e :: barrier_interval O tr'
      | S _ => barrier_interval n tr'
      end
  end.

(** * Properties *)

(** ** The sizes and indices at hand *)

Example group_threads_count : List.length group_threads = 64%nat.
Proof. reflexivity. Qed.

Example tile_indices_count : List.length tile_indices = 256%nat.
Proof. reflexivity. Qed.

Example sample_offsets_count : List.length Prefilter.sample_offsets = 15%nat.
Proof. reflexivity. Qed.

Example neighborhood_radius_4 : List.length (neighborhood 4) = 81%nat.
Proof. reflexivity. Qed.

Example last_thread_last_block : int2_add (7, 7) (8, 8) = (15, 15).
Proof. reflexivity. Qed.

Example int_wraps_around : iadd (2 ^ 31 - 1) 1 = - 2 ^ 31.
Proof. reflexivity. Qed.

(** In the first round of the downsampling thread (1,1) sums the 2x2 block
    at (2,2) into its corner; thread (7,7) only waits at the barrier. *)
Example downsample_step_thread_1_1 :
  stored_indices Shared0
    (events (Reproject.Reproject_downsample_step matte_env (1, 1) 2) (flat_reproject_shared 0))
  = [(2, 2)].
Proof. reflexivity. Qed.

Example downsample_step_thread_7_7 :
  events (Reproject.Reproject_downsample_step matte_env (7, 7) 2) (flat_reproject_shared 0)
  = [EvBarrier].
Proof. reflexivity. Qed.

(** ** Running a kernel *)

Section MonadLemmas.
Context {F S : Type}.
Implicit Types s : S.

Lemma run_bind {A B} (m : M F S A) (k : A -> M F S B) s :
  bind m k s =
  (value (k (value m s)) (final m s),
   final (k (value m s)) (final m s),
   events m s ++ events (k (value m s)) (final m s)).
Proof.
  unfold bind, value, final, events.
  destruct (m s) as [[a s1] t1]; simpl.
  destruct (k a s1) as [[b s2] t2]; reflexivity.
Qed.

Lemma value_bind {A B} (m : M F S A) (k : A -> M F S B) s :
  value (bind m k) s = value (k (value m s)) (final m s).
Proof. unfold value at 1. rewrite run_bind. reflexivity. Qed.

Lemma final_bind {A B} (m : M F S A) (k : A -> M F S B) s :
  final (bind m k) s = final (k (value m s)) (final m s).
Proof. unfold final at 1. rewrite run_bind. reflexivity. Qed.

Lemma events_bind {A B} (m : M F S A) (k : A -> M F S B) s :
  events (bind m k) s = events m s ++ events (k (value m s)) (final m s).
Proof. unfold events at 1. rewrite run_bind. reflexivity. Qed.

Lemma events_for_each_cons {A X} (x : X) (l : list X) (body : X -> A -> M F S A) acc s :
  events (for_each (x :: l) body acc) s =
  events (body x acc) s
  ++ events (for_each l body (value (body x acc) s)) (final (body x acc) s).
Proof. simpl. apply events_bind. Qed.
End MonadLemmas.

(** ** Tiles *)

Lemma tget_tset_same {V} (t : tile V) idx v : tget (tset t idx v) idx = v.
Proof. unfold tget, tset. rewrite !Z.eqb_refl. reflexivity. Qed.

Lemma tget_tset_other {V} (t : tile V) idx idx' v :
  idx' <> idx -> tget (tset t idx v) idx' = tget t idx'.
Proof.
  unfold tget, tset. intros Hne.
  destruct (snd idx' =? snd idx) eqn:Ey; [destruct (fst idx' =? fst idx) eqn:Ex|]; try reflexivity.
  exfalso. apply Hne. apply Z.eqb_eq in Ex, Ey.
  destruct idx, idx'; simpl in *; congruence.
Qed.

(** ** The prefilter's shared-memory packing *)

(** C4: on an index of the 16x16 tiles, a sample stored by the prefilter's
    [FFX_DNSR_Reflections_StoreInGroupSharedMemory] is read back unchanged by
    [FFX_DNSR_Reflections_LoadFromGroupSharedMemory]: same radiance,
    variance, normal and depth. *)
Theorem prefilter_store_load_round_trip :
  forall (F : Type) (idx : int2) (radiance : float4 F) (variance : F)
         (normal : float3 F) (depth : F) (s : Prefilter.shared F),
    in_tile idx ->
    value (Prefilter.FFX_DNSR_Reflections_StoreInGroupSharedMemory idx
             radiance variance normal depth ;;;
           Prefilter.FFX_DNSR_Reflections_LoadFromGroupSharedMemory idx) s
    = Prefilter.mk_sample radiance variance normal depth.
Proof.
  intros F idx radiance variance [nx ny nz] depth s _.
  unfold value, Prefilter.FFX_DNSR_Reflections_StoreInGroupSharedMemory,
    Prefilter.FFX_DNSR_Reflections_LoadFromGroupSharedMemory,
    shared_store, shared_load, bind, ret, emit, get_state, put_state.
  simpl. rewrite !tget_tset_same. reflexivity.
Qed.

Lemma prefilter_store_load_round_trip_witness :
  in_tile (3, 5) /\
  value (Prefilter.FFX_DNSR_Reflections_StoreInGroupSharedMemory (3, 5)
           (mk4 1%R 2%R 3%R 4%R) 5%R (mk3 6%R 7%R 8%R) 9%R ;;;
         Prefilter.FFX_DNSR_Reflections_LoadFromGroupSharedMemory (3, 5))
        (flat_prefilter_shared 0%R)
  = Prefilter.mk_sample (mk4 1%R 2%R 3%R 4%R) 5%R (mk3 6%R 7%R 8%R) 9%R.
Proof.
  assert (H : in_tile (3, 5)) by (unfold in_tile; simpl; lia).
  split; [exact H | exact (prefilter_store_load_round_trip R _ _ _ _ _ _ H)].
Defined.

(** ** 32-bit arithmetic on small values *)

Lemma wrap32_small z : - 2 ^ 31 <= z < 2 ^ 31 -> wrap32 z = z.
Proof. intros H. unfold wrap32. rewrite Z.mod_small; lia. Qed.

Lemma int2_add_small (a b : int2) :
  - 2 ^ 30 <= fst a < 2 ^ 30 -> - 2 ^ 30 <= snd a < 2 ^ 30 ->
  - 2 ^ 30 <= fst b < 2 ^ 30 -> - 2 ^ 30 <= snd b < 2 ^ 30 ->
  int2_add a b = (fst a + fst b, snd a + snd b).
Proof.
  intros. unfold int2_add, iadd. rewrite !wrap32_small by lia. reflexivity.
Qed.

Lemma in_tileb_spec idx : in_tileb idx = true <-> in_tile idx.
Proof.
  unfold in_tileb, in_tile.
  rewrite !andb_true_iff, !Z.leb_le, !Z.ltb_lt. lia.
Qed.

(** ** What a kernel emits *)

Section Emits.
Context {F S : Type}.
Variable P : event F -> Prop.

Lemma emits_ret {A} (a : A) : emits (S:=S) P (ret a).
Proof. intros s. constructor. Qed.

Lemma emits_bind {A B} (m : M F S A) (k : A -> M F S B) :
  emits (S:=S) P m -> (forall a, emits (S:=S) P (k a)) -> emits (S:=S) P (bind m k).
Proof.
  intros Hm Hk s. rewrite events_bind. apply Forall_app. split; [apply Hm | apply Hk].
Qed.

Lemma emits_emit e : P e -> emits (S:=S) P (emit e).
Proof. intros He s. constructor; [exact He | constructor]. Qed.

Lemma emits_get_state : emits (S:=S) P get_state.
Proof. intros s. constructor. Qed.

Lemma emits_put_state s' : emits (S:=S) P (put_state s').
Proof. intros s. constructor. Qed.

Lemma emits_for_each {A X} (l : list X) (body : X -> A -> M F S A) acc :
  (forall x a, In x l -> emits (S:=S) P (body x a)) -> emits (S:=S) P (for_each l body acc).
Proof.
  revert acc. induction l as [|x l IH]; intros acc Hbody; simpl.
  - apply emits_ret.
  - apply emits_bind.
    + apply Hbody. left. reflexivity.
    + intros a. apply IH. intros y b Hy. apply Hbody. right. exact Hy.
Qed.

Lemma emits_tex_load {X} r (f : int2 -> X) p : P (EvLoad r p) -> emits (S:=S) P (tex_load r f p).
Proof.
  intros H. unfold tex_load. apply emits_bind; [apply emits_emit, H | intros; apply emits_ret].
Qed.

Lemma emits_tex_sample {X} r (f : float2 F -> X) uv :
  P (EvSample r uv) -> emits (S:=S) P (tex_sample r f uv).
Proof.
  intros H. unfold tex_sample. apply emits_bind; [apply emits_emit, H | intros; apply emits_ret].
Qed.

Lemma emits_shared_load {V} t (proj : S -> tile V) idx :
  P (EvSharedLoad t idx) -> emits (S:=S) P (shared_load t proj idx).
Proof.
  intros H. unfold shared_load.
  apply emits_bind; [apply emits_get_state | intros].
  apply emits_bind; [apply emits_emit, H | intros; apply emits_ret].
Qed.

Lemma emits_shared_store {V} t (proj : S -> tile V) upd idx v :
  P (EvSharedStore t idx) -> emits (S:=S) P (shared_store t proj upd idx v).
Proof.
  intros H. unfold shared_store.
  apply emits_bind; [apply emits_get_state | intros].
  apply emits_bind; [apply emits_emit, H | intros; apply emits_put_state].
Qed.

Lemma emits_barrier others : P EvBarrier -> emits (S:=S) P (barrier others).
Proof.
  intros H. unfold barrier.
  apply emits_bind; [apply emits_get_state | intros].
  apply emits_bind; [apply emits_emit, H | intros; apply emits_put_state].
Qed.
End Emits.

(** One step of a proof that a kernel emits only accesses in [P]: the
    goals left are [P e] for the accesses [e] written in the kernel. *)
Ltac head_of t :=
  lazymatch t with
  | ?f _ => head_of f
  | _ => t
  end.

Ltac emits_step :=
  cbv beta iota zeta;
  lazymatch goal with
  | |- emits _ (bind _ _) => apply emits_bind; [| intros ?]
  | |- emits _ (ret _) => apply emits_ret
  | |- emits _ (emit _) => apply emits_emit
  | |- emits _ (tex_load _ _ _) => apply emits_tex_load
  | |- emits _ (tex_sample _ _ _) => apply emits_tex_sample
  | |- emits _ (shared_load _ _ _) => apply emits_shared_load
  | |- emits _ (shared_store _ _ _ _ _) => apply emits_shared_store
  | |- emits _ (barrier _) => apply emits_barrier
  | |- emits _ (for_each _ _ _) => apply emits_for_each; intros ? ? ?
  | |- emits _ (if ?c then _ else _) => destruct c
  | |- emits _ (match ?p with _ => _ end) => destruct p
  | |- emits _ ?m => let h := head_of m in unfold h
  end.

Lemma prefilter_load_emits {F} (P : event F -> Prop) idx :
  (forall t, P (EvSharedLoad t idx)) ->
  emits P (Prefilter.FFX_DNSR_Reflections_LoadFromGroupSharedMemory idx).
Proof.
  intros H. unfold Prefilter.FFX_DNSR_Reflections_LoadFromGroupSharedMemory.
  repeat emits_step; apply H.
Qed.

Lemma prefilter_store_emits {F} (P : event F -> Prop) idx r v n d :
  (forall t, P (EvSharedStore t idx)) ->
  emits P (Prefilter.FFX_DNSR_Reflections_StoreInGroupSharedMemory idx r v n d).
Proof.
  intros H. unfold Prefilter.FFX_DNSR_Reflections_StoreInGroupSharedMemory.
  repeat emits_step; apply H.
Qed.

Lemma prefilter_resolve_emits {F} {FO : FloatOps F} (env : Prefilter.Env F)
    (P : event F -> Prop) c avg center :
  (forall o t, In o Prefilter.sample_offsets -> P (EvSharedLoad t (int2_add c o))) ->
  emits P (Prefilter.FFX_DNSR_Reflections_Resolve env c avg center).
Proof.
  intros H.
  unfold Prefilter.FFX_DNSR_Reflections_Resolve, Prefilter.Resolve_accumulate.
  apply emits_bind.
  - apply emits_for_each. intros o [[aw ar] av] Ho. unfold Prefilter.Resolve_step.
    apply emits_bind; [| intros neighbor; apply emits_ret].
    apply prefilter_load_emits. intros t. apply H, Ho.
  - intros [[aw ar] av]. apply emits_ret.
Qed.

Lemma prefilter_initialize_emits {F} (env : Prefilter.Env F) (P : event F -> Prop)
    dtid gid ss :
  (forall p, P (EvLoad Neighborhood p)) ->
  (forall o t, In o block_offset -> P (EvSharedStore t (int2_add gid o))) ->
  emits P (Prefilter.FFX_DNSR_Reflections_InitializeGroupSharedMemory env dtid gid ss).
Proof.
  intros Hl Hs. unfold Prefilter.FFX_DNSR_Reflections_InitializeGroupSharedMemory.
  apply emits_bind.
  - generalize block_offset as l. induction l as [|o l IH]; simpl; repeat emits_step; auto.
  - intros regs. revert regs. generalize (incl_refl block_offset).
    generalize block_offset at 1 3 as l.
    induction l as [|o l IH]; intros Hincl regs; simpl; [apply emits_ret|].
    destruct regs as [|[[[r v] n] d] regs]; [apply emits_ret|].
    apply emits_bind.
    + apply prefilter_store_emits. intros t. apply Hs, Hincl. left. reflexivity.
    + intros _. apply IH. intros x Hx. apply Hincl. right. exact Hx.
Qed.

Lemma sample_offsets_range :
  Forall (fun o => - 3 <= fst o <= 3 /\ - 3 <= snd o <= 3) Prefilter.sample_offsets.
Proof. unfold Prefilter.sample_offsets. repeat constructor; simpl; lia. Qed.

(** C9: for a thread of the 8x8 group, after the +4 centering, the center
    index and every index that [FFX_DNSR_Reflections_Resolve] loads (the
    center plus one of the 15 offsets, whose components lie in [-3,3])
    lie in [1,14] x [1,14]; every shared-memory access of the whole
    prefilter kernel is inside the 16x16 tiles. *)
Theorem prefilter_shared_accesses_in_bounds :
  forall (F : Type) (FO : FloatOps F) (env : Prefilter.Env F) (group_thread_id : int2),
    in_group group_thread_id ->
    let center_idx := int2_add group_thread_id (splat 4) in
    Forall (fun o => - 3 <= fst o <= 3 /\ - 3 <= snd o <= 3) Prefilter.sample_offsets
    /\ in_interior center_idx
    /\ (forall avg_radiance center,
          emits (shared_within in_interior)
            (Prefilter.FFX_DNSR_Reflections_Resolve env center_idx avg_radiance center))
    /\ (forall dispatch_thread_id screen_size,
          emits (shared_within in_tile)
            (Prefilter.FFX_DNSR_Reflections_Prefilter env dispatch_thread_id
               group_thread_id screen_size)).
Proof.
  intros F FO env [gx gy] [Hx Hy] center_idx. simpl in Hx, Hy.
  assert (Hc : center_idx = (gx + 4, gy + 4)).
  { unfold center_idx, splat. rewrite int2_add_small; simpl; try lia. reflexivity. }
  assert (Hoff : forall o, In o Prefilter.sample_offsets ->
                   in_interior (int2_add center_idx o)).
  { intros o Ho. pose proof sample_offsets_range as Hr.
    rewrite Forall_forall in Hr. specialize (Hr o Ho).
    rewrite Hc, int2_add_small; simpl; try lia.
    unfold in_interior; simpl. lia. }
  assert (Hres : forall avg center,
             emits (shared_within in_interior)
               (Prefilter.FFX_DNSR_Reflections_Resolve env center_idx avg center)).
  { intros avg center. apply prefilter_resolve_emits.
    intros o t Ho idx Hidx. inversion Hidx; subst. apply Hoff, Ho. }
  split; [exact sample_offsets_range|].
  split; [rewrite Hc; unfold in_interior; simpl; lia|].
  split; [exact Hres|].
  intros dtid ss. unfold Prefilter.FFX_DNSR_Reflections_Prefilter.
  fold center_idx.
  assert (Hin : forall idx, in_interior idx -> in_tile idx).
  { unfold in_interior, in_tile. lia. }
  emits_step; [emits_step; intros idx Hidx; discriminate|].
  emits_step.
  { apply prefilter_initialize_emits.
    - intros p idx Hidx. discriminate.
    - intros o t Ho idx Hidx. inversion Hidx; subst.
      unfold block_offset in Ho. simpl in Ho.
      destruct Ho as [<-|[<-|[<-|[<-|[]]]]];
        rewrite int2_add_small; unfold in_tile; simpl; lia. }
  emits_step; [emits_step; intros idx Hidx; discriminate|].
  emits_step.
  { apply prefilter_load_emits. intros t idx Hidx. inversion Hidx; subst.
    apply Hin. rewrite Hc. unfold in_interior; simpl; lia. }
  emits_step.
  - emits_step.
    + emits_step.
      * emits_step. intros idx Hidx; discriminate.
      * intros s. eapply Forall_impl; [| apply Hres].
        intros e He idx Hidx. apply Hin, He, Hidx.
    + emits_step.
  - repeat emits_step. intros idx Hidx; discriminate.
Qed.

Lemma prefilter_shared_accesses_in_bounds_witness :
  in_group (7, 0) /\
  emits (shared_within in_tile)
    (Prefilter.FFX_DNSR_Reflections_Prefilter (flat_prefilter_env 1%R true)
       (15, 8) (7, 0) (64, 64)).
Proof.
  assert (H : in_group (7, 0)) by (unfold in_group; simpl; lia).
  split; [exact H|].
  exact (proj2 (proj2 (proj2
    (prefilter_shared_accesses_in_bounds R R_FloatOps (flat_prefilter_env 1%R true)
       (7, 0) H))) (15, 8) (64, 64)).
Defined.

(** ** Running the primitives *)

Section RunPrimitives.
Context {F S : Type}.
Implicit Types s : S.

Lemma value_ret {A} (a : A) s : value (F:=F) (ret a) s = a.
Proof. reflexivity. Qed.
Lemma final_ret {A} (a : A) s : final (F:=F) (ret a) s = s.
Proof. reflexivity. Qed.
Lemma events_ret {A} (a : A) s : events (F:=F) (ret a) s = [].
Proof. reflexivity. Qed.

Lemma final_emit (e : event F) s : final (emit e) s = s.
Proof. reflexivity. Qed.
Lemma events_emit (e : event F) s : events (emit e) s = [e].
Proof. reflexivity. Qed.

Lemma value_tex_load {X} r (f : int2 -> X) p s : value (F:=F) (tex_load r f p) s = f p.
Proof. reflexivity. Qed.
Lemma final_tex_load {X} r (f : int2 -> X) p s : final (F:=F) (tex_load r f p) s = s.
Proof. reflexivity. Qed.
Lemma events_tex_load {X} r (f : int2 -> X) p s :
  events (F:=F) (tex_load r f p) s = [EvLoad r p].
Proof. reflexivity. Qed.

Lemma value_tex_sample {X} r (f : float2 F -> X) uv s : value (tex_sample r f uv) s = f uv.
Proof. reflexivity. Qed.
Lemma final_tex_sample {X} r (f : float2 F -> X) uv s : final (tex_sample r f uv) s = s.
Proof. reflexivity. Qed.
Lemma events_tex_sample {X} r (f : float2 F -> X) uv s :
  events (tex_sample r f uv) s = [EvSample r uv].
Proof. reflexivity. Qed.

Lemma value_shared_load {V} t (proj : S -> tile V) idx s :
  value (F:=F) (shared_load t proj idx) s = tget (proj s) idx.
Proof. reflexivity. Qed.
Lemma final_shared_load {V} t (proj : S -> tile V) idx s :
  final (F:=F) (shared_load t proj idx) s = s.
Proof. reflexivity. Qed.
Lemma events_shared_load {V} t (proj : S -> tile V) idx s :
  events (F:=F) (shared_load t proj idx) s = [EvSharedLoad t idx].
Proof. reflexivity. Qed.

Lemma final_shared_store {V} t (proj : S -> tile V) upd idx v s :
  final (F:=F) (shared_store t proj upd idx v) s = upd s (tset (proj s) idx v).
Proof. reflexivity. Qed.
Lemma events_shared_store {V} t (proj : S -> tile V) upd idx v s :
  events (F:=F) (shared_store t proj upd idx v) s = [EvSharedStore t idx].
Proof. reflexivity. Qed.

Lemma final_barrier (others : S -> S) s : final (F:=F) (barrier others) s = others s.
Proof. reflexivity. Qed.
Lemma events_barrier (others : S -> S) s : events (F:=F) (barrier others) s = [EvBarrier].
Proof. reflexivity. Qed.
End RunPrimitives.

Create Rewrite HintDb run.
#[export] Hint Rewrite @value_bind @final_bind @events_bind
  @value_ret @final_ret @events_ret @final_emit @events_emit
  @value_tex_load @final_tex_load @events_tex_load
  @value_tex_sample @final_tex_sample @events_tex_sample
  @value_shared_load @final_shared_load @events_shared_load
  @final_shared_store @events_shared_store
  @final_barrier @events_barrier : run.

(** ** Lists of stores to distinct cells *)

Section WriteLists.
Context {S C : Type}.
Variable cell : S -> int2 -> C.
Variable put : S -> int2 -> C -> S.
Hypothesis cell_put_same : forall s idx c, cell (put s idx c) idx = c.
Hypothesis cell_put_other :
  forall s idx idx' c, idx' <> idx -> cell (put s idx c) idx' = cell s idx'.

Lemma apply_writes_app ws ws' s :
  apply_writes put (ws ++ ws') s = apply_writes put ws' (apply_writes put ws s).
Proof. apply fold_left_app. Qed.

Lemma apply_writes_frame ws s idx :
  ~ In idx (map fst ws) -> cell (apply_writes put ws s) idx = cell s idx.
Proof.
  revert s. induction ws as [|[i c] ws IH]; intros s Hnot; simpl; [reflexivity|].
  simpl in Hnot. rewrite IH by tauto.
  apply cell_put_other. intros ->. tauto.
Qed.

Lemma apply_writes_hit ws s idx c :
  NoDup (map fst ws) -> In (idx, c) ws -> cell (apply_writes put ws s) idx = c.
Proof.
  revert s. induction ws as [|[i c0] ws IH]; intros s Hnd Hin; simpl; [destruct Hin|].
  simpl in Hnd. inversion Hnd as [|? ? Hnotin Hnd']; subst.
  destruct Hin as [Heq | Hin].
  - inversion Heq; subst. rewrite apply_writes_frame by exact Hnotin.
    apply cell_put_same.
  - apply IH; assumption.
Qed.
End WriteLists.

(** ** Deciding that two lists of indices hold the same indices once *)

Lemma int2_eqb_eq a b : int2_eqb a b = true <-> a = b.
Proof.
  unfold int2_eqb. rewrite andb_true_iff, !Z.eqb_eq.
  destruct a, b; simpl. split; [intros [-> ->]; reflexivity | intros H; inversion H; auto].
Qed.

Lemma existsb_int2_eqb x l : existsb (int2_eqb x) l = true <-> In x l.
Proof.
  rewrite existsb_exists. split.
  - intros [y [Hy Heq]]. apply int2_eqb_eq in Heq. subst. exact Hy.
  - intros H. exists x. split; [exact H | apply int2_eqb_eq; reflexivity].
Qed.

Lemma nodupb_sound l : nodupb l = true -> NoDup l.
Proof.
  induction l as [|x l IH]; simpl; intros H; constructor.
  - apply andb_true_iff in H. destruct H as [H _].
    intros Hin. apply existsb_int2_eqb in Hin. rewrite Hin in H. discriminate.
  - apply IH. apply andb_true_iff in H. tauto.
Qed.

Lemma inclb_sound l l' : inclb l l' = true -> incl l l'.
Proof.
  unfold inclb. rewrite forallb_forall. intros H x Hx.
  apply existsb_int2_eqb, H, Hx.
Qed.

Lemma same_indices_once l l' :
  nodupb l = true -> nodupb l' = true -> inclb l l' = true -> inclb l' l = true ->
  Permutation l l'.
Proof.
  intros H1 H2 H3 H4. apply NoDup_Permutation; auto using nodupb_sound.
  intros x. split; apply inclb_sound; assumption.
Qed.

Lemma combine_map_map {X A B} (f : X -> A) (g : X -> B) (l : list X) :
  combine (map f l) (map g l) = map (fun x => (f x, g x)) l.
Proof. induction l; simpl; congruence. Qed.

(** Over the 64 threads of a group, they are the 256 indices of a tile,
    each once. *)
Lemma group_block_indices :
  Permutation (flat_map block_indices group_threads) tile_indices.
Proof. apply same_indices_once; vm_compute; reflexivity. Qed.

Lemma group_block_indices_order order :
  Permutation order group_threads ->
  Permutation (flat_map block_indices order) tile_indices.
Proof.
  intros H. eapply Permutation_trans; [| apply group_block_indices].
  apply Permutation_flat_map. exact H.
Qed.

Lemma tile_indices_NoDup : NoDup tile_indices.
Proof. apply nodupb_sound. vm_compute. reflexivity. Qed.

Lemma tile_indices_spec idx : In idx tile_indices <-> in_tile idx.
Proof.
  rewrite <- in_tileb_spec. split.
  - intros H. revert idx H. apply Forall_forall.
    vm_compute. repeat constructor.
  - intros H. apply in_tileb_spec in H. destruct idx as [x y]. destruct H as [Hx Hy].
    simpl in Hx, Hy.
    assert (Hxs : In x (Zseq 0 16)) by
      (unfold Zseq; apply in_map_iff; exists (Z.to_nat x); split; [lia | apply in_seq; lia]).
    assert (Hys : In y (Zseq 0 16)) by
      (unfold Zseq; apply in_map_iff; exists (Z.to_nat y); split; [lia | apply in_seq; lia]).
    unfold tile_indices. apply in_flat_map. exists y. split; [exact Hys|].
    apply in_map_iff. exists x. split; [reflexivity | exact Hxs].
Qed.

(** ** The initialization of the tiles by a group *)

Lemma stored_indices_app {F} t (tr tr' : list (event F)) :
  stored_indices t (tr ++ tr') = stored_indices t tr ++ stored_indices t tr'.
Proof. apply flat_map_app. Qed.

Section PrefilterInit.
Context {F : Type} (env : Prefilter.Env F).
Implicit Types s : Prefilter.shared F.

Lemma prefilter_cell_put_same s idx c : prefilter_cell (prefilter_put s idx c) idx = c.
Proof.
  unfold prefilter_cell, prefilter_put. simpl. rewrite !tget_tset_same.
  destruct c as [[? ?] ?]. reflexivity.
Qed.

Lemma prefilter_cell_put_other s idx idx' c :
  idx' <> idx -> prefilter_cell (prefilter_put s idx c) idx' = prefilter_cell s idx'.
Proof.
  intros H. unfold prefilter_cell, prefilter_put. simpl.
  rewrite !tget_tset_other by exact H. reflexivity.
Qed.

Lemma prefilter_load_blocks_run d ss l s :
  value (Prefilter.load_blocks env d ss l) s
  = map (fun o => Prefilter.FFX_DNSR_Reflections_LoadNeighborhood env (int2_add d o) ss) l
  /\ final (Prefilter.load_blocks env d ss l) s = s
  /\ events (Prefilter.load_blocks env d ss l) s
     = map (fun o => EvLoad Neighborhood (int2_add d o)) l.
Proof.
  induction l as [|o l (IHv & IHf & IHe)]; simpl; [repeat split|].
  autorewrite with run. rewrite IHv, IHf, IHe, app_nil_r. repeat split.
Qed.

Lemma prefilter_store_blocks_run gid l : forall regs s,
  List.length regs = List.length l ->
  final (Prefilter.store_blocks gid l regs) s
  = apply_writes prefilter_put
      (combine (map (int2_add gid) l) (map prefilter_pack regs)) s
  /\ forall t, stored_indices t (events (Prefilter.store_blocks gid l regs) s)
               = map (int2_add gid) l.
Proof.
  induction l as [|o l IH]; intros regs s Hlen.
  - destruct regs; [|discriminate]. simpl. split; [reflexivity | intros; reflexivity].
  - destruct regs as [|[[[r v] n] d] regs]; [discriminate|].
    simpl in Hlen. injection Hlen as Hlen. simpl.
    autorewrite with run.
    destruct (IH regs
                (final (Prefilter.FFX_DNSR_Reflections_StoreInGroupSharedMemory
                          (int2_add gid o) r v n d) s) Hlen) as [IHf IHe].
    split.
    + rewrite IHf. reflexivity.
    + intros t. rewrite stored_indices_app, IHe.
      unfold Prefilter.FFX_DNSR_Reflections_StoreInGroupSharedMemory.
      autorewrite with run. destruct t; reflexivity.
Qed.

Lemma prefilter_initialize_run dtid gid ss s :
  final (Prefilter.FFX_DNSR_Reflections_InitializeGroupSharedMemory env dtid gid ss) s
  = apply_writes prefilter_put (prefilter_init_writes env dtid gid ss) s
  /\ forall t,
       stored_indices t
         (events (Prefilter.FFX_DNSR_Reflections_InitializeGroupSharedMemory env dtid gid ss) s)
       = block_indices gid.
Proof.
  unfold Prefilter.FFX_DNSR_Reflections_InitializeGroupSharedMemory.
  autorewrite with run.
  destruct (prefilter_load_blocks_run
              (int2_sub dtid (Prefilter.DISPATCH_OFFSET env)) ss block_offset s)
    as (Hv & Hf & He).
  rewrite Hv, Hf, He.
  destruct (prefilter_store_blocks_run gid block_offset
              (map (fun o => Prefilter.FFX_DNSR_Reflections_LoadNeighborhood env
                               (int2_add (int2_sub dtid (Prefilter.DISPATCH_OFFSET env)) o) ss)
                   block_offset) s) as [Hsf Hse].
  { rewrite length_map. reflexivity. }
  split.
  - rewrite Hsf. unfold prefilter_init_writes.
    rewrite map_map, combine_map_map. reflexivity.
  - intros t. rewrite stored_indices_app, Hse.
    replace (stored_indices t (map _ block_offset)) with (@nil int2) by reflexivity.
    reflexivity.
Qed.

Lemma prefilter_group_initialize_run dispatch_of ss order : forall s,
  final (Prefilter.group_initialize env dispatch_of ss order) s
  = apply_writes prefilter_put
      (flat_map (fun gid => prefilter_init_writes env (dispatch_of gid) gid ss) order) s
  /\ forall t,
       stored_indices t (events (Prefilter.group_initialize env dispatch_of ss order) s)
       = flat_map block_indices order.
Proof.
  unfold Prefilter.group_initialize. generalize tt as u.
  induction order as [|gid order IH]; intros u s; cbn [for_each flat_map].
  - split; [reflexivity | intros; reflexivity].
  - autorewrite with run.
    destruct (prefilter_initialize_run (dispatch_of gid) gid ss s) as [Hf He].
    destruct (IH (value (Prefilter.FFX_DNSR_Reflections_InitializeGroupSharedMemory env
                           (dispatch_of gid) gid ss) s)
                 (final (Prefilter.FFX_DNSR_Reflections_InitializeGroupSharedMemory env
                           (dispatch_of gid) gid ss) s)) as [IHf IHe].
    split.
    + rewrite IHf, Hf, apply_writes_app. reflexivity.
    + intros t. rewrite stored_indices_app, He, IHe. reflexivity.
Qed.

Lemma prefilter_init_writes_indices dispatch_of ss order :
  map fst (flat_map (fun gid => prefilter_init_writes env (dispatch_of gid) gid ss) order)
  = flat_map block_indices order.
Proof.
  induction order as [|gid order IH]; cbn [flat_map]; [reflexivity|].
  rewrite map_app, IH. reflexivity.
Qed.
End PrefilterInit.

Section ReprojectInit.
Context {F : Type} {FO : FloatOps F} (env : Reproject.Env F).
Implicit Types s : Reproject.shared F.

Lemma reproject_cell_put_same s idx c : reproject_cell (reproject_put s idx c) idx = c.
Proof.
  unfold reproject_cell, reproject_put. simpl. rewrite !tget_tset_same.
  destruct c. reflexivity.
Qed.

Lemma reproject_cell_put_other s idx idx' c :
  idx' <> idx -> reproject_cell (reproject_put s idx c) idx' = reproject_cell s idx'.
Proof.
  intros H. unfold reproject_cell, reproject_put. simpl.
  rewrite !tget_tset_other by exact H. reflexivity.
Qed.

Lemma reproject_load_blocks_run d l s :
  value (Reproject.load_blocks env d l) s
  = map (fun o => Reproject.FFX_DNSR_Reflections_LoadRadiance env (int2_add d o)) l
  /\ final (Reproject.load_blocks env d l) s = s
  /\ events (Reproject.load_blocks env d l) s = map (fun o => EvLoad Radiance (int2_add d o)) l.
Proof.
  induction l as [|o l (IHv & IHf & IHe)]; simpl; [repeat split|].
  autorewrite with run. rewrite IHv, IHf, IHe, app_nil_r. repeat split.
Qed.

Lemma reproject_store_blocks_run gid l : forall regs s,
  List.length regs = List.length l ->
  final (Reproject.store_blocks gid l regs) s
  = apply_writes reproject_put
      (combine (map (int2_add gid) l) (map (fun r => (r, f0)) regs)) s
  /\ forall t, t <> SharedDepth ->
       stored_indices t (events (Reproject.store_blocks gid l regs) s) = map (int2_add gid) l.
Proof.
  induction l as [|o l IH]; intros regs s Hlen.
  - destruct regs; [|discriminate]. simpl. split; [reflexivity | intros; reflexivity].
  - destruct regs as [|r regs]; [discriminate|].
    simpl in Hlen. injection Hlen as Hlen. simpl.
    autorewrite with run.
    destruct (IH regs
                (final (Reproject.FFX_DNSR_Reflections_StoreInGroupSharedMemory
                          (int2_add gid o) r f0) s) Hlen) as [IHf IHe].
    split.
    + rewrite IHf. reflexivity.
    + intros t Ht. rewrite stored_indices_app, IHe by exact Ht.
      unfold Reproject.FFX_DNSR_Reflections_StoreInGroupSharedMemory.
      autorewrite with run. destruct t; [reflexivity | reflexivity | contradiction].
Qed.

Lemma reproject_initialize_run dtid gid ss s :
  final (Reproject.FFX_DNSR_Reflections_InitializeGroupSharedMemory env dtid gid ss) s
  = apply_writes reproject_put (reproject_init_writes env dtid gid) s
  /\ forall t, t <> SharedDepth ->
       stored_indices t
         (events (Reproject.FFX_DNSR_Reflections_InitializeGroupSharedMemory env dtid gid ss) s)
       = block_indices gid.
Proof.
  unfold Reproject.FFX_DNSR_Reflections_InitializeGroupSharedMemory.
  autorewrite with run.
  destruct (reproject_load_blocks_run
              (int2_sub dtid (Reproject.DISPATCH_OFFSET env)) block_offset s)
    as (Hv & Hf & He).
  rewrite Hv, Hf, He.
  destruct (reproject_store_blocks_run gid block_offset
              (map (fun o => Reproject.FFX_DNSR_Reflections_LoadRadiance env
                               (int2_add (int2_sub dtid (Reproject.DISPATCH_OFFSET env)) o))
                   block_offset) s) as [Hsf Hse].
  { rewrite length_map. reflexivity. }
  split.
  - rewrite Hsf. unfold reproject_init_writes.
    rewrite map_map, combine_map_map. reflexivity.
  - intros t Ht. rewrite stored_indices_app, Hse by exact Ht.
    replace (stored_indices t (map _ block_offset)) with (@nil int2) by reflexivity.
    reflexivity.
Qed.

Lemma reproject_group_initialize_run dispatch_of ss order : forall s,
  final (Reproject.group_initialize env dispatch_of ss order) s
  = apply_writes reproject_put
      (flat_map (fun gid => reproject_init_writes env (dispatch_of gid) gid) order) s
  /\ forall t, t <> SharedDepth ->
       stored_indices t (events (Reproject.group_initialize env dispatch_of ss order) s)
       = flat_map block_indices order.
Proof.
  unfold Reproject.group_initialize. generalize tt as u.
  induction order as [|gid order IH]; intros u s; cbn [for_each flat_map].
  - split; [reflexivity | intros; reflexivity].
  - autorewrite with run.
    destruct (reproject_initialize_run (dispatch_of gid) gid ss s) as [Hf He].
    destruct (IH (value (Reproject.FFX_DNSR_Reflections_InitializeGroupSharedMemory env
                           (dispatch_of gid) gid ss) s)
                 (final (Reproject.FFX_DNSR_Reflections_InitializeGroupSharedMemory env
                           (dispatch_of gid) gid ss) s)) as [IHf IHe].
    split.
    + rewrite IHf, Hf, apply_writes_app. reflexivity.
    + intros t Ht. rewrite stored_indices_app, He, IHe by exact Ht. reflexivity.
Qed.

Lemma reproject_init_writes_indices dispatch_of order :
  map fst (flat_map (fun gid => reproject_init_writes env (dispatch_of gid) gid) order)
  = flat_map block_indices order.
Proof.
  induction order as [|gid order IH]; cbn [flat_map]; [reflexivity|].
  rewrite map_app, IH. reflexivity.
Qed.
End ReprojectInit.

(** C2: when the 64 threads of a group have run
    [FFX_DNSR_Reflections_InitializeGroupSharedMemory], in whatever order,
    every entry of each 16x16 tile has been stored to exactly once (the
    indices stored to in each tile are the 256 tile indices, each once),
    and the entry at [group_thread_id + offset] holds what was loaded for
    pixel [(dispatch_thread_id - DISPATCH_OFFSET) + offset]: radiance,
    normal and variance, and depth in the prefilter; radiance, with weight
    0, in the reprojection. *)
Theorem group_initialize_fills_tiles :
  forall (F : Type) (FO : FloatOps F) (penv : Prefilter.Env F) (renv : Reproject.Env F)
         (dispatch_of : int2 -> int2) (screen_size : int2) (order : list int2),
    Permutation order group_threads ->
    (forall s,
       let run := Prefilter.group_initialize penv dispatch_of screen_size order in
       (forall t, Permutation (stored_indices t (events run s)) tile_indices)
       /\ (forall gid o, In gid group_threads -> In o block_offset ->
             let pixel :=
               int2_add (int2_sub (dispatch_of gid) (Prefilter.DISPATCH_OFFSET penv)) o in
             let '(radiance, variance, normal, depth) :=
               Prefilter.FFX_DNSR_Reflections_LoadNeighborhood penv pixel screen_size in
             let idx := int2_add gid o in
             tget (Prefilter.g_ffx_dnsr_shared_0 (final run s)) idx = radiance
             /\ tget (Prefilter.g_ffx_dnsr_shared_1 (final run s)) idx
                = float4_of normal variance
             /\ tget (Prefilter.g_ffx_dnsr_shared_depth (final run s)) idx = depth))
    /\
    (forall s,
       let run := Reproject.group_initialize renv dispatch_of screen_size order in
       (forall t, In t [Shared0; Shared1] ->
                  Permutation (stored_indices t (events run s)) tile_indices)
       /\ (forall gid o, In gid group_threads -> In o block_offset ->
             let pixel :=
               int2_add (int2_sub (dispatch_of gid) (Reproject.DISPATCH_OFFSET renv)) o in
             let idx := int2_add gid o in
             tget (Reproject.g_ffx_dnsr_shared_0 (final run s)) idx
             = Reproject.FFX_DNSR_Reflections_LoadRadiance renv pixel
             /\ tget (Reproject.g_ffx_dnsr_shared_1 (final run s)) idx = f0)).
Proof.
  intros F FO penv renv dispatch_of ss order Hperm.
  pose proof (group_block_indices_order order Hperm) as Hidx.
  assert (Hnd : NoDup (flat_map block_indices order)).
  { eapply Permutation_NoDup; [symmetry; exact Hidx | apply tile_indices_NoDup]. }
  split; intros s run.
  - destruct (prefilter_group_initialize_run penv dispatch_of ss order s) as [Hf He].
    split.
    + intros t. unfold run. rewrite He. exact Hidx.
    + intros gid o Hgid Ho pixel.
      destruct (Prefilter.FFX_DNSR_Reflections_LoadNeighborhood penv pixel ss)
        as [[[radiance variance] normal] depth] eqn:Hload.
      intros idx.
      assert (Hcell : prefilter_cell (final run s) idx
                      = (radiance, float4_of normal variance, depth)).
      { unfold run. rewrite Hf.
        apply (apply_writes_hit prefilter_cell prefilter_put
                 prefilter_cell_put_same prefilter_cell_put_other).
        - rewrite prefilter_init_writes_indices. exact Hnd.
        - apply in_flat_map. exists gid. split.
          + eapply Permutation_in; [symmetry; exact Hperm | exact Hgid].
          + unfold prefilter_init_writes. apply in_map_iff. exists o.
            split; [| exact Ho]. fold pixel. rewrite Hload. reflexivity. }
      unfold prefilter_cell in Hcell. inversion Hcell. auto.
  - destruct (reproject_group_initialize_run renv dispatch_of ss order s) as [Hf He].
    split.
    + intros t Ht. unfold run. rewrite He; [exact Hidx|].
      simpl in Ht. destruct Ht as [<-|[<-|[]]]; discriminate.
    + intros gid o Hgid Ho pixel idx.
      assert (Hcell : reproject_cell (final run s) idx
                      = (Reproject.FFX_DNSR_Reflections_LoadRadiance renv pixel, f0)).
      { unfold run. rewrite Hf.
        apply (apply_writes_hit reproject_cell reproject_put
                 reproject_cell_put_same reproject_cell_put_other).
        - rewrite reproject_init_writes_indices. exact Hnd.
        - apply in_flat_map. exists gid. split.
          + eapply Permutation_in; [symmetry; exact Hperm | exact Hgid].
          + unfold reproject_init_writes. apply in_map_iff. exists o.
            split; [reflexivity | exact Ho]. }
      unfold reproject_cell in Hcell. inversion Hcell. auto.
Qed.

Lemma group_initialize_fills_tiles_witness :
  Permutation group_threads group_threads
  /\ Permutation
       (stored_indices Shared0
          (events (Prefilter.group_initialize (flat_prefilter_env 1 true)
                     (fun gid => int2_add (8, 8) gid) (64, 64) group_threads)
                  (flat_prefilter_shared 0)))
       tile_indices.
Proof.
  assert (H : Permutation group_threads group_threads) by apply Permutation_refl.
  split; [exact H|].
  exact (proj1 (proj1 (group_initialize_fills_tiles R R_FloatOps (flat_prefilter_env 1 true)
                         matte_env (fun gid => int2_add (8, 8) gid) (64, 64)
                         group_threads H)
                      (flat_prefilter_shared 0))
               Shared0).
Defined.

(** ** The local neighborhood estimate *)

Section EstimateLemmas.
Context {F : Type} {FO : FloatOps F}.
Variable env : Reproject.Env F.

Lemma estimate_sums_app s gid l l' acc :
  estimate_sums env s gid (l ++ l') acc = estimate_sums env s gid l' (estimate_sums env s gid l acc).
Proof. unfold estimate_sums. simpl. rewrite !fold_left_app. reflexivity. Qed.

Lemma Estimate_step_run gid j i acc s :
  Reproject.Estimate_step env gid j i acc s
  = (estimate_sums env s gid [(i, j)] acc, s, [EvSharedLoad Shared0 (int2_add gid (i, j))]).
Proof. destruct acc as [[m v] w]. reflexivity. Qed.

Lemma Estimate_row_run gid j cols : forall acc s,
  for_each cols (Reproject.Estimate_step env gid j) acc s
  = (estimate_sums env s gid (map (fun i => (i, j)) cols) acc, s,
     map (fun i => EvSharedLoad Shared0 (int2_add gid (i, j))) cols).
Proof.
  induction cols as [|i cols IH]; intros acc s.
  - destruct acc as [[m v] w]. reflexivity.
  - cbn [for_each map]. rewrite run_bind.
    unfold value, final, events. rewrite Estimate_step_run. cbn [fst snd].
    rewrite IH. cbn [fst snd].
    change ((i, j) :: map (fun i0 => (i0, j)) cols)
      with ([(i, j)] ++ map (fun i0 => (i0, j)) cols).
    rewrite estimate_sums_app. reflexivity.
Qed.

Lemma Estimate_loops_run gid cols rows : forall acc s,
  for_each rows (fun j => for_each cols (Reproject.Estimate_step env gid j)) acc s
  = (estimate_sums env s gid (flat_map (fun j => map (fun i => (i, j)) cols) rows) acc, s,
     map (fun o => EvSharedLoad Shared0 (int2_add gid o))
         (flat_map (fun j => map (fun i => (i, j)) cols) rows)).
Proof.
  induction rows as [|j rows IH]; intros acc s.
  - destruct acc as [[m v] w]. reflexivity.
  - cbn [for_each flat_map]. rewrite run_bind.
    unfold value, final, events. rewrite Estimate_row_run. cbn [fst snd].
    rewrite IH. cbn [fst snd].
    rewrite estimate_sums_app, map_app, map_map. reflexivity.
Qed.

Lemma Estimate_run gid s :
  Reproject.FFX_DNSR_Reflections_EstimateLocalNeighborhoodInGroup env gid s
  = (Reproject.mk_moments (weighted_mean env s gid) (weighted_variance env s gid), s,
     map (fun o => EvSharedLoad Shared0 (int2_add gid o))
         (neighborhood (Reproject.FFX_DNSR_REFLECTIONS_LOCAL_NEIGHBORHOOD_RADIUS env))).
Proof.
  unfold Reproject.FFX_DNSR_Reflections_EstimateLocalNeighborhoodInGroup.
  rewrite run_bind. unfold value, final, events.
  rewrite Estimate_loops_run. cbn [fst snd]. rewrite app_nil_r. reflexivity.
Qed.
End EstimateLemmas.

Lemma Zrange_length lo hi : List.length (Zrange lo hi) = Z.to_nat (hi - lo + 1).
Proof. unfold Zrange, Zseq. rewrite length_map, length_seq. reflexivity. Qed.

Lemma neighborhood_length radius :
  List.length (neighborhood radius)
  = (Z.to_nat (2 * radius + 1) * Z.to_nat (2 * radius + 1))%nat.
Proof.
  unfold neighborhood.
  rewrite flat_map_constant_length with (c := Z.to_nat (2 * radius + 1)).
  - rewrite Zrange_length. f_equal. f_equal. lia.
  - intros j _. rewrite length_map, Zrange_length. f_equal. lia.
Qed.

(** C6: [FFX_DNSR_Reflections_EstimateLocalNeighborhoodInGroup] returns, as
    mean, the sum of radiance times kernel weight over the
    (2 radius + 1)^2 neighborhood of [group_thread_id] in the radiance
    tile, divided by the accumulated kernel weight, and, as variance,
    |E[r^2] - mean^2| under the same weights; it leaves the shared memory
    as it was and does nothing but load entries of the radiance tile.
    Over the reals every component of the variance is at least 0. *)
Theorem estimate_local_neighborhood_moments :
  forall (F : Type) (FO : FloatOps F) (env : Reproject.Env F) (renv : Reproject.Env R)
         (group_thread_id : int2),
    (forall s,
       let run := Reproject.FFX_DNSR_Reflections_EstimateLocalNeighborhoodInGroup
                    env group_thread_id in
       Reproject.mean (value run s) = weighted_mean env s group_thread_id
       /\ Reproject.variance (value run s) = weighted_variance env s group_thread_id
       /\ final run s = s
       /\ Forall is_radiance_tile_load (events run s)
       /\ List.length (events run s)
          = List.length
              (neighborhood (Reproject.FFX_DNSR_REFLECTIONS_LOCAL_NEIGHBORHOOD_RADIUS env)))
    /\ (forall radius,
          List.length (neighborhood radius)
          = (Z.to_nat (2 * radius + 1) * Z.to_nat (2 * radius + 1))%nat)
    /\ (forall s,
          nonneg4 (Reproject.variance
                     (value (Reproject.FFX_DNSR_Reflections_EstimateLocalNeighborhoodInGroup
                               renv group_thread_id) s))).
Proof.
  intros F FO env renv gid. split; [| split].
  - intros s run. unfold value, final, events, run.
    rewrite Estimate_run. cbn [fst snd]. repeat split.
    + apply Forall_forall. intros e He. apply in_map_iff in He.
      destruct He as [o [<- _]]. eexists. reflexivity.
    + apply length_map.
  - exact neighborhood_length.
  - intros s. unfold value. rewrite Estimate_run. cbn [fst snd Reproject.variance].
    unfold weighted_variance, abs4, nonneg4. cbn [x4 y4 z4 w4 fabs R_FloatOps].
    repeat split; apply Rabs_pos.
Qed.

(** ** Loop invariants on the accumulator *)

Lemma for_each_value_invariant {F S A X} (I : A -> Prop) (l : list X)
    (body : X -> A -> M F S A) :
  (forall x acc s, In x l -> I acc -> I (value (body x acc) s)) ->
  forall acc s, I acc -> I (value (for_each l body acc) s).
Proof.
  induction l as [|x l IH]; intros Hbody acc s Hacc; cbn [for_each].
  - exact Hacc.
  - rewrite value_bind. apply IH.
    + intros y a s' Hy. apply Hbody. right. exact Hy.
    + apply Hbody; [left; reflexivity | exact Hacc].
Qed.

(** ** The weights of the prefilter, over the reals *)

Lemma Q2R_lit_0 : Q2R 0 = 0%R.
Proof. unfold Q2R. simpl. lra. Qed.

Lemma Q2R_lit_1 : Q2R 1 = 1%R.
Proof. unfold Q2R. simpl. lra. Qed.

Lemma Q2R_lit_1_100 : Q2R (1 # 100) = (1 / 100)%R.
Proof. unfold Q2R. simpl. lra. Qed.

Lemma R_pow_nonneg x y : (0 <= R_pow x y)%R.
Proof.
  unfold R_pow. destruct (Rle_dec x 0); [lra|].
  unfold Rpower. left. apply exp_pos.
Qed.

Lemma Rltb_true a b : Rltb a b = true <-> (a < b)%R.
Proof. unfold Rltb. destruct (Rlt_dec a b); split; intros; try discriminate; tauto. Qed.

Lemma Rltb_false a b : Rltb a b = false <-> (b <= a)%R.
Proof.
  unfold Rltb. destruct (Rlt_dec a b); split; intros; try discriminate; try reflexivity; lra.
Qed.

Section PrefilterWeights.
Variable env : Prefilter.Env R.

Lemma radiance_weight_lower_bound a b v :
  (1 / 100 <= Prefilter.FFX_DNSR_Reflections_GetRadianceWeight env a b v)%R.
Proof.
  unfold Prefilter.FFX_DNSR_Reflections_GetRadianceWeight.
  cbn [fmax flit R_FloatOps]. rewrite Q2R_lit_1_100. apply Rmax_r.
Qed.

Lemma normal_weight_nonneg p q :
  (0 <= Prefilter.FFX_DNSR_Reflections_GetEdgeStoppingNormalWeight env p q)%R.
Proof. apply R_pow_nonneg. Qed.

Lemma depth_weight_nonneg c n :
  (0 <= Prefilter.FFX_DNSR_Reflections_GetEdgeStoppingDepthWeight env c n)%R.
Proof.
  unfold Prefilter.FFX_DNSR_Reflections_GetEdgeStoppingDepthWeight.
  cbn [fexp R_FloatOps]. left. apply exp_pos.
Qed.

Lemma variance_weight_nonneg center :
  (0 <= Prefilter.FFX_DNSR_REFLECTIONS_PREFILTER_VARIANCE_BIAS env)%R ->
  (0 <= Prefilter.variance_weight env center)%R.
Proof.
  intros H. unfold Prefilter.variance_weight. cbn [fmax R_FloatOps].
  eapply Rle_trans; [exact H | apply Rmax_l].
Qed.

Lemma neighbor_weight_nonneg avg center neighbor :
  (0 <= Prefilter.FFX_DNSR_REFLECTIONS_PREFILTER_VARIANCE_BIAS env)%R ->
  (0 <= Prefilter.neighbor_weight env avg center neighbor)%R.
Proof.
  intros H. unfold Prefilter.neighbor_weight.
  cbn [fmul R_FloatOps]. unfold f1. cbn [flit R_FloatOps]. rewrite Q2R_lit_1.
  pose proof (normal_weight_nonneg (Prefilter.normal center) (Prefilter.normal neighbor)).
  pose proof (depth_weight_nonneg (Prefilter.depth center) (Prefilter.depth neighbor)).
  pose proof (radiance_weight_lower_bound avg (Prefilter.radiance neighbor)
                (Prefilter.variance center)).
  pose proof (variance_weight_nonneg center H).
  repeat apply Rmult_le_pos; lra.
Qed.

Lemma Resolve_step_weight gid avg center o acc s :
  fst (fst (value (Prefilter.Resolve_step env gid avg center o acc) s))
  = (fst (fst acc)
     + Prefilter.neighbor_weight env avg center
         (value (Prefilter.FFX_DNSR_Reflections_LoadFromGroupSharedMemory (int2_add gid o)) s))%R.
Proof. destruct acc as [[w r] v]. reflexivity. Qed.
End PrefilterWeights.

(** C8: over the reals, with a variance bias that is not negative, the
    weight accumulated by [FFX_DNSR_Reflections_Resolve] is at least 1.0e-2
    whatever the inputs: the center weight from
    [FFX_DNSR_Reflections_GetRadianceWeight] is at least 1.0e-2 and every
    neighbor weight is at least 0; so neither divisor of the final
    divisions, the accumulated weight and its square, is zero. *)
Theorem resolve_accumulated_weight_lower_bound :
  forall (env : Prefilter.Env R) (group_thread_id : int2) (avg_radiance : float4 R)
         (center : Prefilter.FFX_DNSR_Reflections_NeighborhoodSample R)
         (s : Prefilter.shared R),
    (0 <= Prefilter.FFX_DNSR_REFLECTIONS_PREFILTER_VARIANCE_BIAS env)%R ->
    let accumulated_weight :=
      fst (fst (value (Prefilter.Resolve_accumulate env group_thread_id avg_radiance center) s)) in
    (1 / 100 <= Prefilter.FFX_DNSR_Reflections_GetRadianceWeight env avg_radiance
                  (Prefilter.radiance center) (Prefilter.variance center))%R
    /\ (forall neighbor,
          (0 <= Prefilter.neighbor_weight env avg_radiance center neighbor)%R)
    /\ (1 / 100 <= accumulated_weight)%R
    /\ accumulated_weight <> 0%R
    /\ (accumulated_weight * accumulated_weight)%R <> 0%R.
Proof.
  intros env gid avg center s Hbias accumulated_weight.
  assert (Hw : (1 / 100 <= accumulated_weight)%R).
  { unfold accumulated_weight, Prefilter.Resolve_accumulate.
    apply (for_each_value_invariant (fun acc => (1 / 100 <= fst (fst acc))%R)).
    - intros o acc s' _ Hacc. rewrite Resolve_step_weight.
      pose proof (neighbor_weight_nonneg env avg center
                    (value (Prefilter.FFX_DNSR_Reflections_LoadFromGroupSharedMemory
                              (int2_add gid o)) s') Hbias).
      lra.
    - cbn [fst]. apply radiance_weight_lower_bound. }
  split; [apply radiance_weight_lower_bound|].
  split; [intros neighbor; apply neighbor_weight_nonneg, Hbias|].
  split; [exact Hw|].
  split; [lra|]. nra.
Qed.

Lemma resolve_accumulated_weight_lower_bound_witness :
  (0 <= Prefilter.FFX_DNSR_REFLECTIONS_PREFILTER_VARIANCE_BIAS (flat_prefilter_env 1 true))%R
  /\ (1 / 100
      <= fst (fst (value (Prefilter.Resolve_accumulate (flat_prefilter_env 1 true) (4, 4)%Z
                            (mk4 1 1 1 1)
                            (Prefilter.mk_sample (mk4 2 2 2 1) 1 (mk3 0 0 1) 1))
                         (flat_prefilter_shared 1))))%R.
Proof.
  assert (H : (0 <= Prefilter.FFX_DNSR_REFLECTIONS_PREFILTER_VARIANCE_BIAS
                      (flat_prefilter_env 1 true))%R) by (simpl; lra).
  split; [exact H|].
  exact (proj1 (proj2 (proj2
    (resolve_accumulated_weight_lower_bound (flat_prefilter_env 1 true) (4, 4)
       (mk4 1 1 1 1)%R (Prefilter.mk_sample (mk4 2 2 2 1) 1 (mk3 0 0 1) 1)%R
       (flat_prefilter_shared 1) H)))).
Defined.

(** ** The disocclusion factor returned by the pick *)

Section PickClamp.
Context {F : Type} {FO : FloatOps F}.
Variable env : Reproject.Env F.
(** [<] is asymmetric: so it is on the reals and on IEEE floats, where a
    comparison with a NaN is false. *)
Hypothesis fltb_asym : forall a b : F, fltb a b = true -> fltb b a = false.

Lemma Pick_clamp_factor (p : Reproject.picked) :
  let T := Reproject.FFX_DNSR_REFLECTIONS_DISOCCLUSION_THRESHOLD env in
  (fltb (Reproject.disocclusion_factor p) T = true ->
   Reproject.disocclusion_factor (Reproject.Pick_clamp env p) = f0)
  /\ (fltb (Reproject.disocclusion_factor p) T = false ->
      Reproject.disocclusion_factor (Reproject.Pick_clamp env p)
      = Reproject.disocclusion_factor p).
Proof.
  intros T. unfold Reproject.Pick_clamp. cbn [Reproject.disocclusion_factor].
  fold T. split; intros H; rewrite H; reflexivity.
Qed.

Lemma PickReprojection_factor_clamped dtid gid ss roughness ray_length s :
  let T := Reproject.FFX_DNSR_REFLECTIONS_DISOCCLUSION_THRESHOLD env in
  let d := Reproject.disocclusion_factor
             (value (Reproject.FFX_DNSR_Reflections_PickReprojection env dtid gid ss
                       roughness ray_length) s) in
  d = f0 \/ fltb d T = false.
Proof.
  intros T d. unfold d, Reproject.FFX_DNSR_Reflections_PickReprojection.
  rewrite value_bind.
  destruct (value (Reproject.Pick_candidate env dtid gid ss roughness ray_length) s)
    as [[normal linear_depth] p].
  cbv beta iota. fold T.
  destruct (fltb T (Reproject.disocclusion_factor p)) eqn:Hearly.
  - rewrite value_ret. right. apply fltb_asym, Hearly.
  - rewrite !value_bind, value_ret.
    match goal with
    | |- context [Reproject.Pick_clamp env ?q] => generalize q
    end.
    intros q. destruct (Pick_clamp_factor q) as [Hlow Hhigh]. fold T in Hlow, Hhigh.
    destruct (fltb (Reproject.disocclusion_factor q) T) eqn:Hq.
    + left. apply Hlow. reflexivity.
    + right. rewrite Hhigh by reflexivity. exact Hq.
Qed.

Lemma factor_not_strictly_between (d T : F) :
  d = f0 \/ fltb d T = false -> ~ (fltb f0 d = true /\ fltb d T = true).
Proof.
  intros [-> | H] [H0 H1].
  - pose proof (fltb_asym _ _ H0) as H2. rewrite H0 in H2. discriminate.
  - rewrite H in H1. discriminate.
Qed.
End PickClamp.

Lemma Rltb_asym (a b : R) : Rltb a b = true -> Rltb b a = false.
Proof. intros H. apply Rltb_true in H. apply Rltb_false. lra. Qed.

(** C10: the disocclusion factor that
    [FFX_DNSR_Reflections_PickReprojection] returns is never strictly
    between 0 and the threshold.  For every float type on which [<] is
    asymmetric, IEEE floats with their NaN included, it is 0.0 or not below
    the threshold, the final clamp sending a factor below the threshold
    to 0.0 and keeping any other; over the reals it is 0.0 or at least the
    threshold. *)
Theorem pick_reprojection_factor_zero_or_above_threshold :
  forall (F : Type) (FO : FloatOps F) (env : Reproject.Env F) (renv : Reproject.Env R)
         (dispatch_thread_id group_thread_id screen_size : int2)
         (roughness ray_length : F) (s : Reproject.shared F)
         (real_roughness real_ray_length : R) (rs : Reproject.shared R),
    (forall a b : F, fltb a b = true -> fltb b a = false) ->
    (let T := Reproject.FFX_DNSR_REFLECTIONS_DISOCCLUSION_THRESHOLD env in
     let d := Reproject.disocclusion_factor
                (value (Reproject.FFX_DNSR_Reflections_PickReprojection env
                          dispatch_thread_id group_thread_id screen_size
                          roughness ray_length) s) in
     ~ (fltb f0 d = true /\ fltb d T = true)
     /\ (d = f0 \/ fltb d T = false)
     /\ (forall p,
           (fltb (Reproject.disocclusion_factor p) T = true ->
            Reproject.disocclusion_factor (Reproject.Pick_clamp env p) = f0)
           /\ (fltb (Reproject.disocclusion_factor p) T = false ->
               Reproject.disocclusion_factor (Reproject.Pick_clamp env p)
               = Reproject.disocclusion_factor p)))
    /\
    (let T := Reproject.FFX_DNSR_REFLECTIONS_DISOCCLUSION_THRESHOLD renv in
     let d := Reproject.disocclusion_factor
                (value (Reproject.FFX_DNSR_Reflections_PickReprojection renv
                          dispatch_thread_id group_thread_id screen_size
                          real_roughness real_ray_length) rs) in
     ~ (0 < d < T)%R /\ (d = 0%R \/ (T <= d)%R)).
Proof.
  intros F FO env renv dtid gid ss roughness ray_length s rr rl rs Hasym. split.
  - intros T d.
    pose proof (PickReprojection_factor_clamped env Hasym dtid gid ss roughness ray_length s)
      as Hd.
    fold T d in Hd.
    split; [apply (factor_not_strictly_between Hasym), Hd|].
    split; [exact Hd|]. intros p. apply Pick_clamp_factor.
  - intros T d.
    pose proof (PickReprojection_factor_clamped renv Rltb_asym dtid gid ss rr rl rs) as Hd.
    fold T d in Hd.
    assert (Hd' : d = 0%R \/ (T <= d)%R).
    { destruct Hd as [Hd | Hd].
      - left. rewrite Hd. apply Q2R_lit_0.
      - right. apply Rltb_false, Hd. }
    split; [lra | exact Hd'].
Qed.

Lemma pick_reprojection_factor_zero_or_above_threshold_witness :
  (forall a b : R, fltb a b = true -> fltb b a = false)
  /\ (let d := Reproject.disocclusion_factor
                 (value (Reproject.FFX_DNSR_Reflections_PickReprojection disoccluded_env
                           (3, 2) (7, 6) (64, 64) 1%R 1%R) (flat_reproject_shared 0)) in
      d = f0
      \/ fltb d (Reproject.FFX_DNSR_REFLECTIONS_DISOCCLUSION_THRESHOLD disoccluded_env) = false).
Proof.
  split; [exact Rltb_asym|].
  exact (proj1 (proj2 (proj1
    (pick_reprojection_factor_zero_or_above_threshold R R_FloatOps disoccluded_env
       disoccluded_env (3, 2) (7, 6) (64, 64) 1%R 1%R (flat_reproject_shared 0)
       1%R 1%R (flat_reproject_shared 0) Rltb_asym)))).
Defined.

(** ** Which textures the kernels read and which they write *)

Lemma reproject_store_emits {F} (P : event F -> Prop) idx r w :
  (forall t, P (EvSharedStore t idx)) ->
  emits P (Reproject.FFX_DNSR_Reflections_StoreInGroupSharedMemory idx r w).
Proof.
  intros H. unfold Reproject.FFX_DNSR_Reflections_StoreInGroupSharedMemory.
  repeat emits_step; apply H.
Qed.

Lemma reproject_initialize_emits {F} {FO : FloatOps F} (env : Reproject.Env F)
    (P : event F -> Prop) dtid gid ss :
  (forall p, P (EvLoad Radiance p)) ->
  (forall o t, In o block_offset -> P (EvSharedStore t (int2_add gid o))) ->
  emits P (Reproject.FFX_DNSR_Reflections_InitializeGroupSharedMemory env dtid gid ss).
Proof.
  intros Hl Hs. unfold Reproject.FFX_DNSR_Reflections_InitializeGroupSharedMemory.
  apply emits_bind.
  - generalize block_offset as l. induction l as [|o l IH]; simpl; repeat emits_step; auto.
  - intros regs. revert regs. generalize (incl_refl block_offset).
    generalize block_offset at 1 3 as l.
    induction l as [|o l IH]; intros Hincl regs; simpl; [emits_step|].
    destruct regs as [|r regs]; [emits_step|].
    apply emits_bind.
    + apply reproject_store_emits. intros t. apply Hs, Hincl. left. reflexivity.
    + intros _. apply IH. intros x Hx. apply Hincl. right. exact Hx.
Qed.

(** A step that takes the initialization as a whole. *)
Ltac kernel_step :=
  lazymatch goal with
  | |- emits _ (Prefilter.FFX_DNSR_Reflections_InitializeGroupSharedMemory _ _ _ _) =>
      apply prefilter_initialize_emits; [intros ? | intros ? ? ?]
  | |- emits _ (Reproject.FFX_DNSR_Reflections_InitializeGroupSharedMemory _ _ _ _) =>
      apply reproject_initialize_emits; [intros ? | intros ? ? ?]
  | _ => emits_step
  end.

Ltac history_read_only_access :=
  split;
  [ intros r [Hr | Hr] Hh; simpl in Hr; try discriminate Hr;
    inversion Hr; subst; try exact Hr; simpl in Hh; discriminate Hh
  | intros r Hr; simpl in Hr; try discriminate Hr;
    inversion Hr; subst; simpl; auto 10 ].

(** A store to a history texture, or to any texture outside [outputs], is
    an access that [history_read_only] excludes. *)
Lemma store_outside_outputs_excluded {F} (outputs : list resource) r p (v : stored F) :
  is_history r = true \/ ~ In r outputs ->
  ~ history_read_only outputs (EvStore r p v).
Proof.
  intros Hr [_ Hstore]. destruct (Hstore r eq_refl) as (Hin & _ & Hh).
  destruct Hr as [Hr | Hr]; [congruence | contradiction].
Qed.

(** C5: every access of the two kernels to a history texture is a load or
    a sample, and every store goes to a texture of the current frame:
    reprojected radiance, variance, sample count and average radiance for
    [FFX_DNSR_Reflections_Reproject], prefiltered reflections for
    [FFX_DNSR_Reflections_Prefilter].  The prefilter accesses no history
    texture at all. *)
Theorem kernels_read_history_and_write_outputs :
  forall (F : Type) (FO : FloatOps F) (renv : Reproject.Env F) (penv : Prefilter.Env F)
         (dispatch_thread_id group_thread_id screen_size : int2)
         (temporal_stability_factor : F) (max_samples : Z),
    emits (history_read_only [RadianceReprojected; Variance; NumSamples; AverageRadiance])
      (Reproject.FFX_DNSR_Reflections_Reproject renv dispatch_thread_id group_thread_id
         screen_size temporal_stability_factor max_samples)
    /\ emits (history_read_only [PrefilteredReflections])
         (Prefilter.FFX_DNSR_Reflections_Prefilter penv dispatch_thread_id group_thread_id
            screen_size)
    /\ emits (fun e => forall r, touches e r -> is_history r = false)
         (Prefilter.FFX_DNSR_Reflections_Prefilter penv dispatch_thread_id group_thread_id
            screen_size).
Proof.
  intros. split; [| split].
  - unfold Reproject.FFX_DNSR_Reflections_Reproject.
    repeat kernel_step; history_read_only_access.
  - unfold Prefilter.FFX_DNSR_Reflections_Prefilter.
    repeat kernel_step; history_read_only_access.
  - unfold Prefilter.FFX_DNSR_Reflections_Prefilter.
    repeat kernel_step;
      intros r [Hr | Hr]; simpl in Hr; try discriminate Hr; inversion Hr; reflexivity.
Qed.

(** ** The stores of the reprojection kernel *)

Lemma filter_quiet {F S A} (f : event F -> bool) (m : M F S A) s :
  emits (fun e => f e = false) m -> filter f (events m s) = [].
Proof.
  intros H. specialize (H s). induction H as [|e l He _ IH]; simpl; [reflexivity|].
  rewrite He. exact IH.
Qed.

Lemma after_first_barrier_app {F} (l post : list (event F)) :
  Forall (fun e => is_barrier e = false) l ->
  after_first_barrier (l ++ EvBarrier :: post) = post.
Proof.
  induction 1 as [|e l He _ IH]; simpl; [reflexivity|].
  destruct e; try exact IH. discriminate He.
Qed.

Section ReprojectStores.
Context {F : Type} {FO : FloatOps F}.
Variable env : Reproject.Env F.

Lemma reproject_initialize_quiet (f : event F -> bool) dtid gid ss :
  (forall p, f (EvLoad Radiance p) = false) ->
  (forall t idx, f (EvSharedStore t idx) = false) ->
  emits (fun e => f e = false)
    (Reproject.FFX_DNSR_Reflections_InitializeGroupSharedMemory env dtid gid ss).
Proof. intros Hl Hs. apply reproject_initialize_emits; auto. Qed.

Lemma pick_reprojection_no_temporal_store dtid gid ss roughness ray_length :
  emits (fun e => is_temporal_store e = false)
    (Reproject.FFX_DNSR_Reflections_PickReprojection env dtid gid ss roughness ray_length).
Proof.
  unfold Reproject.FFX_DNSR_Reflections_PickReprojection.
  repeat kernel_step; reflexivity.
Qed.

Lemma downsample_no_temporal_store dtid gid ss radiance :
  emits (fun e => is_temporal_store e = false)
    (Reproject.Reproject_downsample env dtid gid ss radiance).
Proof.
  unfold Reproject.Reproject_downsample.
  repeat kernel_step; reflexivity.
Qed.

Lemma Reproject_glossy_temporal_stores dtid gid ss ms roughness ray_length radiance s :
  let p := value (Reproject.FFX_DNSR_Reflections_PickReprojection env dtid gid ss
                    roughness ray_length) s in
  if fltb (Reproject.disocclusion_factor p)
          (Reproject.FFX_DNSR_REFLECTIONS_DISOCCLUSION_THRESHOLD env)
  then temporal_stores
         (events (Reproject.Reproject_glossy env dtid gid ss ms roughness ray_length
                    radiance) s)
       = [EvStoreRadianceReprojected dtid (splat4 f0);
          EvStoreVariance dtid f1; EvStoreNumSamples dtid f1]
  else exists variance_mix num_samples,
         temporal_stores
           (events (Reproject.Reproject_glossy env dtid gid ss ms roughness ray_length
                      radiance) s)
         = [EvStoreRadianceReprojected dtid (Reproject.reprojection p);
            EvStoreVariance dtid variance_mix; EvStoreNumSamples dtid num_samples].
Proof.
  intros p. unfold Reproject.Reproject_glossy, temporal_stores.
  rewrite events_bind, filter_app.
  rewrite (filter_quiet is_temporal_store)
    by apply pick_reprojection_no_temporal_store.
  fold p. cbv zeta. autorewrite with run. cbn [filter app is_temporal_store].
  destruct (fltb (Reproject.disocclusion_factor p)
              (Reproject.FFX_DNSR_REFLECTIONS_DISOCCLUSION_THRESHOLD env)).
  - autorewrite with run. reflexivity.
  - autorewrite with run. eexists. eexists. reflexivity.
Qed.

Lemma Reproject_events dtid gid ss tsf ms s :
  let roughness := Reproject.FFX_DNSR_Reflections_LoadRoughness env dtid in
  let temporal :=
    if Reproject.FFX_DNSR_Reflections_IsGlossyReflection env roughness
    then Reproject.Reproject_glossy env dtid (int2_add gid (splat 4)) ss ms roughness
           (Reproject.FFX_DNSR_Reflections_LoadRayLength env dtid)
           (Reproject.FFX_DNSR_Reflections_LoadRadiance env dtid)
    else ret (Reproject.FFX_DNSR_Reflections_LoadRadiance env dtid) in
  events (Reproject.FFX_DNSR_Reflections_Reproject env dtid gid ss tsf ms) s
  = events (Reproject.FFX_DNSR_Reflections_InitializeGroupSharedMemory env dtid gid
              (wrap32 (fst ss), wrap32 (snd ss))) s
    ++ EvBarrier
       :: [EvLoad Roughness dtid; EvLoad WorldSpaceNormal dtid; EvLoad Radiance dtid;
           EvLoad RayLength dtid; EvLoad RayLength dtid]
       ++ events temporal (reproject_synced env dtid gid ss s)
       ++ events (Reproject.Reproject_downsample env dtid (int2_add gid (splat 4)) ss
                    (value temporal (reproject_synced env dtid gid ss s)))
                 (final temporal (reproject_synced env dtid gid ss s)).
Proof.
  intros roughness temporal.
  unfold Reproject.FFX_DNSR_Reflections_Reproject, Reproject.GetContactHardenedRadiance.
  cbv zeta. autorewrite with run. cbn [app].
  unfold reproject_synced. subst temporal roughness. reflexivity.
Qed.

Lemma Reproject_temporal_stores dtid gid ss tsf ms s :
  let roughness := Reproject.FFX_DNSR_Reflections_LoadRoughness env dtid in
  temporal_stores (events (Reproject.FFX_DNSR_Reflections_Reproject env dtid gid ss tsf ms) s)
  = if Reproject.FFX_DNSR_Reflections_IsGlossyReflection env roughness
    then temporal_stores
           (events (Reproject.Reproject_glossy env dtid (int2_add gid (splat 4)) ss ms
                      roughness (Reproject.FFX_DNSR_Reflections_LoadRayLength env dtid)
                      (Reproject.FFX_DNSR_Reflections_LoadRadiance env dtid))
                   (reproject_synced env dtid gid ss s))
    else [].
Proof.
  intros roughness. rewrite Reproject_events. fold roughness. cbv zeta.
  unfold temporal_stores.
  rewrite filter_app.
  rewrite (filter_quiet is_temporal_store)
    by (apply reproject_initialize_quiet; reflexivity).
  cbn [filter app is_temporal_store].
  rewrite filter_app.
  rewrite (filter_quiet is_temporal_store _ (final _ _))
    by apply downsample_no_temporal_store.
  rewrite app_nil_r.
  destruct (Reproject.FFX_DNSR_Reflections_IsGlossyReflection env roughness); reflexivity.
Qed.
End ReprojectStores.

(** C1: for a glossy pixel, when the disocclusion factor that
    [FFX_DNSR_Reflections_PickReprojection] returns to
    [FFX_DNSR_Reflections_Reproject] is below
    FFX_DNSR_REFLECTIONS_DISOCCLUSION_THRESHOLD, the stores of the kernel to
    the reprojected radiance, the variance and the sample count are, for
    that pixel, zero radiance, variance 1.0 and sample count 1.0, and
    nothing else. *)
Theorem reproject_discards_disoccluded_history :
  forall (F : Type) (FO : FloatOps F) (env : Reproject.Env F)
         (dispatch_thread_id group_thread_id screen_size : int2)
         (temporal_stability_factor : F) (max_samples : Z) (s : Reproject.shared F),
    Reproject.FFX_DNSR_Reflections_IsGlossyReflection env
      (Reproject.FFX_DNSR_Reflections_LoadRoughness env dispatch_thread_id) = true ->
    fltb (Reproject.disocclusion_factor
            (reproject_picked env dispatch_thread_id group_thread_id screen_size s))
         (Reproject.FFX_DNSR_REFLECTIONS_DISOCCLUSION_THRESHOLD env) = true ->
    temporal_stores
      (events (Reproject.FFX_DNSR_Reflections_Reproject env dispatch_thread_id
                 group_thread_id screen_size temporal_stability_factor max_samples) s)
    = [EvStoreRadianceReprojected dispatch_thread_id (splat4 f0);
       EvStoreVariance dispatch_thread_id f1;
       EvStoreNumSamples dispatch_thread_id f1].
Proof.
  intros F FO env dtid gid ss tsf ms s Hglossy Hbelow.
  rewrite Reproject_temporal_stores. cbv zeta. rewrite Hglossy.
  pose proof (Reproject_glossy_temporal_stores env dtid (int2_add gid (splat 4)) ss ms
                (Reproject.FFX_DNSR_Reflections_LoadRoughness env dtid)
                (Reproject.FFX_DNSR_Reflections_LoadRayLength env dtid)
                (Reproject.FFX_DNSR_Reflections_LoadRadiance env dtid)
                (reproject_synced env dtid gid ss s)) as H.
  cbv zeta in H. unfold reproject_picked in Hbelow. rewrite Hbelow in H. exact H.
Qed.

(** ** Where the disocclusion factor comes from *)

Section PickStructure.
Context {F : Type} {FO : FloatOps F}.
Variable env : Reproject.Env F.

Lemma Pick_candidate_factor dtid gid ss roughness ray_length s :
  exists linear_depth p,
    value (Reproject.Pick_candidate env dtid gid ss roughness ray_length) s
    = (Reproject.FFX_DNSR_Reflections_LoadWorldSpaceNormal env dtid, linear_depth, p)
    /\ factor_of env (Reproject.FFX_DNSR_Reflections_LoadWorldSpaceNormal env dtid) linear_depth
         (Reproject.disocclusion_factor p).
Proof.
  unfold Reproject.Pick_candidate. cbv zeta.
  repeat (rewrite value_bind; try rewrite value_tex_load; try rewrite value_tex_sample).
  match goal with
  | |- context [value (if ?c then _ else _) ?st] => destruct c
  end;
    autorewrite with run; cbv beta iota; autorewrite with run;
    eexists; eexists; (split; [reflexivity|]);
    eexists; eexists; reflexivity.
Qed.

Lemma Pick_search_factor ss roughness normal linear_depth p s :
  factor_of env normal linear_depth (Reproject.disocclusion_factor p) ->
  factor_of env normal linear_depth
    (Reproject.disocclusion_factor
       (value (Reproject.Pick_search env ss roughness normal linear_depth p) s)).
Proof.
  intros Hp. unfold Reproject.Pick_search. cbv zeta.
  rewrite value_bind.
  match goal with
  | |- context [value (for_each ?rows ?body ?acc) s] =>
      assert (Hinv : factor_of env normal linear_depth (fst (fst (value (for_each rows body acc) s))))
  end.
  { apply (for_each_value_invariant
             (fun st => factor_of env normal linear_depth (fst (fst st)))); [| exact Hp].
    intros r acc s' _ Hacc.
    apply (for_each_value_invariant
             (fun st => factor_of env normal linear_depth (fst (fst st)))); [| exact Hacc].
    intros o [[d c] u] s'' _ Hst. unfold Reproject.Pick_search_step.
    autorewrite with run.
    match goal with
    | |- context [if ?c then _ else _] => destruct c
    end; autorewrite with run; cbn [fst].
    - eexists; eexists; reflexivity.
    - exact Hst. }
  match goal with
  | Hinv : context [value ?m s] |- _ => destruct (value m s) as [[d c] u]
  end.
  cbv beta iota. autorewrite with run. exact Hinv.
Qed.

Lemma Pick_interpolate_factor ss normal linear_depth p s :
  factor_of env normal linear_depth
    (Reproject.disocclusion_factor
       (value (Reproject.Pick_interpolate env ss normal linear_depth p) s)).
Proof.
  unfold Reproject.Pick_interpolate. cbv zeta.
  rewrite !value_bind, value_ret.
  unfold Reproject.Pick_blend. cbv zeta. cbn [Reproject.disocclusion_factor].
  eexists; eexists; reflexivity.
Qed.

(** The factor returned is the first candidate's when that is above the
    threshold, and otherwise the clamp of a disocclusion factor of the
    pixel. *)
Lemma PickReprojection_factor dtid gid ss roughness ray_length s :
  let normal := Reproject.FFX_DNSR_Reflections_LoadWorldSpaceNormal env dtid in
  let T := Reproject.FFX_DNSR_REFLECTIONS_DISOCCLUSION_THRESHOLD env in
  exists linear_depth d0 q,
    factor_of env normal linear_depth d0
    /\ factor_of env normal linear_depth (Reproject.disocclusion_factor q)
    /\ Reproject.disocclusion_factor
         (value (Reproject.FFX_DNSR_Reflections_PickReprojection env dtid gid ss
                   roughness ray_length) s)
       = if fltb T d0 then d0
         else Reproject.disocclusion_factor (Reproject.Pick_clamp env q).
Proof.
  intros normal T. unfold Reproject.FFX_DNSR_Reflections_PickReprojection.
  rewrite value_bind.
  destruct (Pick_candidate_factor dtid gid ss roughness ray_length s)
    as (linear_depth & p & Hval & Hp).
  rewrite Hval. cbv beta iota. fold normal T.
  exists linear_depth, (Reproject.disocclusion_factor p).
  destruct (fltb T (Reproject.disocclusion_factor p)).
  - exists p. autorewrite with run. auto.
  - rewrite !value_bind, value_ret.
    match goal with
    | |- context [Reproject.Pick_clamp env (value ?m2 ?s2)] =>
        exists (value m2 s2); split; [exact Hp|]; split; [| reflexivity];
        lazymatch m2 with
        | (if fltb (Reproject.disocclusion_factor ?p1) _ then _ else _) =>
            assert (Hq1 : factor_of env normal linear_depth (Reproject.disocclusion_factor p1))
        end
    end.
    { destruct (fltb (Reproject.disocclusion_factor p) T).
      - apply Pick_search_factor, Hp.
      - rewrite value_ret. exact Hp. }
    match goal with
    | |- context [value (if ?c then _ else _) _] => destruct c
    end.
    + apply Pick_interpolate_factor.
    + rewrite value_ret. exact Hq1.
Qed.
End PickStructure.

Lemma disoccluded_env_factor history_normal linear_depth history_linear_depth :
  (Reproject.FFX_DNSR_Reflections_GetDisocclusionFactor disoccluded_env zero3
     history_normal linear_depth history_linear_depth < 1)%R.
Proof.
  unfold Reproject.FFX_DNSR_Reflections_GetDisocclusionFactor, dot, saturate, f1, f0.
  cbn [fmul fadd fsub fdiv fneg fabs fmax fmin fexp flit R_FloatOps x3 y3 z3 zero3
       disoccluded_env flat_reproject_env
       Reproject.FFX_DNSR_REFLECTIONS_DISOCCLUSION_NORMAL_WEIGHT
       Reproject.FFX_DNSR_REFLECTIONS_DISOCCLUSION_DEPTH_WEIGHT].
  rewrite Q2R_lit_1, Q2R_lit_0.
  replace (0 * x3 history_normal + 0 * y3 history_normal + 0 * z3 history_normal)%R
    with 0%R by ring.
  rewrite (Rmax_left 0 0) by lra.
  replace (1 - 0)%R with 1%R by ring. rewrite Rabs_R1.
  rewrite !Rmult_0_l, Rmult_0_r, exp_0.
  pose proof (exp_increasing (- (1) * (14 / 10)) 0 ltac:(lra)) as H.
  rewrite exp_0 in H. lra.
Qed.

Lemma disoccluded_env_picked dtid gid ss roughness ray_length s :
  Reproject.disocclusion_factor
    (value (Reproject.FFX_DNSR_Reflections_PickReprojection disoccluded_env dtid gid ss
              roughness ray_length) s) = 0%R.
Proof.
  destruct (PickReprojection_factor disoccluded_env dtid gid ss roughness ray_length s)
    as (linear_depth & d0 & q & Hd0 & Hq & Heq).
  rewrite Heq.
  destruct Hd0 as (hn0 & hld0 & ->). destruct Hq as (hn & hld & Hq).
  pose proof (disoccluded_env_factor hn0 linear_depth hld0) as H0.
  pose proof (disoccluded_env_factor hn linear_depth hld) as H1.
  cbn [Reproject.FFX_DNSR_Reflections_LoadWorldSpaceNormal disoccluded_env
       flat_reproject_env] in *.
  match goal with
  | |- (if ?c then _ else _) = _ => replace c with false
  end.
  - rewrite (proj1 (Pick_clamp_factor disoccluded_env q)); [apply Q2R_lit_0|].
    apply Rltb_true. rewrite Hq. exact H1.
  - symmetry. apply Rltb_false.
    change (Reproject.FFX_DNSR_REFLECTIONS_DISOCCLUSION_THRESHOLD disoccluded_env) with 1%R.
    lra.
Qed.

Lemma reproject_discards_disoccluded_history_witness :
  Reproject.FFX_DNSR_Reflections_IsGlossyReflection disoccluded_env
    (Reproject.FFX_DNSR_Reflections_LoadRoughness disoccluded_env (3, 2)) = true
  /\ fltb (Reproject.disocclusion_factor
             (reproject_picked disoccluded_env (3, 2) (3, 2) (64, 64)
                (flat_reproject_shared 0)))
          (Reproject.FFX_DNSR_REFLECTIONS_DISOCCLUSION_THRESHOLD disoccluded_env) = true
  /\ temporal_stores
       (events (Reproject.FFX_DNSR_Reflections_Reproject disoccluded_env (3, 2) (3, 2)
                  (64, 64) 0%R 8) (flat_reproject_shared 0))
     = [EvStoreRadianceReprojected (3, 2) (splat4 f0);
        EvStoreVariance (3, 2) f1; EvStoreNumSamples (3, 2) f1].
Proof.
  assert (H1 : Reproject.FFX_DNSR_Reflections_IsGlossyReflection disoccluded_env
                 (Reproject.FFX_DNSR_Reflections_LoadRoughness disoccluded_env (3, 2)) = true)
    by reflexivity.
  assert (H2 : fltb (Reproject.disocclusion_factor
                       (reproject_picked disoccluded_env (3, 2) (3, 2) (64, 64)
                          (flat_reproject_shared 0)))
                    (Reproject.FFX_DNSR_REFLECTIONS_DISOCCLUSION_THRESHOLD disoccluded_env)
               = true).
  { unfold reproject_picked. rewrite disoccluded_env_picked.
    apply Rltb_true. simpl. lra. }
  split; [exact H1|]. split; [exact H2|].
  exact (reproject_discards_disoccluded_history R R_FloatOps disoccluded_env (3, 2) (3, 2)
           (64, 64) 0%R 8 (flat_reproject_shared 0) H1 H2).
Defined.

(** ** The outputs of an invocation *)

Lemma Prefilter_events {F} {FO : FloatOps F} (env : Prefilter.Env F) dtid gid ss s :
  exists pre resolved,
    events (Prefilter.FFX_DNSR_Reflections_Prefilter env dtid gid ss) s
    = pre ++ [EvStorePrefilteredReflections dtid (fst resolved) (snd resolved)]
    /\ Forall (fun e => store_target e = None) pre.
Proof.
  unfold Prefilter.FFX_DNSR_Reflections_Prefilter. cbv zeta.
  repeat (rewrite events_bind; cbv beta).
  rewrite events_emit, !app_assoc.
  eexists. eexists. split; [reflexivity|].
  repeat (apply Forall_app; split);
    first
      [ solve [repeat constructor]
      | match goal with
        | |- Forall ?P (events ?m ?st) => generalize st; change (emits P m)
        end;
        repeat kernel_step; reflexivity ].
Qed.

Lemma temporal_stores_In {F} (e : event F) tr :
  In e tr -> is_temporal_store e = true -> In e (temporal_stores tr).
Proof. intros H1 H2. apply filter_In. split; assumption. Qed.

(** C7 as stated fails: for a pixel that is not glossy the reprojection
    kernel stores no reprojected radiance, variance or sample count. *)
Lemma reproject_matte_pixel_stores_nothing :
  ~ stores_temporal_outputs (3, 2)
      (events (Reproject.FFX_DNSR_Reflections_Reproject matte_env (3, 2) (3, 2) (64, 64)
                 0%R 8) (flat_reproject_shared 0)).
Proof.
  intros (radiance & variance & num_samples & Hr & _ & _).
  apply temporal_stores_In in Hr; [| reflexivity].
  rewrite Reproject_temporal_stores in Hr. exact Hr.
Qed.

(** C7, amended: every invocation of [FFX_DNSR_Reflections_Prefilter] ends
    with the store of a resolved radiance and variance for its pixel, its
    only store to a texture; an invocation of
    [FFX_DNSR_Reflections_Reproject] stores one reprojected radiance, one
    variance and one sample count for its pixel when the pixel is a glossy
    reflection, and none of the three when it is not. *)
Theorem kernels_store_their_outputs :
  forall (F : Type) (FO : FloatOps F) (penv : Prefilter.Env F) (renv : Reproject.Env F)
         (dispatch_thread_id group_thread_id screen_size : int2)
         (temporal_stability_factor : F) (max_samples : Z),
    (forall s,
       exists pre radiance variance,
         events (Prefilter.FFX_DNSR_Reflections_Prefilter penv dispatch_thread_id
                   group_thread_id screen_size) s
         = pre ++ [EvStorePrefilteredReflections dispatch_thread_id radiance variance]
         /\ Forall (fun e => store_target e = None) pre)
    /\ (forall s,
          let stores :=
            temporal_stores
              (events (Reproject.FFX_DNSR_Reflections_Reproject renv dispatch_thread_id
                         group_thread_id screen_size temporal_stability_factor max_samples) s) in
          if Reproject.FFX_DNSR_Reflections_IsGlossyReflection renv
               (Reproject.FFX_DNSR_Reflections_LoadRoughness renv dispatch_thread_id)
          then exists radiance variance num_samples,
                 stores = [EvStoreRadianceReprojected dispatch_thread_id radiance;
                           EvStoreVariance dispatch_thread_id variance;
                           EvStoreNumSamples dispatch_thread_id num_samples]
          else stores = []).
Proof.
  intros F FO penv renv dtid gid ss tsf ms. split; intros s.
  - destruct (Prefilter_events penv dtid gid ss s) as (pre & resolved & Hev & Hpre).
    exists pre, (fst resolved), (snd resolved). split; assumption.
  - cbv zeta. rewrite Reproject_temporal_stores. cbv zeta.
    destruct (Reproject.FFX_DNSR_Reflections_IsGlossyReflection renv
                (Reproject.FFX_DNSR_Reflections_LoadRoughness renv dtid)); [| reflexivity].
    pose proof (Reproject_glossy_temporal_stores renv dtid (int2_add gid (splat 4)) ss ms
                  (Reproject.FFX_DNSR_Reflections_LoadRoughness renv dtid)
                  (Reproject.FFX_DNSR_Reflections_LoadRayLength renv dtid)
                  (Reproject.FFX_DNSR_Reflections_LoadRadiance renv dtid)
                  (reproject_synced renv dtid gid ss s)) as H.
    cbv zeta in H.
    match type of H with
    | if ?c then _ else _ => destruct c
    end.
    + rewrite H. eexists; eexists; eexists; reflexivity.
    + destruct H as (v & n & ->). eexists; eexists; eexists; reflexivity.
Qed.

(** ** Stores to the tiles after the initialization *)

Lemma Prefilter_after_initialization {F} {FO : FloatOps F} (env : Prefilter.Env F)
    dtid gid ss s :
  exists post,
    events (Prefilter.FFX_DNSR_Reflections_Prefilter env dtid gid ss) s
    = (EvLoad Roughness dtid
       :: events (Prefilter.FFX_DNSR_Reflections_InitializeGroupSharedMemory env dtid gid
                    (wrap32 (fst ss), wrap32 (snd ss))) s)
      ++ EvBarrier :: post
    /\ after_first_barrier
         (events (Prefilter.FFX_DNSR_Reflections_Prefilter env dtid gid ss) s) = post
    /\ Forall (fun e => is_shared_store e = false) post.
Proof.
  unfold Prefilter.FFX_DNSR_Reflections_Prefilter. cbv zeta.
  repeat (rewrite events_bind; cbv beta).
  rewrite events_tex_load, events_barrier, events_emit, final_tex_load.
  cbn [app].
  eexists. split; [reflexivity|]. split.
  - change (EvLoad Roughness dtid :: ?l ++ ?r) with ((EvLoad Roughness dtid :: l) ++ r).
    apply after_first_barrier_app. constructor; [reflexivity|].
    apply prefilter_initialize_emits; reflexivity.
  - repeat (apply Forall_app; split);
      first
        [ solve [repeat constructor]
        | match goal with
          | |- Forall ?P (events ?m ?st) => generalize st; change (emits P m)
          end;
          repeat kernel_step; reflexivity ].
Qed.

Lemma Reproject_after_initialization {F} {FO : FloatOps F} (env : Reproject.Env F)
    dtid gid ss tsf ms s :
  exists mid rest,
    events (Reproject.FFX_DNSR_Reflections_Reproject env dtid gid ss tsf ms) s
    = events (Reproject.FFX_DNSR_Reflections_InitializeGroupSharedMemory env dtid gid
                (wrap32 (fst ss), wrap32 (snd ss))) s
      ++ EvBarrier
         :: mid
            ++ EvSharedStore Shared0 (int2_sub (int2_add gid (splat 4)) (splat 4))
               :: EvSharedStore Shared1 (int2_sub (int2_add gid (splat 4)) (splat 4))
               :: rest
    /\ after_first_barrier
         (events (Reproject.FFX_DNSR_Reflections_Reproject env dtid gid ss tsf ms) s)
       = mid
         ++ EvSharedStore Shared0 (int2_sub (int2_add gid (splat 4)) (splat 4))
            :: EvSharedStore Shared1 (int2_sub (int2_add gid (splat 4)) (splat 4))
            :: rest.
Proof.
  assert (Hev : exists mid rest,
             events (Reproject.FFX_DNSR_Reflections_Reproject env dtid gid ss tsf ms) s
             = events (Reproject.FFX_DNSR_Reflections_InitializeGroupSharedMemory env dtid gid
                         (wrap32 (fst ss), wrap32 (snd ss))) s
               ++ EvBarrier
                  :: mid
                     ++ EvSharedStore Shared0 (int2_sub (int2_add gid (splat 4)) (splat 4))
                        :: EvSharedStore Shared1 (int2_sub (int2_add gid (splat 4)) (splat 4))
                        :: rest).
  { rewrite Reproject_events. cbv zeta.
    unfold Reproject.Reproject_downsample. cbv zeta.
    rewrite events_bind.
    unfold Reproject.FFX_DNSR_Reflections_StoreInGroupSharedMemory at 1.
    rewrite events_bind, !events_shared_store.
    cbn [app].
    match goal with
    | |- context [events ?t (reproject_synced env dtid gid ss s)
                  ++ EvSharedStore Shared0 _ :: EvSharedStore Shared1 _ :: ?rest] =>
        exists ([EvLoad Roughness dtid; EvLoad WorldSpaceNormal dtid; EvLoad Radiance dtid;
                 EvLoad RayLength dtid; EvLoad RayLength dtid]
                ++ events t (reproject_synced env dtid gid ss s)), rest
    end.
    reflexivity. }
  destruct Hev as (mid & rest & Hev). exists mid, rest.
  split; [exact Hev|].
  rewrite Hev. apply after_first_barrier_app.
  apply reproject_initialize_emits; reflexivity.
Qed.

(** C3 as stated fails for the reprojection kernel: it stores to the
    shared tiles again after the initialization and its barrier. *)
Lemma reproject_stores_to_tiles_after_initialization :
  ~ populated_once
      (events (Reproject.FFX_DNSR_Reflections_Reproject matte_env (3, 2) (3, 2) (64, 64)
                 0%R 8) (flat_reproject_shared 0)).
Proof.
  unfold populated_once. intros H.
  destruct (Reproject_after_initialization matte_env (3, 2) (3, 2) (64, 64) 0%R 8
              (flat_reproject_shared 0)) as (mid & rest & _ & Hafter).
  rewrite Hafter in H. apply Forall_app in H. destruct H as [_ H].
  inversion H as [|? ? Hstore _]. discriminate Hstore.
Qed.

(** C3, amended: in [FFX_DNSR_Reflections_Prefilter] the initialization is
    followed by the first barrier and nothing after it stores to the
    shared tiles.  In [FFX_DNSR_Reflections_Reproject] the initialization is
    followed by the first barrier too, but the tiles are stored to again
    after it: every invocation stores to both tiles at its own
    [group_thread_id], for the downsampling. *)
Theorem shared_tiles_after_initialization :
  forall (F : Type) (FO : FloatOps F) (penv : Prefilter.Env F) (renv : Reproject.Env F)
         (dispatch_thread_id group_thread_id screen_size : int2)
         (temporal_stability_factor : F) (max_samples : Z),
    (forall s,
       let tr := events (Prefilter.FFX_DNSR_Reflections_Prefilter penv dispatch_thread_id
                           group_thread_id screen_size) s in
       tr = (EvLoad Roughness dispatch_thread_id
             :: events (Prefilter.FFX_DNSR_Reflections_InitializeGroupSharedMemory penv
                          dispatch_thread_id group_thread_id
                          (wrap32 (fst screen_size), wrap32 (snd screen_size))) s)
            ++ EvBarrier :: after_first_barrier tr
       /\ populated_once tr)
    /\ (forall s,
          let tr := events (Reproject.FFX_DNSR_Reflections_Reproject renv dispatch_thread_id
                              group_thread_id screen_size temporal_stability_factor
                              max_samples) s in
          let own := int2_sub (int2_add group_thread_id (splat 4)) (splat 4) in
          tr = events (Reproject.FFX_DNSR_Reflections_InitializeGroupSharedMemory renv
                         dispatch_thread_id group_thread_id
                         (wrap32 (fst screen_size), wrap32 (snd screen_size))) s
               ++ EvBarrier :: after_first_barrier tr
          /\ In (EvSharedStore Shared0 own) (after_first_barrier tr)
          /\ In (EvSharedStore Shared1 own) (after_first_barrier tr)
          /\ ~ populated_once tr).
Proof.
  intros F FO penv renv dtid gid ss tsf ms. split; intros s tr.
  - destruct (Prefilter_after_initialization penv dtid gid ss s)
      as (post & Hev & Hafter & Hpost).
    fold tr in Hev, Hafter. unfold populated_once. rewrite Hafter.
    split; assumption.
  - intros own.
    destruct (Reproject_after_initialization renv dtid gid ss tsf ms s)
      as (mid & rest & Hev & Hafter).
    fold tr own in Hev, Hafter. unfold populated_once. rewrite Hafter.
    split; [exact Hev|].
    split; [apply in_or_app; right; left; reflexivity|].
    split; [apply in_or_app; right; right; left; reflexivity|].
    intros H. apply Forall_app in H. destruct H as [_ H].
    inversion H as [|? ? Hstore _]. discriminate Hstore.
Qed.

(** * Further properties of the kernels *)

(** ** Loops that only read *)

Lemma for_each_reads_run {F S A X} (l : list X) (body : X -> A -> M F S A)
    (ev : X -> list (event F)) :
  (forall x acc s, final (body x acc) s = s /\ events (body x acc) s = ev x) ->
  forall acc s,
    final (for_each l body acc) s = s
    /\ events (for_each l body acc) s = flat_map ev l.
Proof.
  intros H. induction l as [|x l IH]; intros acc s; cbn [for_each flat_map].
  - split; reflexivity.
  - rewrite final_bind, events_bind.
    destruct (H x acc s) as [Hf He]. rewrite Hf, He.
    destruct (IH (value (body x acc) s) s) as [Hf' He']. rewrite Hf', He'.
    split; reflexivity.
Qed.

(** ** The two paths of the prefilter *)

Section PrefilterPaths.
Context {F : Type} {FO : FloatOps F}.
Variable env : Prefilter.Env F.
Implicit Types s : Prefilter.shared F.

Lemma prefilter_load_run idx s :
  Prefilter.FFX_DNSR_Reflections_LoadFromGroupSharedMemory idx s
  = (value (Prefilter.FFX_DNSR_Reflections_LoadFromGroupSharedMemory idx) s, s,
     sample_loads idx).
Proof. reflexivity. Qed.

Lemma prefilter_load_final idx s :
  final (Prefilter.FFX_DNSR_Reflections_LoadFromGroupSharedMemory idx) s = s.
Proof. reflexivity. Qed.

Lemma prefilter_load_events idx s :
  events (Prefilter.FFX_DNSR_Reflections_LoadFromGroupSharedMemory idx) s = sample_loads idx.
Proof. reflexivity. Qed.

Lemma Resolve_step_run gid avg center o acc s :
  let neighbor :=
    value (Prefilter.FFX_DNSR_Reflections_LoadFromGroupSharedMemory (int2_add gid o)) s in
  let weight := Prefilter.neighbor_weight env avg center neighbor in
  Prefilter.Resolve_step env gid avg center o acc s
  = ((fadd (fst (fst acc)) weight,
      add4 (snd (fst acc)) (smul4 weight (Prefilter.radiance neighbor)),
      fadd (snd acc) (fmul (fmul weight weight) (Prefilter.variance neighbor))),
     s, sample_loads (int2_add gid o)).
Proof. destruct acc as [[w r] v]. reflexivity. Qed.

Lemma Resolve_loop_run gid avg center l acc s :
  final (for_each l (Prefilter.Resolve_step env gid avg center) acc) s = s
  /\ events (for_each l (Prefilter.Resolve_step env gid avg center) acc) s
     = flat_map (fun o => sample_loads (int2_add gid o)) l.
Proof.
  apply for_each_reads_run. intros o a s'.
  unfold final, events. rewrite Resolve_step_run. split; reflexivity.
Qed.

Lemma Resolve_run gid avg center s :
  let acc := value (Prefilter.Resolve_accumulate env gid avg center) s in
  Prefilter.FFX_DNSR_Reflections_Resolve env gid avg center s
  = ((sdiv4 (snd (fst acc)) (fst (fst acc)),
      fdiv (snd acc) (fmul (fst (fst acc)) (fst (fst acc)))),
     s, flat_map (fun o => sample_loads (int2_add gid o)) Prefilter.sample_offsets).
Proof.
  intros acc. unfold Prefilter.FFX_DNSR_Reflections_Resolve. rewrite run_bind.
  fold acc.
  destruct (Resolve_loop_run gid avg
              center Prefilter.sample_offsets
              (Prefilter.FFX_DNSR_Reflections_GetRadianceWeight env avg
                 (Prefilter.radiance center) (Prefilter.variance center),
               scale4 (Prefilter.radiance center)
                 (Prefilter.FFX_DNSR_Reflections_GetRadianceWeight env avg
                    (Prefilter.radiance center) (Prefilter.variance center)),
               fmul (fmul (Prefilter.variance center)
                       (Prefilter.FFX_DNSR_Reflections_GetRadianceWeight env avg
                          (Prefilter.radiance center) (Prefilter.variance center)))
                    (Prefilter.FFX_DNSR_Reflections_GetRadianceWeight env avg
                       (Prefilter.radiance center) (Prefilter.variance center))) s)
    as [Hf He].
  change (final (Prefilter.Resolve_accumulate env gid avg center) s = s) in Hf.
  change (events (Prefilter.Resolve_accumulate env gid avg center) s
          = flat_map (fun o => sample_loads (int2_add gid o)) Prefilter.sample_offsets) in He.
  rewrite Hf, He. destruct acc as [[w r] v]. cbn [fst snd]. rewrite app_nil_r. reflexivity.
Qed.

(** What the kernel does after its barrier. *)
Lemma Prefilter_after_barrier dtid gid ss s :
  let c := int2_add gid (splat 4) in
  let center := prefilter_center env dtid gid ss s in
  let roughness := Prefilter.FFX_DNSR_Reflections_LoadRoughness env dtid in
  let resolve :=
    if fltb f0 (Prefilter.variance center)
       && Prefilter.FFX_DNSR_Reflections_IsGlossyReflection env roughness
       && negb (Prefilter.FFX_DNSR_Reflections_IsMirrorReflection env roughness)
    then
      bind (tex_sample AverageRadiance (Prefilter.FFX_DNSR_Reflections_SampleAverageRadiance env)
              (div2 (add2 (float2_of_int2 dtid) (splat2 (flit (1 # 2))))
                    (float2_of_int2 (Prefilter.FFX_DNSR_Reflections_RoundUp8 env ss))))
           (fun avg => Prefilter.FFX_DNSR_Reflections_Resolve env c avg center)
    else ret (Prefilter.radiance center, Prefilter.variance center) in
  after_first_barrier (events (Prefilter.FFX_DNSR_Reflections_Prefilter env dtid gid ss) s)
  = sample_loads c
    ++ events resolve (prefilter_synced env dtid gid ss s)
    ++ [EvStorePrefilteredReflections dtid
          (fst (value resolve (prefilter_synced env dtid gid ss s)))
          (snd (value resolve (prefilter_synced env dtid gid ss s)))].
Proof.
  intros c center roughness resolve.
  unfold Prefilter.FFX_DNSR_Reflections_Prefilter. cbv zeta.
  rewrite events_bind, events_tex_load, final_tex_load, value_tex_load.
  rewrite events_bind, events_bind, events_barrier, final_barrier.
  fold (prefilter_synced env dtid gid ss s).
  rewrite events_bind, prefilter_load_events, prefilter_load_final.
  fold c center. rewrite events_bind, events_emit.
  change ([EvLoad Roughness dtid] ++ ?l ++ [EvBarrier] ++ ?r)
    with ((EvLoad Roughness dtid :: l) ++ EvBarrier :: r).
  rewrite after_first_barrier_app
    by (constructor; [reflexivity | apply prefilter_initialize_emits; reflexivity]).
  reflexivity.
Qed.
End PrefilterPaths.

(** X1: when the center variance is not above 0, or the pixel is not a
    glossy reflection, or it is a mirror reflection,
    [FFX_DNSR_Reflections_Prefilter] does a simple copy: after the barrier
    it loads the center sample from the three tiles and stores that
    sample's radiance and variance for its pixel, and nothing else; it
    neither samples the average radiance nor loads any neighbor. *)
Theorem prefilter_copies_center_without_denoiser :
  forall (F : Type) (FO : FloatOps F) (env : Prefilter.Env F)
         (dispatch_thread_id group_thread_id screen_size : int2) (s : Prefilter.shared F),
    let center := prefilter_center env dispatch_thread_id group_thread_id screen_size s in
    let center_roughness := Prefilter.FFX_DNSR_Reflections_LoadRoughness env dispatch_thread_id in
    fltb f0 (Prefilter.variance center) = false
    \/ Prefilter.FFX_DNSR_Reflections_IsGlossyReflection env center_roughness = false
    \/ Prefilter.FFX_DNSR_Reflections_IsMirrorReflection env center_roughness = true ->
    after_first_barrier
      (events (Prefilter.FFX_DNSR_Reflections_Prefilter env dispatch_thread_id
                 group_thread_id screen_size) s)
    = sample_loads (int2_add group_thread_id (splat 4))
      ++ [EvStorePrefilteredReflections dispatch_thread_id
            (Prefilter.radiance center) (Prefilter.variance center)].
Proof.
  intros F FO env dtid gid ss s center center_roughness H.
  rewrite Prefilter_after_barrier. cbv zeta. fold center center_roughness.
  replace (fltb f0 (Prefilter.variance center)
           && Prefilter.FFX_DNSR_Reflections_IsGlossyReflection env center_roughness
           && negb (Prefilter.FFX_DNSR_Reflections_IsMirrorReflection env center_roughness))
    with false.
  - rewrite events_ret, value_ret. reflexivity.
  - symmetry. destruct H as [-> | [-> | ->]].
    + reflexivity.
    + apply andb_false_iff. left. apply andb_false_r.
    + apply andb_false_r.
Qed.

Lemma prefilter_copies_center_without_denoiser_witness :
  (fltb f0 (Prefilter.variance
              (prefilter_center (flat_prefilter_env 1 false) (11, 10) (3, 2) (64, 64)
                 (flat_prefilter_shared 1))) = false
   \/ Prefilter.FFX_DNSR_Reflections_IsGlossyReflection (flat_prefilter_env 1 false)
        (Prefilter.FFX_DNSR_Reflections_LoadRoughness (flat_prefilter_env 1 false) (11, 10))
      = false
   \/ Prefilter.FFX_DNSR_Reflections_IsMirrorReflection (flat_prefilter_env 1 false)
        (Prefilter.FFX_DNSR_Reflections_LoadRoughness (flat_prefilter_env 1 false) (11, 10))
      = true)
  /\ after_first_barrier
       (events (Prefilter.FFX_DNSR_Reflections_Prefilter (flat_prefilter_env 1 false)
                  (11, 10) (3, 2) (64, 64)) (flat_prefilter_shared 1))
     = sample_loads (7, 6)
       ++ [EvStorePrefilteredReflections (11, 10) (mk4 1 1 1 1)%R 1%R].
Proof.
  assert (H : fltb f0 (Prefilter.variance
                         (prefilter_center (flat_prefilter_env 1 false) (11, 10) (3, 2)
                            (64, 64) (flat_prefilter_shared 1))) = false
              \/ Prefilter.FFX_DNSR_Reflections_IsGlossyReflection (flat_prefilter_env 1 false)
                   (Prefilter.FFX_DNSR_Reflections_LoadRoughness (flat_prefilter_env 1 false)
                      (11, 10)) = false
              \/ Prefilter.FFX_DNSR_Reflections_IsMirrorReflection (flat_prefilter_env 1 false)
                   (Prefilter.FFX_DNSR_Reflections_LoadRoughness (flat_prefilter_env 1 false)
                      (11, 10)) = true)
    by (right; left; reflexivity).
  split; [exact H|].
  exact (prefilter_copies_center_without_denoiser R R_FloatOps (flat_prefilter_env 1 false)
           (11, 10) (3, 2) (64, 64) (flat_prefilter_shared 1) H).
Defined.

(** X2: when the center variance is above 0 and the pixel is a glossy
    reflection that is not a mirror reflection,
    [FFX_DNSR_Reflections_Prefilter] denoises: after the barrier it loads
    the center sample, samples the average radiance once, at
    (pixel + 0.5) / RoundUp8(screen_size), loads the 15 neighbors of the
    center in the order of the offset table, and stores for its pixel what
    [FFX_DNSR_Reflections_Resolve] returns from the shared memory left by
    the barrier. *)
Theorem prefilter_denoises_with_resolve :
  forall (F : Type) (FO : FloatOps F) (env : Prefilter.Env F)
         (dispatch_thread_id group_thread_id screen_size : int2) (s : Prefilter.shared F),
    let center := prefilter_center env dispatch_thread_id group_thread_id screen_size s in
    let center_roughness := Prefilter.FFX_DNSR_Reflections_LoadRoughness env dispatch_thread_id in
    let center_idx := int2_add group_thread_id (splat 4) in
    let uv8 :=
      div2 (add2 (float2_of_int2 dispatch_thread_id) (splat2 (flit (1 # 2))))
           (float2_of_int2 (Prefilter.FFX_DNSR_Reflections_RoundUp8 env screen_size)) in
    let resolved :=
      value (Prefilter.FFX_DNSR_Reflections_Resolve env center_idx
               (Prefilter.FFX_DNSR_Reflections_SampleAverageRadiance env uv8) center)
            (prefilter_synced env dispatch_thread_id group_thread_id screen_size s) in
    fltb f0 (Prefilter.variance center) = true ->
    Prefilter.FFX_DNSR_Reflections_IsGlossyReflection env center_roughness = true ->
    Prefilter.FFX_DNSR_Reflections_IsMirrorReflection env center_roughness = false ->
    after_first_barrier
      (events (Prefilter.FFX_DNSR_Reflections_Prefilter env dispatch_thread_id
                 group_thread_id screen_size) s)
    = sample_loads center_idx
      ++ EvSample AverageRadiance uv8
         :: flat_map (fun o => sample_loads (int2_add center_idx o)) Prefilter.sample_offsets
      ++ [EvStorePrefilteredReflections dispatch_thread_id (fst resolved) (snd resolved)].
Proof.
  intros F FO env dtid gid ss s center center_roughness center_idx uv8 resolved Hv Hg Hm.
  rewrite Prefilter_after_barrier. cbv zeta. fold center center_roughness center_idx uv8.
  rewrite Hv, Hg, Hm. cbn [andb negb].
  rewrite events_bind, value_bind, events_tex_sample, value_tex_sample, final_tex_sample.
  fold resolved. unfold events at 1. rewrite Resolve_run. cbn [snd app].
  reflexivity.
Qed.

Lemma prefilter_denoises_with_resolve_witness :
  fltb f0 (Prefilter.variance
             (prefilter_center (flat_prefilter_env 1 true) (11, 10) (3, 2) (64, 64)
                (flat_prefilter_shared 1))) = true
  /\ List.length
       (after_first_barrier
          (events (Prefilter.FFX_DNSR_Reflections_Prefilter (flat_prefilter_env 1 true)
                     (11, 10) (3, 2) (64, 64)) (flat_prefilter_shared 1)))
     = 50%nat.
Proof.
  assert (Hv : fltb f0 (Prefilter.variance
                          (prefilter_center (flat_prefilter_env 1 true) (11, 10) (3, 2)
                             (64, 64) (flat_prefilter_shared 1))) = true).
  { apply Rltb_true. unfold f0. cbn [flit R_FloatOps]. rewrite Q2R_lit_0.
    change (Prefilter.variance
              (prefilter_center (flat_prefilter_env 1 true) (11, 10) (3, 2) (64, 64)
                 (flat_prefilter_shared 1))) with 1%R.
    lra. }
  split; [exact Hv|].
  rewrite (prefilter_denoises_with_resolve R R_FloatOps (flat_prefilter_env 1 true)
             (11, 10) (3, 2) (64, 64) (flat_prefilter_shared 1) Hv eq_refl eq_refl).
  reflexivity.
Defined.

(** ** The resolved radiance and variance, over the reals *)

Lemma for_each_reads_invariant {F S A X} (I : A -> Prop) (l : list X)
    (body : X -> A -> M F S A) (s : S) :
  (forall x acc, final (body x acc) s = s) ->
  (forall x acc, In x l -> I acc -> I (value (body x acc) s)) ->
  forall acc, I acc -> I (value (for_each l body acc) s).
Proof.
  intros Hfinal. induction l as [|x l IH]; intros Hbody acc Hacc; cbn [for_each].
  - exact Hacc.
  - rewrite value_bind, Hfinal. apply IH.
    + intros y a Hy. apply Hbody. right. exact Hy.
    + apply Hbody; [left; reflexivity | exact Hacc].
Qed.

Lemma Rdiv_between (lo hi r w : R) :
  (0 < w -> lo * w <= r <= hi * w -> lo <= r / w <= hi)%R.
Proof.
  intros Hw [Hlo Hhi].
  assert (H : (r / w * w = r)%R) by (field; lra).
  split; apply Rmult_le_reg_r with w; try exact Hw; rewrite H; assumption.
Qed.

Section ResolveBounds.
Variable env : Prefilter.Env R.
Variables (gid : int2) (avg : float4 R).
Variable center : Prefilter.FFX_DNSR_Reflections_NeighborhoodSample R.
Variable s : Prefilter.shared R.
Hypothesis bias_nonneg : (0 <= Prefilter.FFX_DNSR_REFLECTIONS_PREFILTER_VARIANCE_BIAS env)%R.

Lemma Resolve_step_final o acc :
  final (Prefilter.Resolve_step env gid avg center o acc) s = s.
Proof. unfold final. rewrite Resolve_step_run. reflexivity. Qed.

(** The accumulated radiance stays between [lo] and [hi] times the
    accumulated weight. *)
Lemma Resolve_accumulate_radiance lo hi :
  within4 lo hi (Prefilter.radiance center) ->
  (forall o, In o Prefilter.sample_offsets ->
     within4 lo hi (tget (Prefilter.g_ffx_dnsr_shared_0 s) (int2_add gid o))) ->
  let acc := value (Prefilter.Resolve_accumulate env gid avg center) s in
  (1 / 100 <= fst (fst acc))%R
  /\ within4 (lo * fst (fst acc)) (hi * fst (fst acc)) (snd (fst acc)).
Proof.
  intros Hc Hn. unfold Prefilter.Resolve_accumulate. cbv zeta.
  apply (for_each_reads_invariant
           (fun acc : Prefilter.accumulators =>
              (1 / 100 <= fst (fst acc))%R
              /\ within4 (lo * fst (fst acc)) (hi * fst (fst acc)) (snd (fst acc)))).
  - apply Resolve_step_final.
  - intros o [[w r] v] Ho [Hw Hr]. unfold value. rewrite Resolve_step_run.
    cbn [fst snd] in *.
    set (n := value (Prefilter.FFX_DNSR_Reflections_LoadFromGroupSharedMemory
                       (int2_add gid o)) s).
    pose proof (neighbor_weight_nonneg env avg center n bias_nonneg) as Hnw.
    set (nw := Prefilter.neighbor_weight env avg center n) in *.
    assert (Hrad : within4 lo hi (Prefilter.radiance n)) by (apply Hn, Ho).
    unfold within4 in *. cbn [add4 smul4 map2_4 x4 y4 z4 w4 fadd fmul R_FloatOps].
    split; [lra|]. repeat split; nra.
  - cbn [fst snd].
    pose proof (radiance_weight_lower_bound env avg (Prefilter.radiance center)
                  (Prefilter.variance center)) as Hw.
    split; [exact Hw|].
    unfold within4 in *. cbn [scale4 x4 y4 z4 w4 fmul R_FloatOps].
    repeat split; nra.
Qed.

(** The accumulated variance stays between 0 and [V] times the square of
    the accumulated weight. *)
Lemma Resolve_accumulate_variance V :
  (0 <= Prefilter.variance center <= V)%R ->
  (forall o, In o Prefilter.sample_offsets ->
     (0 <= w4 (tget (Prefilter.g_ffx_dnsr_shared_1 s) (int2_add gid o)) <= V)%R) ->
  let acc := value (Prefilter.Resolve_accumulate env gid avg center) s in
  (1 / 100 <= fst (fst acc))%R
  /\ (0 <= snd acc <= V * (fst (fst acc) * fst (fst acc)))%R.
Proof.
  intros Hc Hn. unfold Prefilter.Resolve_accumulate. cbv zeta.
  apply (for_each_reads_invariant
           (fun acc : Prefilter.accumulators =>
              (1 / 100 <= fst (fst acc))%R
              /\ (0 <= snd acc <= V * (fst (fst acc) * fst (fst acc)))%R)).
  - apply Resolve_step_final.
  - intros o [[w r] v] Ho [Hw Hv]. unfold value. rewrite Resolve_step_run.
    cbn [fst snd] in *.
    set (n := value (Prefilter.FFX_DNSR_Reflections_LoadFromGroupSharedMemory
                       (int2_add gid o)) s).
    pose proof (neighbor_weight_nonneg env avg center n bias_nonneg) as Hnw.
    set (nw := Prefilter.neighbor_weight env avg center n) in *.
    assert (Hvar : (0 <= Prefilter.variance n <= V)%R) by (apply Hn, Ho).
    set (nv := Prefilter.variance n) in *.
    cbn [fadd fmul R_FloatOps].
    assert (Hsq : (0 <= nw * nw)%R) by nra.
    assert (H1 : (0 <= nw * nw * nv)%R) by (apply Rmult_le_pos; lra).
    assert (H2 : (nw * nw * nv <= nw * nw * V)%R) by (apply Rmult_le_compat_l; lra).
    assert (H3 : (0 <= V * (w * nw))%R)
      by (apply Rmult_le_pos; [lra | apply Rmult_le_pos; lra]).
    split; [lra|]. split; [lra|]. nra.
  - cbn [fst snd].
    pose proof (radiance_weight_lower_bound env avg (Prefilter.radiance center)
                  (Prefilter.variance center)) as Hw.
    set (w0 := Prefilter.FFX_DNSR_Reflections_GetRadianceWeight env avg
                 (Prefilter.radiance center) (Prefilter.variance center)) in *.
    cbn [fmul R_FloatOps].
    assert (Hsq : (0 <= w0 * w0)%R) by nra.
    split; [exact Hw|]. split.
    + rewrite Rmult_assoc. apply Rmult_le_pos; lra.
    + rewrite Rmult_assoc. apply Rmult_le_compat_r; lra.
Qed.
End ResolveBounds.

(** X3: over the reals, with a variance bias that is not negative, the
    radiance resolved by [FFX_DNSR_Reflections_Resolve] is a weighted
    average: when every component of the center radiance and of the 15
    neighbor radiances it loads lies between [lo] and [hi], so does every
    component of the resolved radiance.  The filter creates no value
    outside the range of its inputs. *)
Theorem resolve_radiance_within_input_range :
  forall (env : Prefilter.Env R) (group_thread_id : int2) (avg_radiance : float4 R)
         (center : Prefilter.FFX_DNSR_Reflections_NeighborhoodSample R)
         (s : Prefilter.shared R) (lo hi : R),
    (0 <= Prefilter.FFX_DNSR_REFLECTIONS_PREFILTER_VARIANCE_BIAS env)%R ->
    within4 lo hi (Prefilter.radiance center) ->
    (forall o, In o Prefilter.sample_offsets ->
       within4 lo hi (tget (Prefilter.g_ffx_dnsr_shared_0 s) (int2_add group_thread_id o))) ->
    within4 lo hi
      (fst (value (Prefilter.FFX_DNSR_Reflections_Resolve env group_thread_id avg_radiance
                     center) s)).
Proof.
  intros env gid avg center s lo hi Hbias Hc Hn.
  destruct (Resolve_accumulate_radiance env gid avg center s Hbias lo hi Hc Hn) as [Hw Hr].
  unfold value at 1. rewrite Resolve_run. cbn [fst].
  destruct (value (Prefilter.Resolve_accumulate env gid avg center) s) as [[w r] v].
  cbn [fst snd] in *. unfold within4 in *.
  cbn [sdiv4 x4 y4 z4 w4 fdiv R_FloatOps].
  destruct Hr as (Hx & Hy & Hz & Hw4).
  split; [| split; [| split]]; apply Rdiv_between; solve [lra | assumption].
Qed.

Lemma resolve_radiance_within_input_range_witness :
  within4 0 2
    (fst (value (Prefilter.FFX_DNSR_Reflections_Resolve (flat_prefilter_env 1 true) (4, 4)%Z
                   (mk4 1 1 1 1)%R
                   (Prefilter.mk_sample (mk4 2 0 1 1)%R 1%R (mk3 0 0 1)%R 1%R))
                (flat_prefilter_shared 1))).
Proof.
  apply (resolve_radiance_within_input_range (flat_prefilter_env 1 true) (4, 4)%Z
           (mk4 1 1 1 1)%R (Prefilter.mk_sample (mk4 2 0 1 1)%R 1%R (mk3 0 0 1)%R 1%R)
           (flat_prefilter_shared 1) 0%R 2%R).
  - simpl. lra.
  - unfold within4. simpl. lra.
  - intros o _. unfold within4. simpl. lra.
Defined.

(** X4: over the reals, with a variance bias that is not negative, when
    the center variance and the 15 neighbor variances that
    [FFX_DNSR_Reflections_Resolve] loads lie between 0 and [V], the
    resolved variance lies between 0 and [V] too: the filter never
    returns a negative variance and never one above the largest input
    variance. *)
Theorem resolve_variance_within_input_range :
  forall (env : Prefilter.Env R) (group_thread_id : int2) (avg_radiance : float4 R)
         (center : Prefilter.FFX_DNSR_Reflections_NeighborhoodSample R)
         (s : Prefilter.shared R) (V : R),
    (0 <= Prefilter.FFX_DNSR_REFLECTIONS_PREFILTER_VARIANCE_BIAS env)%R ->
    (0 <= Prefilter.variance center <= V)%R ->
    (forall o, In o Prefilter.sample_offsets ->
       (0 <= w4 (tget (Prefilter.g_ffx_dnsr_shared_1 s) (int2_add group_thread_id o)) <= V)%R) ->
    (0 <= snd (value (Prefilter.FFX_DNSR_Reflections_Resolve env group_thread_id avg_radiance
                        center) s) <= V)%R.
Proof.
  intros env gid avg center s V Hbias Hc Hn.
  destruct (Resolve_accumulate_variance env gid avg center s Hbias V Hc Hn) as [Hw Hv].
  replace (value (Prefilter.FFX_DNSR_Reflections_Resolve env gid avg center) s)
    with (fst (fst (Prefilter.FFX_DNSR_Reflections_Resolve env gid avg center s)))
    by reflexivity.
  rewrite Resolve_run. cbn [fst snd].
  destruct (value (Prefilter.Resolve_accumulate env gid avg center) s) as [[w r] v].
  cbn [fst snd] in *. cbn [fdiv fmul R_FloatOps].
  apply Rdiv_between; [nra | lra].
Qed.

Lemma resolve_variance_within_input_range_witness :
  (0 <= snd (value (Prefilter.FFX_DNSR_Reflections_Resolve (flat_prefilter_env 1 true)
                      (4, 4)%Z (mk4 1 1 1 1)%R
                      (Prefilter.mk_sample (mk4 2 0 1 1)%R (1 / 2)%R (mk3 0 0 1)%R 1%R))
                   (flat_prefilter_shared 1)) <= 1)%R.
Proof.
  apply (resolve_variance_within_input_range (flat_prefilter_env 1 true) (4, 4)%Z
           (mk4 1 1 1 1)%R (Prefilter.mk_sample (mk4 2 0 1 1)%R (1 / 2)%R (mk3 0 0 1)%R 1%R)
           (flat_prefilter_shared 1) 1%R).
  - simpl. lra.
  - simpl. lra.
  - intros o _. simpl. lra.
Defined.

(** ** The disocclusion factor, over the reals *)

Lemma exp_le_1 (x : R) : (x <= 0 -> exp x <= 1)%R.
Proof.
  intros [H | ->].
  - left. rewrite <- exp_0. apply exp_increasing, H.
  - rewrite exp_0. lra.
Qed.

Lemma saturate_range (x : R) : (0 <= saturate x <= 1)%R.
Proof.
  unfold saturate, f0, f1. cbn [fmin fmax flit R_FloatOps].
  rewrite Q2R_lit_0, Q2R_lit_1. split.
  - apply Rmin_glb; [apply Rmax_r | lra].
  - apply Rmin_r.
Qed.

Lemma disocclusion_factor_pos (env : Reproject.Env R) normal history_normal
    linear_depth history_linear_depth :
  (0 < Reproject.FFX_DNSR_Reflections_GetDisocclusionFactor env normal history_normal
         linear_depth history_linear_depth)%R.
Proof.
  unfold Reproject.FFX_DNSR_Reflections_GetDisocclusionFactor. cbv zeta.
  unfold f1. cbn [fmul fexp flit R_FloatOps]. rewrite Q2R_lit_1, Rmult_1_l.
  apply Rmult_lt_0_compat; apply exp_pos.
Qed.

(** X5: over the reals, with normal and depth weights that are not
    negative and a positive linear depth,
    [FFX_DNSR_Reflections_GetDisocclusionFactor] lies between 0 and 1, and
    it is 1 when the history has the same linear depth and a normal whose
    dot product with the pixel's is 1. *)
Theorem disocclusion_factor_range :
  forall (env : Reproject.Env R) (normal history_normal : float3 R)
         (linear_depth history_linear_depth : R),
    (0 <= Reproject.FFX_DNSR_REFLECTIONS_DISOCCLUSION_NORMAL_WEIGHT env)%R ->
    (0 <= Reproject.FFX_DNSR_REFLECTIONS_DISOCCLUSION_DEPTH_WEIGHT env)%R ->
    (0 < linear_depth)%R ->
    let factor :=
      Reproject.FFX_DNSR_Reflections_GetDisocclusionFactor env normal history_normal
        linear_depth history_linear_depth in
    (0 <= factor <= 1)%R
    /\ (dot normal history_normal = 1%R -> history_linear_depth = linear_depth ->
        factor = 1%R).
Proof.
  intros env normal hn ld hld Hnw Hdw Hld factor.
  split; [split; [left; apply disocclusion_factor_pos|] |].
  - unfold factor, Reproject.FFX_DNSR_Reflections_GetDisocclusionFactor. cbv zeta.
    pose proof (saturate_range (f1 - ld * flit (1 # 100))%flt) as Hsat.
    set (sat := saturate (f1 - ld * flit (1 # 100))%flt) in *.
    unfold f1, f0. cbn [fmul fsub fdiv fneg fabs fmax fexp flit R_FloatOps].
    rewrite Q2R_lit_1, Q2R_lit_0, Rmult_1_l.
    set (a := Rabs (1 - Rmax 0 (dot normal hn))).
    set (b := Rabs (hld - ld)).
    assert (Ha : (0 <= a)%R) by apply Rabs_pos.
    assert (Hb : (0 <= b)%R) by apply Rabs_pos.
    assert (H1 : (exp (- a * Reproject.FFX_DNSR_REFLECTIONS_DISOCCLUSION_NORMAL_WEIGHT env)
                  <= 1)%R).
    { apply exp_le_1.
      assert (0 <= a * Reproject.FFX_DNSR_REFLECTIONS_DISOCCLUSION_NORMAL_WEIGHT env)%R
        by (apply Rmult_le_pos; assumption).
      lra. }
    assert (H2 : (exp (- b / ld
                      * (Reproject.FFX_DNSR_REFLECTIONS_DISOCCLUSION_DEPTH_WEIGHT env * sat))
                  <= 1)%R).
    { apply exp_le_1.
      assert (0 <= b / ld)%R by (apply Rmult_le_pos; [exact Hb | left; apply Rinv_0_lt_compat, Hld]).
      assert (0 <= Reproject.FFX_DNSR_REFLECTIONS_DISOCCLUSION_DEPTH_WEIGHT env * sat)%R
        by (apply Rmult_le_pos; lra).
      assert (0 <= b / ld * (Reproject.FFX_DNSR_REFLECTIONS_DISOCCLUSION_DEPTH_WEIGHT env * sat))%R
        by (apply Rmult_le_pos; assumption).
      unfold Rdiv in *. lra. }
    pose proof (exp_pos (- a * Reproject.FFX_DNSR_REFLECTIONS_DISOCCLUSION_NORMAL_WEIGHT env)).
    pose proof (exp_pos (- b / ld
                         * (Reproject.FFX_DNSR_REFLECTIONS_DISOCCLUSION_DEPTH_WEIGHT env * sat))).
    nra.
  - intros Hdot Hdepth.
    unfold factor, Reproject.FFX_DNSR_Reflections_GetDisocclusionFactor. cbv zeta.
    unfold f1, f0. cbn [fmul fsub fdiv fneg fabs fmax fexp flit R_FloatOps].
    rewrite Q2R_lit_1, Q2R_lit_0, Hdot, Hdepth.
    rewrite (Rmax_right 0 1) by lra.
    replace (1 - 1)%R with 0%R by ring. replace (ld - ld)%R with 0%R by ring.
    rewrite Rabs_R0. unfold Rdiv. rewrite Ropp_0, !Rmult_0_l, exp_0. ring.
Qed.

Lemma disocclusion_factor_range_witness :
  (0 <= Reproject.FFX_DNSR_Reflections_GetDisocclusionFactor disoccluded_env
          (mk3 0 0 1)%R (mk3 0 1 0)%R 2%R 3%R <= 1)%R.
Proof.
  apply (disocclusion_factor_range disoccluded_env (mk3 0 0 1)%R (mk3 0 1 0)%R 2%R 3%R).
  - simpl. lra.
  - simpl. lra.
  - lra.
Defined.

(** ** Code that leaves the shared memory as it is *)

Section LeavesShared.
Context {F S : Type}.

Lemma leaves_ret {A} (a : A) : leaves_shared (F:=F) (S:=S) (ret a).
Proof. intros s. reflexivity. Qed.

Lemma leaves_bind {A B} (m : M F S A) (k : A -> M F S B) :
  leaves_shared m -> (forall a, leaves_shared (k a)) -> leaves_shared (bind m k).
Proof. intros Hm Hk s. rewrite final_bind, Hm. apply Hk. Qed.

Lemma leaves_emit (e : event F) : leaves_shared (S:=S) (emit e).
Proof. intros s. reflexivity. Qed.

Lemma leaves_tex_load {X} r (f : int2 -> X) p : leaves_shared (F:=F) (S:=S) (tex_load r f p).
Proof. intros s. reflexivity. Qed.

Lemma leaves_tex_sample {X} r (f : float2 F -> X) uv : leaves_shared (S:=S) (tex_sample r f uv).
Proof. intros s. reflexivity. Qed.

Lemma leaves_shared_load {V} t (proj : S -> tile V) idx :
  leaves_shared (F:=F) (shared_load t proj idx).
Proof. intros s. reflexivity. Qed.

Lemma leaves_for_each {A X} (l : list X) (body : X -> A -> M F S A) acc :
  (forall x a, leaves_shared (body x a)) -> leaves_shared (for_each l body acc).
Proof.
  intros H. revert acc. induction l as [|x l IH]; intros acc; cbn [for_each].
  - apply leaves_ret.
  - apply leaves_bind; [apply H | intros a; apply IH].
Qed.
End LeavesShared.

Ltac leaves_step :=
  cbv beta iota zeta;
  lazymatch goal with
  | |- leaves_shared (bind _ _) => apply leaves_bind; [| intros ?]
  | |- leaves_shared (ret _) => apply leaves_ret
  | |- leaves_shared (emit _) => apply leaves_emit
  | |- leaves_shared (tex_load _ _ _) => apply leaves_tex_load
  | |- leaves_shared (tex_sample _ _ _) => apply leaves_tex_sample
  | |- leaves_shared (shared_load _ _ _) => apply leaves_shared_load
  | |- leaves_shared (for_each _ _ _) => apply leaves_for_each; intros ? ?
  | |- leaves_shared (if ?c then _ else _) => destruct c
  | |- leaves_shared (match ?p with _ => _ end) => destruct p
  | |- leaves_shared ?m => let h := head_of m in unfold h
  end.

(** ** The paths of the pick *)

Section PickPaths.
Context {F : Type} {FO : FloatOps F}.
Variable env : Reproject.Env F.
Implicit Types s : Reproject.shared F.

Lemma Pick_clamp_not_below (p : Reproject.picked) :
  fltb (Reproject.disocclusion_factor p)
       (Reproject.FFX_DNSR_REFLECTIONS_DISOCCLUSION_THRESHOLD env) = false ->
  Reproject.Pick_clamp env p = p.
Proof. intros H. destruct p as [d u r]. unfold Reproject.Pick_clamp. cbn in *. rewrite H. reflexivity. Qed.

Lemma Pick_candidate_leaves_shared dtid gid ss roughness ray_length :
  leaves_shared (Reproject.Pick_candidate env dtid gid ss roughness ray_length).
Proof. unfold Reproject.Pick_candidate. repeat leaves_step. Qed.

Lemma Pick_search_leaves_shared ss roughness normal linear_depth p :
  leaves_shared (Reproject.Pick_search env ss roughness normal linear_depth p).
Proof. unfold Reproject.Pick_search. repeat leaves_step. Qed.

Lemma Pick_interpolate_leaves_shared ss normal linear_depth p :
  leaves_shared (Reproject.Pick_interpolate env ss normal linear_depth p).
Proof. unfold Reproject.Pick_interpolate. repeat leaves_step. Qed.

Lemma PickReprojection_leaves_shared dtid gid ss roughness ray_length :
  leaves_shared
    (Reproject.FFX_DNSR_Reflections_PickReprojection env dtid gid ss roughness ray_length).
Proof.
  unfold Reproject.FFX_DNSR_Reflections_PickReprojection.
  apply leaves_bind; [apply Pick_candidate_leaves_shared|].
  intros [[normal linear_depth] p]. cbv beta iota.
  destruct (fltb _ _); [apply leaves_ret|].
  apply leaves_bind.
  - destruct (fltb _ _); [apply Pick_search_leaves_shared | apply leaves_ret].
  - intros q. apply leaves_bind; [| intros ?; apply leaves_ret].
    destruct (fltb _ _); [apply Pick_interpolate_leaves_shared | apply leaves_ret].
Qed.

Lemma PickReprojection_not_below dtid gid ss roughness ray_length s :
  let candidate := Reproject.Pick_candidate env dtid gid ss roughness ray_length in
  fltb (Reproject.disocclusion_factor (snd (value candidate s)))
       (Reproject.FFX_DNSR_REFLECTIONS_DISOCCLUSION_THRESHOLD env) = false ->
  Reproject.FFX_DNSR_Reflections_PickReprojection env dtid gid ss roughness ray_length s
  = (snd (value candidate s), final candidate s, events candidate s).
Proof.
  intros candidate H. unfold Reproject.FFX_DNSR_Reflections_PickReprojection.
  rewrite run_bind. fold candidate.
  destruct (value candidate s) as [[normal linear_depth] p]. cbn [snd] in H.
  cbv beta iota.
  destruct (fltb (Reproject.FFX_DNSR_REFLECTIONS_DISOCCLUSION_THRESHOLD env)
              (Reproject.disocclusion_factor p)).
  - unfold value, final, events, ret. cbn [fst snd]. rewrite app_nil_r. reflexivity.
  - rewrite H. unfold value, final, events, bind, ret. cbn [fst snd].
    rewrite H. cbn [fst snd]. rewrite !app_nil_r, Pick_clamp_not_below by exact H.
    reflexivity.
Qed.
End PickPaths.

(** X6: when the disocclusion factor of the first candidate (the hit or
    the surface reprojection) is not below the threshold,
    [FFX_DNSR_Reflections_PickReprojection] returns that candidate as it
    is, factor, uv and radiance, and makes no access beyond those that
    chose the candidate: neither the spiral search nor the 2x2
    interpolation runs. *)
Theorem pick_reprojection_keeps_candidate_not_below_threshold :
  forall (F : Type) (FO : FloatOps F) (env : Reproject.Env F)
         (dispatch_thread_id group_thread_id screen_size : int2) (roughness ray_length : F)
         (s : Reproject.shared F),
    let candidate :=
      Reproject.Pick_candidate env dispatch_thread_id group_thread_id screen_size
        roughness ray_length in
    let pick :=
      Reproject.FFX_DNSR_Reflections_PickReprojection env dispatch_thread_id group_thread_id
        screen_size roughness ray_length in
    fltb (Reproject.disocclusion_factor (snd (value candidate s)))
         (Reproject.FFX_DNSR_REFLECTIONS_DISOCCLUSION_THRESHOLD env) = false ->
    value pick s = snd (value candidate s)
    /\ events pick s = events candidate s
    /\ final pick s = s.
Proof.
  intros F FO env dtid gid ss roughness ray_length s candidate pick H.
  unfold value at 1, events at 1, final, pick.
  rewrite PickReprojection_not_below by exact H. cbn [fst snd].
  split; [reflexivity|]. split; [reflexivity|].
  apply Pick_candidate_leaves_shared.
Qed.

Lemma pick_reprojection_keeps_candidate_not_below_threshold_witness :
  let env := flat_reproject_env 1 zero3 true 0 0 in
  let candidate := Reproject.Pick_candidate env (3, 2) (7, 6) (64, 64) 1%R 1%R in
  fltb (Reproject.disocclusion_factor (snd (value candidate (flat_reproject_shared 1))))
       (Reproject.FFX_DNSR_REFLECTIONS_DISOCCLUSION_THRESHOLD env) = false
  /\ events (Reproject.FFX_DNSR_Reflections_PickReprojection env (3, 2) (7, 6) (64, 64)
               1%R 1%R) (flat_reproject_shared 1)
     = events candidate (flat_reproject_shared 1).
Proof.
  intros env candidate.
  assert (H : fltb (Reproject.disocclusion_factor
                      (snd (value candidate (flat_reproject_shared 1))))
                   (Reproject.FFX_DNSR_REFLECTIONS_DISOCCLUSION_THRESHOLD env) = false).
  { destruct (Pick_candidate_factor env (3, 2) (7, 6) (64, 64) 1%R 1%R
                (flat_reproject_shared 1)) as (ld & p & Hval & (hn & hld & Hp)).
    unfold candidate. rewrite Hval. cbn [snd]. rewrite Hp.
    apply Rltb_false. left. apply disocclusion_factor_pos. }
  split; [exact H|].
  exact (proj1 (proj2 (pick_reprojection_keeps_candidate_not_below_threshold R R_FloatOps env
                         (3, 2) (7, 6) (64, 64) 1%R 1%R (flat_reproject_shared 1) H))).
Defined.

(** ** The search around the candidate *)

Lemma for_each_events_length {F S A X} (n : nat) (l : list X) (body : X -> A -> M F S A) :
  (forall x acc s, List.length (events (body x acc) s) = n) ->
  forall acc s, List.length (events (for_each l body acc) s) = (List.length l * n)%nat.
Proof.
  intros H. induction l as [|x l IH]; intros acc s; cbn [for_each].
  - reflexivity.
  - rewrite events_bind, length_app, H, IH. reflexivity.
Qed.

Section PickSearch.
Variable env : Reproject.Env R.
Variables (normal : float3 R) (linear_depth : R) (dudv : float2 R).
Implicit Types s : Reproject.shared R.

(** One step of the search never lowers the factor, and moves the uv only
    together with a rise of the factor. *)
Lemma Pick_search_step_monotone d0 (u0 : float2 R) r o st s :
  (d0 <= fst (fst st))%R /\ (fst (fst st) = d0 -> snd st = u0) ->
  let st' := value (Reproject.Pick_search_step env normal linear_depth dudv r o st) s in
  (d0 <= fst (fst st'))%R /\ (fst (fst st') = d0 -> snd st' = u0).
Proof.
  destruct st as [[d c] u]. cbn [fst snd]. intros [Hd Hu].
  unfold Reproject.Pick_search_step. cbv zeta.
  rewrite !value_bind, value_tex_sample.
  match goal with
  | |- context [if fltb d ?w then _ else _] => destruct (Rltb d w) eqn:E
  end; cbn [fltb R_FloatOps]; rewrite E, value_ret; cbn [fst snd].
  - apply Rltb_true in E. split; [lra|]. intros Heq. lra.
  - split; assumption.
Qed.

Lemma Pick_search_step_events r o st s :
  List.length (events (Reproject.Pick_search_step env normal linear_depth dudv r o st) s)
  = 2%nat.
Proof.
  destruct st as [[d c] u]. unfold Reproject.Pick_search_step. cbv zeta.
  rewrite !events_bind, !events_tex_sample.
  match goal with
  | |- context [events (if ?c then _ else _)] => destruct c
  end; rewrite events_ret; reflexivity.
Qed.
End PickSearch.

(** X7: over the reals, the spiral search of
    [FFX_DNSR_Reflections_PickReprojection] (lines 217-244) never lowers
    the disocclusion factor; it moves the reprojection uv only to a sample
    whose factor is strictly above the candidate's, so an unchanged factor
    means an unchanged uv; the radiance it returns is the radiance history
    sampled at the uv it returns; and it makes two accesses for each of
    the 8 spiral offsets and one more for the radiance history, 17 in
    all, and 33 when the roughness is above 0.5 and the radius is 2. *)
Theorem pick_search_never_lowers_factor :
  forall (env : Reproject.Env R) (screen_size : int2) (roughness : R) (normal : float3 R)
         (linear_depth : R) (p : Reproject.picked) (s : Reproject.shared R),
    let search := Reproject.Pick_search env screen_size roughness normal linear_depth p in
    let q := value search s in
    (Reproject.disocclusion_factor p <= Reproject.disocclusion_factor q)%R
    /\ (Reproject.disocclusion_factor q = Reproject.disocclusion_factor p ->
        Reproject.reprojection_uv q = Reproject.reprojection_uv p)
    /\ Reproject.reprojection q
       = Reproject.FFX_DNSR_Reflections_SampleRadianceHistory env (Reproject.reprojection_uv q)
    /\ List.length (events search s)
       = (if fltb (flit (1 # 2)) roughness then 33%nat else 17%nat).
Proof.
  intros env ss roughness normal ld p s search q.
  unfold q, search, Reproject.Pick_search, Reproject.GetContactHardenedRadianceHistory.
  cbv zeta.
  set (dudv := mk2 (f1 / of_int (fst ss))%flt (f1 / of_int (snd ss))%flt).
  set (rows := Zrange 1 (if fltb (flit (1 # 2)) roughness then 2 else 1)).
  set (loop := for_each rows
                 (fun r => for_each Reproject.spiral_offsets
                             (Reproject.Pick_search_step env normal ld dudv r))
                 (Reproject.disocclusion_factor p, Reproject.reprojection_uv p,
                  Reproject.reprojection_uv p)).
  assert (Hinv : (Reproject.disocclusion_factor p <= fst (fst (value loop s)))%R
                 /\ (fst (fst (value loop s)) = Reproject.disocclusion_factor p ->
                     snd (value loop s) = Reproject.reprojection_uv p)).
  { unfold loop.
    apply (for_each_value_invariant
             (fun st : R * float2 R * float2 R =>
                (Reproject.disocclusion_factor p <= fst (fst st))%R
                /\ (fst (fst st) = Reproject.disocclusion_factor p ->
                    snd st = Reproject.reprojection_uv p))).
    - intros r acc s' _ Hacc.
      apply (for_each_value_invariant
               (fun st : R * float2 R * float2 R =>
                  (Reproject.disocclusion_factor p <= fst (fst st))%R
                  /\ (fst (fst st) = Reproject.disocclusion_factor p ->
                      snd st = Reproject.reprojection_uv p))); [| exact Hacc].
      intros o st s'' _ Hst. apply Pick_search_step_monotone, Hst.
    - cbn [fst snd]. split; [lra | reflexivity]. }
  assert (Hlen : List.length (events loop s) = (List.length rows * 16)%nat).
  { unfold loop. apply for_each_events_length. intros r acc s'.
    rewrite (for_each_events_length 2); [reflexivity|].
    intros o st s''. apply Pick_search_step_events. }
  rewrite value_bind, events_bind, length_app, Hlen.
  destruct (value loop s) as [[d c] u]. cbn [fst snd] in Hinv. cbv beta iota.
  rewrite !value_bind, value_ret, value_tex_sample.
  cbn [Reproject.disocclusion_factor Reproject.reprojection_uv Reproject.reprojection].
  split; [apply Hinv|]. split; [apply Hinv|]. split; [reflexivity|].
  rewrite !events_bind, events_tex_sample, !events_ret. cbn [List.length app].
  unfold rows. destruct (fltb (flit (1 # 2)) roughness); reflexivity.
Qed.

(** ** The 2x2 blend *)

Lemma Q2R_lit_1_1000 : Q2R (1 # 1000) = (1 / 1000)%R.
Proof. unfold Q2R. simpl. lra. Qed.

(** X8: over the reals, when none of the four texels of the 2x2
    neighborhood passes the occlusion test (no factor above half the
    threshold), the blend of [FFX_DNSR_Reflections_PickReprojection]
    (lines 267-287) returns zero radiance at the unchanged uv, and its
    disocclusion factor is the factor against a zero history normal and a
    zero history depth. *)
Theorem pick_blend_all_texels_rejected :
  forall (env : Reproject.Env R) (screen_size : int2) (normal : float3 R) (linear_depth : R)
         (reprojection_uv : float2 R)
         (reprojection00 reprojection10 reprojection01 reprojection11 : float4 R)
         (normal00 normal10 normal01 normal11 : float3 R)
         (depth00 depth10 depth01 depth11 : R),
    let half_threshold :=
      fdiv (Reproject.FFX_DNSR_REFLECTIONS_DISOCCLUSION_THRESHOLD env) (flit 2) in
    let factor n d :=
      Reproject.FFX_DNSR_Reflections_GetDisocclusionFactor env normal n linear_depth d in
    fltb half_threshold (factor normal00 depth00) = false ->
    fltb half_threshold (factor normal10 depth10) = false ->
    fltb half_threshold (factor normal01 depth01) = false ->
    fltb half_threshold (factor normal11 depth11) = false ->
    let blend :=
      Reproject.Pick_blend env screen_size normal linear_depth reprojection_uv
        reprojection00 reprojection10 reprojection01 reprojection11
        normal00 normal10 normal01 normal11 depth00 depth10 depth01 depth11 in
    Reproject.reprojection blend = mk4 0%R 0%R 0%R 0%R
    /\ Reproject.reprojection_uv blend = reprojection_uv
    /\ Reproject.disocclusion_factor blend = factor (mk3 0%R 0%R 0%R) 0%R.
Proof.
  intros env ss normal ld uv r00 r10 r01 r11 n00 n10 n01 n11 d00 d10 d01 d11
         half factor H00 H10 H01 H11 blend.
  unfold blend, Reproject.Pick_blend. cbv zeta.
  fold half. fold (factor n00 d00) (factor n10 d10) (factor n01 d01) (factor n11 d11).
  rewrite H00, H10, H01, H11.
  cbn [Reproject.reprojection Reproject.reprojection_uv Reproject.disocclusion_factor].
  set (u := ffrac _). set (v := ffrac _).
  unfold f0, f1. cbn [fmul fadd fsub fdiv fmax flit R_FloatOps].
  rewrite Q2R_lit_0, Q2R_lit_1.
  set (ws := Rmax _ _).
  assert (Hz : forall a b, (0 * a * b / ws = 0)%R) by (intros; unfold Rdiv; ring).
  rewrite !Hz.
  split; [| split; [reflexivity|]].
  - unfold add4, scale4, map2_4. cbn [x4 y4 z4 w4 fadd fmul R_FloatOps]. f_equal; ring.
  - unfold factor. f_equal.
    + unfold add3, scale3, map2_3. cbn [x3 y3 z3 fadd fmul R_FloatOps]. f_equal; ring.
    + ring.
Qed.

Lemma pick_blend_all_texels_rejected_witness :
  let env := flat_reproject_env 1 zero3 true 0 2 in
  Reproject.reprojection
    (Reproject.Pick_blend env (64, 64) zero3 1%R (mk2 (1 / 2) (1 / 2))%R
       (mk4 1 1 1 1)%R (mk4 2 2 2 2)%R (mk4 3 3 3 3)%R (mk4 4 4 4 4)%R
       zero3 zero3 zero3 zero3 1%R 1%R 1%R 1%R)
  = mk4 0%R 0%R 0%R 0%R.
Proof.
  intros env.
  assert (H : forall n d,
             fltb (fdiv (Reproject.FFX_DNSR_REFLECTIONS_DISOCCLUSION_THRESHOLD env) (flit 2))
                  (Reproject.FFX_DNSR_Reflections_GetDisocclusionFactor env zero3 n 1%R d)
             = false).
  { intros n d. apply Rltb_false.
    pose proof (disoccluded_env_factor n 1%R d) as Hlt.
    change (Reproject.FFX_DNSR_Reflections_GetDisocclusionFactor disoccluded_env zero3 n 1%R d)
      with (Reproject.FFX_DNSR_Reflections_GetDisocclusionFactor env zero3 n 1%R d) in Hlt.
    change (Reproject.FFX_DNSR_REFLECTIONS_DISOCCLUSION_THRESHOLD env) with 2%R.
    cbn [fdiv flit R_FloatOps]. replace (Q2R 2) with 2%R by (unfold Q2R; simpl; lra).
    lra. }
  exact (proj1 (pick_blend_all_texels_rejected env (64, 64) zero3 1%R (mk2 (1 / 2) (1 / 2))%R
                  (mk4 1 1 1 1)%R (mk4 2 2 2 2)%R (mk4 3 3 3 3)%R (mk4 4 4 4 4)%R
                  zero3 zero3 zero3 zero3 1%R 1%R 1%R 1%R
                  (H zero3 1%R) (H zero3 1%R) (H zero3 1%R) (H zero3 1%R))).
Defined.

(** X9: over the reals, when all four texels of the 2x2 neighborhood pass
    the occlusion test, the blend of
    [FFX_DNSR_Reflections_PickReprojection] (lines 267-287) is the
    bilinear interpolation of the four radiances at the fractions
    frac(size * uv + 0.5): the weights sum to 1 and the normalization
    divides by 1.  Four equal texels give that texel back. *)
Theorem pick_blend_all_texels_accepted :
  forall (env : Reproject.Env R) (screen_size : int2) (normal : float3 R) (linear_depth : R)
         (reprojection_uv : float2 R)
         (reprojection00 reprojection10 reprojection01 reprojection11 : float4 R)
         (normal00 normal10 normal01 normal11 : float3 R)
         (depth00 depth10 depth01 depth11 : R),
    let half_threshold :=
      fdiv (Reproject.FFX_DNSR_REFLECTIONS_DISOCCLUSION_THRESHOLD env) (flit 2) in
    let factor n d :=
      Reproject.FFX_DNSR_Reflections_GetDisocclusionFactor env normal n linear_depth d in
    fltb half_threshold (factor normal00 depth00) = true ->
    fltb half_threshold (factor normal10 depth10) = true ->
    fltb half_threshold (factor normal01 depth01) = true ->
    fltb half_threshold (factor normal11 depth11) = true ->
    let blend :=
      Reproject.Pick_blend env screen_size normal linear_depth reprojection_uv
        reprojection00 reprojection10 reprojection01 reprojection11
        normal00 normal10 normal01 normal11 depth00 depth10 depth01 depth11 in
    let uvx := ffrac (fadd (fmul (of_int (fst screen_size)) (x2 reprojection_uv))
                           (flit (1 # 2))) in
    let uvy := ffrac (fadd (fmul (of_int (snd screen_size)) (y2 reprojection_uv))
                           (flit (1 # 2))) in
    let mix (c : float4 R -> R) :=
      bilinear uvx uvy (c reprojection00) (c reprojection10) (c reprojection01)
        (c reprojection11) in
    Reproject.reprojection blend = mk4 (mix x4) (mix y4) (mix z4) (mix w4)
    /\ (reprojection10 = reprojection00 -> reprojection01 = reprojection00 ->
        reprojection11 = reprojection00 ->
        Reproject.reprojection blend = reprojection00).
Proof.
  intros env ss normal ld uv r00 r10 r01 r11 n00 n10 n01 n11 d00 d10 d01 d11
         half factor H00 H10 H01 H11 blend uvx uvy mix.
  assert (Hmix : Reproject.reprojection blend = mk4 (mix x4) (mix y4) (mix z4) (mix w4)).
  { unfold blend, Reproject.Pick_blend. cbv zeta.
    fold half. fold (factor n00 d00) (factor n10 d10) (factor n01 d01) (factor n11 d11).
    rewrite H00, H10, H01, H11.
    cbn [Reproject.reprojection]. fold uvx uvy.
    unfold f1. cbn [fmul fadd fsub fdiv fmax flit R_FloatOps].
    rewrite Q2R_lit_1, Q2R_lit_1_1000.
    replace (1 * (1 - uvx) * (1 - uvy) + 1 * uvx * (1 - uvy) + 1 * (1 - uvx) * uvy
             + 1 * uvx * uvy)%R with 1%R by ring.
    rewrite (Rmax_left 1 (1 / 1000)) by lra.
    unfold add4, scale4, map2_4, mix, bilinear. cbn [x4 y4 z4 w4 fadd fmul R_FloatOps].
    f_equal; field. }
  split; [exact Hmix|].
  intros -> -> ->. rewrite Hmix. unfold mix, bilinear.
  destruct r00 as [x y z w]. cbn [x4 y4 z4 w4]. f_equal; ring.
Qed.

Lemma pick_blend_all_texels_accepted_witness :
  let env := flat_reproject_env 1 zero3 true 0 0 in
  Reproject.reprojection
    (Reproject.Pick_blend env (64, 64) zero3 1%R (mk2 (1 / 2) (1 / 2))%R
       (mk4 3 3 3 3)%R (mk4 3 3 3 3)%R (mk4 3 3 3 3)%R (mk4 3 3 3 3)%R
       zero3 zero3 zero3 zero3 1%R 1%R 1%R 1%R)
  = (mk4 3 3 3 3)%R.
Proof.
  intros env.
  assert (H : forall n d,
             fltb (fdiv (Reproject.FFX_DNSR_REFLECTIONS_DISOCCLUSION_THRESHOLD env) (flit 2))
                  (Reproject.FFX_DNSR_Reflections_GetDisocclusionFactor env zero3 n 1%R d)
             = true).
  { intros n d. apply Rltb_true.
    change (Reproject.FFX_DNSR_REFLECTIONS_DISOCCLUSION_THRESHOLD env) with 0%R.
    cbn [fdiv flit R_FloatOps]. unfold Rdiv. rewrite Rmult_0_l.
    apply disocclusion_factor_pos. }
  exact (proj2 (pick_blend_all_texels_accepted env (64, 64) zero3 1%R (mk2 (1 / 2) (1 / 2))%R
                  (mk4 3 3 3 3)%R (mk4 3 3 3 3)%R (mk4 3 3 3 3)%R (mk4 3 3 3 3)%R
                  zero3 zero3 zero3 zero3 1%R 1%R 1%R 1%R
                  (H zero3 1%R) (H zero3 1%R) (H zero3 1%R) (H zero3 1%R))
               eq_refl eq_refl eq_refl).
Defined.

(** ** The temporal stores of an accepted history *)

Lemma Reproject_glossy_accepted_stores {F} {FO : FloatOps F} (env : Reproject.Env F)
    dtid gid ss ms roughness ray_length radiance s :
  let p := value (Reproject.FFX_DNSR_Reflections_PickReprojection env dtid gid ss
                    roughness ray_length) s in
  let prev_variance :=
    Reproject.FFX_DNSR_Reflections_SampleVarianceHistory env (Reproject.reprojection_uv p) in
  let num_samples :=
    fmax f1
      (fmin (fmax (flit 8)
               (fmul (of_int ms) (Reproject.FFX_DNSR_REFLECTIONS_SAMPLES_FOR_ROUGHNESS env roughness)))
            (fadd (fmul (Reproject.FFX_DNSR_Reflections_SampleNumSamplesHistory env
                           (Reproject.reprojection_uv p))
                        (Reproject.disocclusion_factor p))
                  (Reproject.SampleCountIntersection env))) in
  let new_variance :=
    Reproject.FFX_DNSR_Reflections_ComputeTemporalVariance env (xyz radiance)
      (xyz (Reproject.reprojection p)) in
  fltb (Reproject.disocclusion_factor p)
       (Reproject.FFX_DNSR_REFLECTIONS_DISOCCLUSION_THRESHOLD env) = false ->
  temporal_stores
    (events (Reproject.Reproject_glossy env dtid gid ss ms roughness ray_length radiance) s)
  = [EvStoreRadianceReprojected dtid (Reproject.reprojection p);
     EvStoreVariance dtid (lerp new_variance prev_variance (fdiv f1 num_samples));
     EvStoreNumSamples dtid num_samples].
Proof.
  intros p prev_variance num_samples new_variance H.
  unfold Reproject.Reproject_glossy, temporal_stores.
  rewrite events_bind, filter_app.
  rewrite (filter_quiet is_temporal_store)
    by apply pick_reprojection_no_temporal_store.
  fold p. cbv zeta. autorewrite with run. cbn [filter app is_temporal_store].
  rewrite H. autorewrite with run. reflexivity.
Qed.

Lemma lerp_between (a b t : R) :
  (0 <= t <= 1 -> Rmin a b <= lerp a b t <= Rmax a b)%R.
Proof.
  intros Ht. unfold lerp, f1. cbn [fadd fsub fmul flit R_FloatOps]. rewrite Q2R_lit_1.
  pose proof (Rmin_l a b). pose proof (Rmin_r a b).
  pose proof (Rmax_l a b). pose proof (Rmax_r a b).
  split; nra.
Qed.

(** X10: over the reals, for a glossy pixel whose picked disocclusion
    factor is not below the threshold, [FFX_DNSR_Reflections_Reproject]
    stores the picked reprojection as reprojected radiance, a sample count
    between 1 and max(8, max_samples * SAMPLES_FOR_ROUGHNESS(roughness)),
    and a variance between the new temporal variance and the variance
    history sampled at the picked uv; these three are its only stores to
    the reprojected radiance, the variance and the sample count. *)
Theorem reproject_accepted_history_stores :
  forall (env : Reproject.Env R) (dispatch_thread_id group_thread_id screen_size : int2)
         (temporal_stability_factor : R) (max_samples : Z) (s : Reproject.shared R),
    let roughness := Reproject.FFX_DNSR_Reflections_LoadRoughness env dispatch_thread_id in
    let p := reproject_picked env dispatch_thread_id group_thread_id screen_size s in
    let new_variance :=
      Reproject.FFX_DNSR_Reflections_ComputeTemporalVariance env
        (xyz (Reproject.FFX_DNSR_Reflections_LoadRadiance env dispatch_thread_id))
        (xyz (Reproject.reprojection p)) in
    let prev_variance :=
      Reproject.FFX_DNSR_Reflections_SampleVarianceHistory env (Reproject.reprojection_uv p) in
    Reproject.FFX_DNSR_Reflections_IsGlossyReflection env roughness = true ->
    fltb (Reproject.disocclusion_factor p)
         (Reproject.FFX_DNSR_REFLECTIONS_DISOCCLUSION_THRESHOLD env) = false ->
    exists variance_mix num_samples,
      temporal_stores
        (events (Reproject.FFX_DNSR_Reflections_Reproject env dispatch_thread_id
                   group_thread_id screen_size temporal_stability_factor max_samples) s)
      = [EvStoreRadianceReprojected dispatch_thread_id (Reproject.reprojection p);
         EvStoreVariance dispatch_thread_id variance_mix;
         EvStoreNumSamples dispatch_thread_id num_samples]
      /\ (1 <= num_samples
          <= Rmax 8 (IZR max_samples
                     * Reproject.FFX_DNSR_REFLECTIONS_SAMPLES_FOR_ROUGHNESS env roughness))%R
      /\ (Rmin new_variance prev_variance <= variance_mix
          <= Rmax new_variance prev_variance)%R.
Proof.
  intros env dtid gid ss tsf ms s roughness p new_variance prev_variance Hg Hd.
  rewrite Reproject_temporal_stores. cbv zeta. fold roughness. rewrite Hg.
  unfold reproject_picked in p.
  rewrite (Reproject_glossy_accepted_stores env dtid (int2_add gid (splat 4)) ss ms roughness
             (Reproject.FFX_DNSR_Reflections_LoadRayLength env dtid)
             (Reproject.FFX_DNSR_Reflections_LoadRadiance env dtid)
             (reproject_synced env dtid gid ss s) Hd).
  fold p new_variance prev_variance.
  eexists. eexists. split; [reflexivity|].
  unfold f1. cbn [fmax fmin fmul fadd fdiv flit of_int R_FloatOps].
  rewrite Q2R_lit_1. replace (Q2R 8) with 8%R by (unfold Q2R; simpl; lra).
  set (cap := Rmax 8 (IZR ms * Reproject.FFX_DNSR_REFLECTIONS_SAMPLES_FOR_ROUGHNESS env roughness)).
  set (n := Rmax 1 (Rmin cap _)).
  assert (Hcap : (8 <= cap)%R) by apply Rmax_l.
  assert (Hn : (1 <= n <= cap)%R).
  { split; [apply Rmax_l|]. apply Rmax_lub; [lra | apply Rmin_l]. }
  split; [exact Hn|].
  apply lerp_between.
  assert (0 < / n)%R by (apply Rinv_0_lt_compat; lra).
  assert (/ n <= 1)%R by (rewrite <- Rinv_1; apply Rinv_le_contravar; lra).
  unfold Rdiv. lra.
Qed.

Lemma reproject_accepted_history_stores_witness :
  let env := flat_reproject_env 1 zero3 true 0 0 in
  Reproject.FFX_DNSR_Reflections_IsGlossyReflection env
    (Reproject.FFX_DNSR_Reflections_LoadRoughness env (3, 2)) = true
  /\ fltb (Reproject.disocclusion_factor
             (reproject_picked env (3, 2) (3, 2) (64, 64) (flat_reproject_shared 0)))
          (Reproject.FFX_DNSR_REFLECTIONS_DISOCCLUSION_THRESHOLD env) = false
  /\ exists variance_mix num_samples,
       temporal_stores
         (events (Reproject.FFX_DNSR_Reflections_Reproject env (3, 2) (3, 2) (64, 64)
                    0%R 8) (flat_reproject_shared 0))
       = [EvStoreRadianceReprojected (3, 2)
            (Reproject.reprojection
               (reproject_picked env (3, 2) (3, 2) (64, 64) (flat_reproject_shared 0)));
          EvStoreVariance (3, 2) variance_mix;
          EvStoreNumSamples (3, 2) num_samples]
       /\ (1 <= num_samples)%R.
Proof.
  intros env.
  assert (H1 : Reproject.FFX_DNSR_Reflections_IsGlossyReflection env
                 (Reproject.FFX_DNSR_Reflections_LoadRoughness env (3, 2)) = true)
    by reflexivity.
  assert (H2 : fltb (Reproject.disocclusion_factor
                       (reproject_picked env (3, 2) (3, 2) (64, 64) (flat_reproject_shared 0)))
                    (Reproject.FFX_DNSR_REFLECTIONS_DISOCCLUSION_THRESHOLD env) = false).
  { unfold reproject_picked.
    destruct (PickReprojection_factor env (3, 2) (int2_add (3, 2) (splat 4)) (64, 64)
                (Reproject.FFX_DNSR_Reflections_LoadRoughness env (3, 2))
                (Reproject.FFX_DNSR_Reflections_LoadRayLength env (3, 2))
                (reproject_synced env (3, 2) (3, 2) (64, 64) (flat_reproject_shared 0)))
      as (ld & d0 & q & (hn & hld & Hd0) & _ & Heq).
    rewrite Heq.
    change (Reproject.FFX_DNSR_REFLECTIONS_DISOCCLUSION_THRESHOLD env) with 0%R.
    assert (Hpos : (0 < d0)%R) by (rewrite Hd0; apply disocclusion_factor_pos).
    replace (fltb 0%R d0) with true by (symmetry; apply Rltb_true; exact Hpos).
    apply Rltb_false. lra. }
  split; [exact H1|]. split; [exact H2|].
  destruct (reproject_accepted_history_stores env (3, 2) (3, 2) (64, 64) 0%R 8
              (flat_reproject_shared 0) H1 H2) as (v & n & Hs & Hn & _).
  exists v, n. split; [exact Hs | apply Hn].
Defined.

(** ** The shared-memory indices of the reprojection kernel *)

Lemma Zrange_In lo hi i : In i (Zrange lo hi) -> lo <= i <= hi.
Proof.
  unfold Zrange, Zseq. intros H. apply in_map_iff in H. destruct H as [k [<- Hk]].
  apply in_seq in Hk. lia.
Qed.

Lemma neighborhood_In radius o :
  In o (neighborhood radius) ->
  - radius <= fst o <= radius /\ - radius <= snd o <= radius.
Proof.
  unfold neighborhood. intros H. apply in_flat_map in H. destruct H as [j [Hj H]].
  apply in_map_iff in H. destruct H as [i [<- Hi]].
  apply Zrange_In in Hi, Hj. simpl. lia.
Qed.

Section ReprojectBounds.
Context {F : Type} {FO : FloatOps F}.
Variable env : Reproject.Env F.

Lemma estimate_emits (P : event F -> Prop) gid :
  (forall o, In o (neighborhood (Reproject.FFX_DNSR_REFLECTIONS_LOCAL_NEIGHBORHOOD_RADIUS env)) ->
     P (EvSharedLoad Shared0 (int2_add gid o))) ->
  emits P (Reproject.FFX_DNSR_Reflections_EstimateLocalNeighborhoodInGroup env gid).
Proof.
  intros H s. unfold events. rewrite Estimate_run. cbn [snd].
  apply Forall_forall. intros e He. apply in_map_iff in He.
  destruct He as [o [<- Ho]]. apply H, Ho.
Qed.

Lemma downsample_step_in_tile gid i :
  in_group gid -> In i [2; 4; 8] ->
  emits (shared_within in_tile) (Reproject.Reproject_downsample_step env gid i).
Proof.
  intros [Hx Hy] Hi. destruct gid as [gx gy]. cbn [fst snd] in Hx, Hy.
  unfold Reproject.Reproject_downsample_step. cbv zeta. cbn [fst snd].
  assert (Hox : imul gx i = gx * i)
    by (apply wrap32_small; simpl in Hi; destruct Hi as [<-|[<-|[<-|[]]]]; lia).
  assert (Hoy : imul gy i = gy * i)
    by (apply wrap32_small; simpl in Hi; destruct Hi as [<-|[<-|[<-|[]]]]; lia).
  assert (Hh : idiv i 2 = Z.quot i 2 /\ 1 <= Z.quot i 2 <= 4 /\ 2 <= i <= 8).
  { simpl in Hi. destruct Hi as [<-|[<-|[<-|[]]]]; repeat split; try reflexivity; cbn; lia. }
  destruct Hh as (Hh & Hq & Hi').
  rewrite Hox, Hoy, Hh.
  assert (Hix : iadd (gx * i) (Z.quot i 2) = gx * i + Z.quot i 2)
    by (apply wrap32_small; nia).
  assert (Hiy : iadd (gy * i) (Z.quot i 2) = gy * i + Z.quot i 2)
    by (apply wrap32_small; nia).
  rewrite Hix, Hiy.
  apply emits_bind; [| intros _; apply emits_barrier; intros idx Hidx; discriminate].
  destruct ((gx * i + Z.quot i 2 <? 8) && (gy * i + Z.quot i 2 <? 8)) eqn:E;
    [| apply emits_ret].
  apply andb_true_iff in E. destruct E as [Ex Ey].
  apply Z.ltb_lt in Ex, Ey.
  assert (Hin : forall a b, (a = gx * i \/ a = gx * i + Z.quot i 2) ->
                            (b = gy * i \/ b = gy * i + Z.quot i 2) ->
                            in_tile (a, b)).
  { intros a b Ha Hb. unfold in_tile. cbn [fst snd]. nia. }
  unfold Reproject.FFX_DNSR_Reflections_LoadFromGroupSharedMemoryRaw.
  repeat first
    [ apply reproject_store_emits; intros t
    | emits_step ];
    intros idx Hidx; inversion Hidx; subst; apply Hin; auto.
Qed.
End ReprojectBounds.

Lemma Zrange_In_iff lo hi i : In i (Zrange lo hi) <-> lo <= i <= hi.
Proof.
  split; [apply Zrange_In|]. intros H. unfold Zrange, Zseq. apply in_map_iff.
  exists (Z.to_nat (i - lo)). split; [lia|]. apply in_seq. lia.
Qed.

Lemma neighborhood_In_iff radius o :
  In o (neighborhood radius)
  <-> - radius <= fst o <= radius /\ - radius <= snd o <= radius.
Proof.
  split; [apply neighborhood_In|]. destruct o as [i j]. cbn [fst snd]. intros [Hi Hj].
  unfold neighborhood. apply in_flat_map. exists j. split; [apply Zrange_In_iff, Hj|].
  apply in_map_iff. exists i. split; [reflexivity | apply Zrange_In_iff, Hi].
Qed.

Lemma int2_sub_small (a b : int2) :
  - 2 ^ 30 <= fst a < 2 ^ 30 -> - 2 ^ 30 <= snd a < 2 ^ 30 ->
  - 2 ^ 30 <= fst b < 2 ^ 30 -> - 2 ^ 30 <= snd b < 2 ^ 30 ->
  int2_sub a b = (fst a - fst b, snd a - snd b).
Proof.
  intros. unfold int2_sub, isub. rewrite !wrap32_small by lia. reflexivity.
Qed.

(** The thread's own index comes back after the centering is undone. *)
Lemma uncentered gid : in_group gid -> int2_sub (int2_add gid (splat 4)) (splat 4) = gid.
Proof.
  intros [Hx Hy]. destruct gid as [gx gy]. cbn [fst snd] in *.
  unfold splat. rewrite int2_add_small by (cbn [fst snd]; lia). cbn [fst snd].
  rewrite int2_sub_small by (cbn [fst snd]; lia). cbn [fst snd]. f_equal; lia.
Qed.

Ltac reproject_bounds_step :=
  lazymatch goal with
  | |- emits _ (Reproject.FFX_DNSR_Reflections_EstimateLocalNeighborhoodInGroup _ _) =>
      apply estimate_emits; intros ? ?
  | |- emits _ (Reproject.Reproject_downsample_step _ _ _) =>
      apply downsample_step_in_tile
  | |- emits _ (Reproject.FFX_DNSR_Reflections_StoreInGroupSharedMemory _ _ _) =>
      apply reproject_store_emits; intros ?
  | _ => kernel_step
  end.

(** X11: every shared-memory access of
    [FFX_DNSR_Reflections_Reproject] by a thread of the 8x8 group is inside
    the 16x16 tiles when FFX_DNSR_REFLECTIONS_LOCAL_NEIGHBORHOOD_RADIUS is
    at most 4; and 4 is the largest radius for which the loads of
    [FFX_DNSR_Reflections_EstimateLocalNeighborhoodInGroup] stay inside the
    tiles for every thread of the group. *)
Theorem reproject_shared_accesses_in_bounds :
  forall (F : Type) (FO : FloatOps F) (env : Reproject.Env F),
    let radius := Reproject.FFX_DNSR_REFLECTIONS_LOCAL_NEIGHBORHOOD_RADIUS env in
    (radius <= 4 ->
     forall (dispatch_thread_id group_thread_id screen_size : int2)
            (temporal_stability_factor : F) (max_samples : Z),
       in_group group_thread_id ->
       emits (shared_within in_tile)
         (Reproject.FFX_DNSR_Reflections_Reproject env dispatch_thread_id group_thread_id
            screen_size temporal_stability_factor max_samples))
    /\ ((forall group_thread_id,
           in_group group_thread_id ->
           emits (shared_within in_tile)
             (Reproject.FFX_DNSR_Reflections_EstimateLocalNeighborhoodInGroup env
                (int2_add group_thread_id (splat 4))))
        <-> radius <= 4).
Proof.
  intros F FO env radius.
  assert (Hest : radius <= 4 -> forall gid o,
             in_group gid -> In o (neighborhood radius) ->
             in_tile (int2_add (int2_add gid (splat 4)) o)).
  { clearbody radius. intros Hr [gx gy] [i j] [Hx Hy] Ho. apply neighborhood_In in Ho.
    cbn [fst snd] in Hx, Hy, Ho.
    unfold splat. rewrite (int2_add_small (gx, gy)) by (cbn [fst snd]; lia). cbn [fst snd].
    rewrite int2_add_small by (cbn [fst snd]; lia). unfold in_tile. cbn [fst snd]. lia. }
  split; [| split].
  - intros Hr dtid gid ss tsf ms Hg.
    unfold Reproject.FFX_DNSR_Reflections_Reproject, Reproject.Reproject_glossy,
      Reproject.FFX_DNSR_Reflections_PickReprojection, Reproject.Pick_candidate,
      Reproject.Reproject_downsample.
    rewrite (uncentered gid Hg).
    repeat reproject_bounds_step;
      try exact Hg; try assumption;
      intros idx Hidx; try discriminate Hidx; inversion Hidx; subst; clear Hidx.
    all: try (apply Hest; assumption).
    all: try (unfold in_tile; cbn; lia).
    all: try (destruct Hg as [Hx Hy]; unfold in_tile; lia).
    all: match goal with
         | H : In _ block_offset |- _ =>
             destruct gid as [gx gy]; destruct Hg as [Hx Hy]; cbn [fst snd] in Hx, Hy;
             simpl in H; destruct H as [<-|[<-|[<-|[<-|[]]]]];
             rewrite int2_add_small by (cbn [fst snd]; lia); unfold in_tile; cbn [fst snd]; lia
         end.
  - intros H. destruct (Z_le_gt_dec radius 4) as [Hr | Hr]; [exact Hr | exfalso].
    assert (Hg : in_group (0, 0)) by (unfold in_group; cbn; lia).
    specialize (H (0, 0) Hg (Reproject.mk_shared (fun _ _ => splat4 f0) (fun _ _ => f0))).
    unfold events in H. rewrite Estimate_run in H. cbn [snd] in H.
    rewrite Forall_forall in H.
    assert (Hin : In (-5, 0) (neighborhood radius))
      by (apply neighborhood_In_iff; cbn [fst snd]; fold radius; lia).
    specialize (H _ (in_map _ _ _ Hin) _ eq_refl).
    unfold in_tile in H. cbn in H. lia.
  - intros Hr gid Hg. apply estimate_emits. intros o Ho idx Hidx.
    inversion Hidx; subst. apply Hest; assumption.
Qed.

Lemma reproject_shared_accesses_in_bounds_witness :
  Reproject.FFX_DNSR_REFLECTIONS_LOCAL_NEIGHBORHOOD_RADIUS disoccluded_env <= 4
  /\ in_group (7, 0)
  /\ emits (shared_within in_tile)
       (Reproject.FFX_DNSR_Reflections_Reproject disoccluded_env (15, 8) (7, 0) (64, 64)
          0%R 8).
Proof.
  assert (Hr : Reproject.FFX_DNSR_REFLECTIONS_LOCAL_NEIGHBORHOOD_RADIUS disoccluded_env <= 4)
    by (cbn; lia).
  assert (Hg : in_group (7, 0)) by (unfold in_group; cbn; lia).
  split; [exact Hr|]. split; [exact Hg|].
  exact (proj1 (reproject_shared_accesses_in_bounds R R_FloatOps disoccluded_env) Hr
           (15, 8) (7, 0) (64, 64) 0%R 8 Hg).
Defined.

(** ** The estimate of a uniform neighborhood *)

Lemma fold_scaled_constant {X} (f : X -> float4 R) (w : X -> R) (c : float4 R) (l : list X) :
  (forall o, In o l -> f o = c) ->
  forall (a0 : float4 R) (w0 : R),
    let total := fold_left (fun a o => fadd a (w o)) l w0 in
    fold_left (fun a o => add4 a (scale4 (f o) (w o))) l a0
    = mk4 (x4 a0 + x4 c * (total - w0))%R (y4 a0 + y4 c * (total - w0))%R
          (z4 a0 + z4 c * (total - w0))%R (w4 a0 + w4 c * (total - w0))%R.
Proof.
  induction l as [|o l IH]; intros Hf a0 w0; cbn [fold_left].
  - destruct a0 as [x y z t]. cbn [x4 y4 z4 w4]. f_equal; ring.
  - cbv zeta.
    rewrite (IH (fun o' Ho' => Hf o' (or_intror Ho')) _ (fadd w0 (w o))).
    cbv zeta. rewrite (Hf o) by (left; reflexivity).
    unfold add4, scale4, map2_4. cbn [x4 y4 z4 w4 fadd fmul R_FloatOps].
    f_equal; ring.
Qed.

(** X12: over the reals, when the accumulated kernel weight is not zero
    and the radiance tile holds the same value [c] at every index of the
    (2 radius + 1)^2 neighborhood,
    [FFX_DNSR_Reflections_EstimateLocalNeighborhoodInGroup] returns the
    mean [c] and the variance zero. *)
Theorem estimate_of_uniform_neighborhood :
  forall (env : Reproject.Env R) (group_thread_id : int2) (s : Reproject.shared R)
         (c : float4 R),
    accumulated_kernel_weight env <> 0%R ->
    (forall o,
       In o (neighborhood (Reproject.FFX_DNSR_REFLECTIONS_LOCAL_NEIGHBORHOOD_RADIUS env)) ->
       tget (Reproject.g_ffx_dnsr_shared_0 s) (int2_add group_thread_id o) = c) ->
    let estimate :=
      value (Reproject.FFX_DNSR_Reflections_EstimateLocalNeighborhoodInGroup env
               group_thread_id) s in
    Reproject.mean estimate = c
    /\ Reproject.variance estimate = mk4 0%R 0%R 0%R 0%R.
Proof.
  intros env gid s c HW Hc estimate.
  unfold estimate, value. rewrite Estimate_run. cbn [fst Reproject.mean Reproject.variance].
  assert (Hmean : weighted_mean env s gid = c).
  { unfold weighted_mean, sum4.
    rewrite (fold_scaled_constant (radiance_at s gid) (kernel_weight env) c _ Hc
               (splat4 f0) f0).
    cbv zeta. fold (sum1 (kernel_weight env)
                      (neighborhood (Reproject.FFX_DNSR_REFLECTIONS_LOCAL_NEIGHBORHOOD_RADIUS env))).
    fold (accumulated_kernel_weight env).
    unfold sdiv4, splat4, f0. cbn [x4 y4 z4 w4 fdiv flit R_FloatOps]. rewrite Q2R_lit_0.
    destruct c as [x y z t]. cbn [x4 y4 z4 w4]. f_equal; field; exact HW. }
  assert (Hsecond : weighted_second_moment env s gid = mul4 c c).
  { unfold weighted_second_moment, sum4.
    rewrite (fold_scaled_constant (fun o => mul4 (radiance_at s gid o) (radiance_at s gid o))
               (kernel_weight env) (mul4 c c) _
               (fun o Ho => f_equal (fun r => mul4 r r) (Hc o Ho))
               (splat4 f0) f0).
    cbv zeta. fold (sum1 (kernel_weight env)
                      (neighborhood (Reproject.FFX_DNSR_REFLECTIONS_LOCAL_NEIGHBORHOOD_RADIUS env))).
    fold (accumulated_kernel_weight env).
    unfold sdiv4, splat4, f0, mul4, map2_4.
    cbn [x4 y4 z4 w4 fdiv fmul flit R_FloatOps]. rewrite Q2R_lit_0.
    f_equal; field; exact HW. }
  split; [exact Hmean|].
  unfold weighted_variance. rewrite Hsecond, Hmean.
  unfold abs4, sub4, mul4, map2_4. cbn [x4 y4 z4 w4 fabs fsub fmul R_FloatOps].
  rewrite !Rminus_diag. rewrite Rabs_R0. reflexivity.
Qed.

Lemma estimate_of_uniform_neighborhood_witness :
  Reproject.mean
    (value (Reproject.FFX_DNSR_Reflections_EstimateLocalNeighborhoodInGroup disoccluded_env
              (7, 6)) (flat_reproject_shared 3))
  = (mk4 3 3 3 3)%R.
Proof.
  apply (estimate_of_uniform_neighborhood disoccluded_env (7, 6) (flat_reproject_shared 3)
           (mk4 3 3 3 3)%R).
  - unfold accumulated_kernel_weight, sum1, kernel_weight, f0.
    cbn [Reproject.FFX_DNSR_REFLECTIONS_LOCAL_NEIGHBORHOOD_RADIUS
         Reproject.FFX_DNSR_Reflections_LocalNeighborhoodKernelWeight
         disoccluded_env flat_reproject_env fmul fadd flit R_FloatOps].
    rewrite Q2R_lit_0.
    assert (H : forall (l : list int2) a, (0 < a)%R ->
                  (0 < fold_left (fun acc _ => acc + 1 * 1) l a)%R).
    { induction l as [|o l IH]; intros a Ha; cbn [fold_left]; [exact Ha|].
      apply IH. lra. }
    intros Heq.
    assert (Hl : neighborhood 4 = (-4, -4) :: tl (neighborhood 4)) by reflexivity.
    rewrite Hl in Heq. cbn [fold_left] in Heq.
    pose proof (H (tl (neighborhood 4)) (0 + 1 * 1)%R ltac:(lra)). lra.
  - intros o _. reflexivity.
Defined.

(** ** The downsampling of a group *)

Lemma group_threads_NoDup : NoDup group_threads.
Proof. apply nodupb_sound. vm_compute. reflexivity. Qed.

Lemma group_threads_spec gid : In gid group_threads <-> in_group gid.
Proof.
  unfold group_threads, in_group. rewrite in_flat_map. split.
  - intros [y [Hy Hx]]. apply in_map_iff in Hx. destruct Hx as [x [<- Hx]].
    unfold Zseq in *. apply in_map_iff in Hx, Hy.
    destruct Hx as [kx [<- Hkx]]. destruct Hy as [ky [<- Hky]].
    apply in_seq in Hkx, Hky. cbn [fst snd]. lia.
  - destruct gid as [x y]. cbn [fst snd]. intros [Hx Hy]. exists y. split.
    + unfold Zseq. apply in_map_iff. exists (Z.to_nat y). split; [lia|]. apply in_seq. lia.
    + apply in_map_iff. exists x. split; [reflexivity|].
      unfold Zseq. apply in_map_iff. exists (Z.to_nat x). split; [lia|]. apply in_seq. lia.
Qed.

Lemma downsample_disjoint i g g' :
  In i [2; 4; 8] -> In g group_threads -> In g' group_threads -> g <> g' ->
  downsample_active i g = true -> downsample_active i g' = true ->
  ~ In (downsample_corner i g) (downsample_reads i g').
Proof.
  intros Hi Hg Hg' Hne Ha Ha' Hin.
  assert (Hd : downsample_disjointb i = true)
    by (simpl in Hi; destruct Hi as [<-|[<-|[<-|[]]]]; vm_compute; reflexivity).
  unfold downsample_disjointb in Hd. rewrite forallb_forall in Hd.
  specialize (Hd g Hg). rewrite forallb_forall in Hd. specialize (Hd g' Hg').
  rewrite Ha, Ha' in Hd. cbn [negb orb] in Hd.
  rewrite !orb_false_r in Hd.
  apply orb_true_iff in Hd. destruct Hd as [Hd | Hd].
  - apply int2_eqb_eq in Hd. contradiction.
  - apply negb_true_iff in Hd.
    apply existsb_int2_eqb in Hin. rewrite Hin in Hd. discriminate.
Qed.

Section GroupDownsampleRun.
Context {F : Type} {FO : FloatOps F}.
Variable env : Reproject.Env F.
Hypothesis others_idle : forall n s, Reproject.other_threads env n s = s.
Implicit Types s : Reproject.shared F.

(** What one thread makes of the shared memory in one round. *)
Lemma downsample_step_final i gid s :
  In i [2; 4; 8] -> in_group gid ->
  final (Reproject.Reproject_downsample_step env gid i) s
  = if downsample_active i gid
    then reproject_put s (downsample_corner i gid)
           (quad_sum (reproject_cell s) (downsample_corner i gid) (Z.quot i 2))
    else s.
Proof.
  intros Hi [Hx Hy]. destruct gid as [gx gy]. cbn [fst snd] in Hx, Hy.
  unfold Reproject.Reproject_downsample_step, downsample_active, downsample_corner.
  cbv zeta. cbn [fst snd].
  assert (Hox : imul gx i = gx * i)
    by (apply wrap32_small; simpl in Hi; destruct Hi as [<-|[<-|[<-|[]]]]; lia).
  assert (Hoy : imul gy i = gy * i)
    by (apply wrap32_small; simpl in Hi; destruct Hi as [<-|[<-|[<-|[]]]]; lia).
  assert (Hh : idiv i 2 = Z.quot i 2 /\ 1 <= Z.quot i 2 <= 4 /\ 2 <= i <= 8).
  { simpl in Hi. destruct Hi as [<-|[<-|[<-|[]]]]; repeat split; try reflexivity; cbn; lia. }
  destruct Hh as (Hh & Hq & Hi').
  rewrite Hox, Hoy, Hh.
  assert (Hix : iadd (gx * i) (Z.quot i 2) = gx * i + Z.quot i 2)
    by (apply wrap32_small; nia).
  assert (Hiy : iadd (gy * i) (Z.quot i 2) = gy * i + Z.quot i 2)
    by (apply wrap32_small; nia).
  rewrite Hix, Hiy.
  rewrite final_bind, final_barrier, others_idle.
  destruct ((gx * i + Z.quot i 2 <? 8) && (gy * i + Z.quot i 2 <? 8)); reflexivity.
Qed.

Lemma downsample_round_result i order (s0 : Reproject.shared F) :
  In i [2; 4; 8] -> NoDup order -> (forall g, In g order -> In g group_threads) ->
  forall s,
    (forall g, In g order -> downsample_active i g = true ->
       forall idx, In idx (downsample_reads i g) -> reproject_cell s idx = reproject_cell s0 idx) ->
    let sf := final (group_downsample_round env i order) s in
    (forall g, In g order -> downsample_active i g = true ->
       reproject_cell sf (downsample_corner i g)
       = quad_sum (reproject_cell s0) (downsample_corner i g) (Z.quot i 2))
    /\ (forall idx,
          (forall g, In g order -> downsample_active i g = true ->
             downsample_corner i g <> idx) ->
          reproject_cell sf idx = reproject_cell s idx).
Proof.
  intros Hi. unfold group_downsample_round.
  induction order as [|g order IH]; intros Hnd Hgroup s Hreads; cbn [for_each].
  - split; [intros g [] | intros idx _; reflexivity].
  - inversion Hnd as [|? ? Hnotin Hnd']; subst.
    assert (Hg : In g group_threads) by (apply Hgroup; left; reflexivity).
    rewrite final_bind.
    destruct (value (Reproject.Reproject_downsample_step env g i) s).
    rewrite downsample_step_final by (try exact Hi; apply group_threads_spec, Hg).
    destruct (downsample_active i g) eqn:Ea.
    + (* the thread stores the sum of its block *)
      assert (Hq : quad_sum (reproject_cell s) (downsample_corner i g) (Z.quot i 2)
                   = quad_sum (reproject_cell s0) (downsample_corner i g) (Z.quot i 2)).
      { unfold quad_sum.
        rewrite !(Hreads g (or_introl eq_refl) Ea)
          by (unfold downsample_reads; cbv zeta; cbn [In]; auto).
        reflexivity. }
      rewrite Hq.
      set (s1 := reproject_put s (downsample_corner i g)
                   (quad_sum (reproject_cell s0) (downsample_corner i g) (Z.quot i 2))).
      assert (Hne : forall g', In g' order -> g <> g').
      { intros g' Hg' ->. contradiction. }
      destruct (IH Hnd' (fun g' Hg' => Hgroup g' (or_intror Hg')) s1) as [IH1 IH2].
      { intros g' Hg' Ea' idx Hidx. unfold s1.
        rewrite reproject_cell_put_other.
        - apply (Hreads g' (or_intror Hg') Ea' idx Hidx).
        - intros ->.
          apply (downsample_disjoint i g g' Hi Hg (Hgroup g' (or_intror Hg'))
                   (Hne g' Hg') Ea Ea' Hidx). }
      split.
      * intros g' [<- | Hg'] Ea'.
        -- rewrite IH2.
           ++ unfold s1. apply reproject_cell_put_same.
           ++ intros g' Hg' Ea'' Heq.
              apply (downsample_disjoint i g' g Hi (Hgroup g' (or_intror Hg')) Hg
                       (fun e => Hne g' Hg' (eq_sym e)) Ea'' Ea).
              rewrite Heq. unfold downsample_reads. cbv zeta. left. reflexivity.
        -- apply IH1; assumption.
      * intros idx Hidx. rewrite IH2.
        -- unfold s1. apply reproject_cell_put_other.
           intros ->. apply (Hidx g (or_introl eq_refl) Ea). reflexivity.
        -- intros g' Hg'. apply Hidx. right. exact Hg'.
    + (* the thread only waits at the barrier *)
      destruct (IH Hnd' (fun g' Hg' => Hgroup g' (or_intror Hg')) s) as [IH1 IH2].
      { intros g' Hg'. apply Hreads. right. exact Hg'. }
      split.
      * intros g' [<- | Hg'] Ea'; [congruence | apply IH1; assumption].
      * intros idx Hidx. apply IH2. intros g' Hg'. apply Hidx. right. exact Hg'.
Qed.

(** A round in any order of the group: every active thread's corner holds
    the sum of its block as the round found it. *)
Lemma downsample_round_group i order s :
  In i [2; 4; 8] -> Permutation order group_threads ->
  forall g, in_group g -> downsample_active i g = true ->
    reproject_cell (final (group_downsample_round env i order) s) (downsample_corner i g)
    = quad_sum (reproject_cell s) (downsample_corner i g) (Z.quot i 2).
Proof.
  intros Hi Hperm g Hg Ea.
  assert (Hnd : NoDup order)
    by (apply (Permutation_NoDup (Permutation_sym Hperm)), group_threads_NoDup).
  assert (Hgroup : forall g', In g' order -> In g' group_threads)
    by (intros g'; apply Permutation_in, Hperm).
  destruct (downsample_round_result i order s Hi Hnd Hgroup s (fun _ _ _ _ _ => eq_refl))
    as [H _].
  apply H; [| exact Ea].
  apply (Permutation_in _ (Permutation_sym Hperm)), group_threads_spec, Hg.
Qed.
End GroupDownsampleRun.

(** Rewrites with what the round [i] left at the corner of thread [g]. *)
Ltac round_at H i g :=
  let E := fresh "E" in
  pose proof (H g ltac:(unfold in_group; cbn [fst snd]; lia) ltac:(reflexivity)) as E;
  let c := eval vm_compute in (downsample_corner i g) in
  change (downsample_corner i g) with c in E;
  let h := eval vm_compute in (Z.quot i 2) in
  change (Z.quot i 2) with h in E;
  unfold quad_sum in E;
  cbn [fst snd Z.add Pos.add Pos.succ Pos.add_carry] in E;
  rewrite E; clear E.

Lemma group_downsample_cell {F} {FO : FloatOps F} (env : Reproject.Env F)
    order2 order4 order8 (s : Reproject.shared F) :
  (forall n s', Reproject.other_threads env n s' = s') ->
  Permutation order2 group_threads -> Permutation order4 group_threads ->
  Permutation order8 group_threads ->
  reproject_cell (final (group_downsample env order2 order4 order8) s) (0, 0)
  = block_sum (reproject_cell s) (0, 0) 3.
Proof.
  intros Hidle H2 H4 H8. unfold group_downsample. rewrite !final_bind.
  set (s1 := final (group_downsample_round env 2 order2) s).
  set (s2 := final (group_downsample_round env 4 order4) s1).
  pose proof (downsample_round_group env Hidle 2 order2 s
                ltac:(cbn [In]; auto) H2) as R2.
  pose proof (downsample_round_group env Hidle 4 order4 s1
                ltac:(cbn [In]; auto) H4) as R4.
  pose proof (downsample_round_group env Hidle 8 order8 s2
                ltac:(cbn [In]; auto) H8) as R8.
  fold s1 in R2. fold s2 in R4.
  round_at R8 8 (0, 0).
  round_at R4 4 (0, 0). round_at R4 4 (1, 0). round_at R4 4 (0, 1). round_at R4 4 (1, 1).
  round_at R2 2 (0, 0). round_at R2 2 (1, 0). round_at R2 2 (2, 0). round_at R2 2 (3, 0).
  round_at R2 2 (0, 1). round_at R2 2 (1, 1). round_at R2 2 (2, 1). round_at R2 2 (3, 1).
  round_at R2 2 (0, 2). round_at R2 2 (1, 2). round_at R2 2 (2, 2). round_at R2 2 (3, 2).
  round_at R2 2 (0, 3). round_at R2 2 (1, 3). round_at R2 2 (2, 3). round_at R2 2 (3, 3).
  reflexivity.
Qed.

(** Over the reals the tree of sums is the sum of the 64 entries. *)
Lemma add4_ext (a b a' b' : float4 R) :
  (x4 a + x4 b = x4 a' + x4 b')%R -> (y4 a + y4 b = y4 a' + y4 b')%R ->
  (z4 a + z4 b = z4 a' + z4 b')%R -> (w4 a + w4 b = w4 a' + w4 b')%R ->
  add4 a b = add4 a' b'.
Proof.
  intros Hx Hy Hz Hw. unfold add4, map2_4. cbn [fadd R_FloatOps]. f_equal; assumption.
Qed.

Lemma x4_add4 (a b : float4 R) : x4 (add4 a b) = (x4 a + x4 b)%R.
Proof. reflexivity. Qed.
Lemma y4_add4 (a b : float4 R) : y4 (add4 a b) = (y4 a + y4 b)%R.
Proof. reflexivity. Qed.
Lemma z4_add4 (a b : float4 R) : z4 (add4 a b) = (z4 a + z4 b)%R.
Proof. reflexivity. Qed.
Lemma w4_add4 (a b : float4 R) : w4 (add4 a b) = (w4 a + w4 b)%R.
Proof. reflexivity. Qed.

Lemma splat4_f0 : splat4 (f0 (F:=R)) = mk4 0%R 0%R 0%R 0%R.
Proof. unfold splat4, f0. cbn [flit R_FloatOps]. rewrite Q2R_lit_0. reflexivity. Qed.

Lemma fst_add_cell (a b : float4 R * R) : fst (add_cell a b) = add4 (fst a) (fst b).
Proof. reflexivity. Qed.
Lemma snd_add_cell (a b : float4 R * R) : snd (add_cell a b) = (snd a + snd b)%R.
Proof. reflexivity. Qed.

Lemma block_sum_total (cellf : int2 -> float4 R * R) :
  block_sum cellf (0, 0) 3
  = (sum4 (fun idx => fst (cellf idx)) group_threads,
     sum1 (fun idx => snd (cellf idx)) group_threads).
Proof.
  unfold sum4, sum1, group_threads, Zseq.
  cbn [block_sum flat_map map seq app fold_left
       Z.of_nat Pos.of_succ_nat Z.pow Z.pow_pos Pos.iter Z.mul Pos.mul
       Z.add Pos.add Pos.succ Pos.add_carry].
  unfold quad_sum.
  cbn [fst snd Z.add Pos.add Pos.succ Pos.add_carry].
  rewrite splat4_f0.
  apply injective_projections.
  - rewrite !fst_add_cell. cbn [fst]. apply add4_ext.
    + rewrite !x4_add4. cbn [x4]. ring.
    + rewrite !y4_add4. cbn [y4]. ring.
    + rewrite !z4_add4. cbn [z4]. ring.
    + rewrite !w4_add4. cbn [w4]. ring.
  - rewrite !snd_add_cell. cbn [snd]. unfold f0. cbn [fadd flit R_FloatOps].
    rewrite Q2R_lit_0. ring.
Qed.

(** X13: the three rounds of the downsampling loop of
    [FFX_DNSR_Reflections_Reproject] (lines 352-367, i = 2, 4, 8), run by
    the 64 threads of a group in any order within each round, leave at
    entry [0][0] of the two tiles the sum of the 8x8 block of entries that
    the threads stored before the loop: no active thread of a round stores
    to an entry that another thread of the round loads, and the sum is
    built as a tree, 2x2 blocks first.  Over the reals it is the sum of
    the 64 radiances and of the 64 weights. *)
Theorem group_downsample_sums_the_block :
  forall (F : Type) (FO : FloatOps F) (env : Reproject.Env F) (renv : Reproject.Env R)
         (order2 order4 order8 : list int2),
    Permutation order2 group_threads ->
    Permutation order4 group_threads ->
    Permutation order8 group_threads ->
    (forall n s, Reproject.other_threads env n s = s) ->
    (forall n s, Reproject.other_threads renv n s = s) ->
    (forall i g g',
       In i [2; 4; 8] -> in_group g -> in_group g' -> g <> g' ->
       downsample_active i g = true -> downsample_active i g' = true ->
       ~ In (downsample_corner i g) (downsample_reads i g'))
    /\ (forall s,
          reproject_cell (final (group_downsample env order2 order4 order8) s) (0, 0)
          = block_sum (reproject_cell s) (0, 0) 3)
    /\ (forall s,
          let sf := final (group_downsample renv order2 order4 order8) s in
          tget (Reproject.g_ffx_dnsr_shared_0 sf) (0, 0)
          = sum4 (fun idx => tget (Reproject.g_ffx_dnsr_shared_0 s) idx) group_threads
          /\ tget (Reproject.g_ffx_dnsr_shared_1 sf) (0, 0)
             = sum1 (fun idx => tget (Reproject.g_ffx_dnsr_shared_1 s) idx) group_threads).
Proof.
  intros F FO env renv order2 order4 order8 H2 H4 H8 Hidle Hridle.
  split; [| split].
  - intros i g g' Hi Hg Hg'. apply downsample_disjoint; try assumption;
      apply group_threads_spec; assumption.
  - intros s. apply group_downsample_cell; assumption.
  - intros s sf.
    pose proof (group_downsample_cell renv order2 order4 order8 s Hridle H2 H4 H8) as H.
    fold sf in H. rewrite block_sum_total in H. unfold reproject_cell in H.
    cbn [fst snd] in H. inversion H as [[H0 H1]]. split; reflexivity.
Qed.

Lemma group_downsample_sums_the_block_witness :
  Permutation group_threads group_threads
  /\ Permutation (rev group_threads) group_threads
  /\ (forall n s, Reproject.other_threads disoccluded_env n s = s)
  /\ tget (Reproject.g_ffx_dnsr_shared_1
             (final (group_downsample disoccluded_env group_threads (rev group_threads)
                       group_threads) (flat_reproject_shared 1))) (0, 0)
     = sum1 (fun idx => tget (Reproject.g_ffx_dnsr_shared_1 (flat_reproject_shared 1)) idx)
         group_threads.
Proof.
  assert (H1 : Permutation group_threads group_threads) by apply Permutation_refl.
  assert (H2 : Permutation (rev group_threads) group_threads)
    by (apply Permutation_sym, Permutation_rev).
  assert (H3 : forall n s, Reproject.other_threads disoccluded_env n s = s)
    by (intros; reflexivity).
  split; [exact H1|]. split; [exact H2|]. split; [exact H3|].
  exact (proj2 (proj2 (proj2 (group_downsample_sums_the_block R R_FloatOps disoccluded_env
                                disoccluded_env group_threads (rev group_threads)
                                group_threads H1 H2 H1 H3 H3))
                 (flat_reproject_shared 1))).
Defined.

(** ** The store of the average radiance *)

(** A goal on the trace from one shared memory, taken for all of them. *)
Ltac as_emits :=
  match goal with
  | |- Forall ?P (events ?m ?st) => generalize st; change (emits P m)
  end.

Section AverageStore.
Context {F : Type} {FO : FloatOps F}.
Variable env : Reproject.Env F.

Lemma downsample_step_ends_with_barrier gid i s :
  exists body,
    Forall (fun e => is_average_store e = false) body
    /\ events (Reproject.Reproject_downsample_step env gid i) s = body ++ [EvBarrier].
Proof.
  unfold Reproject.Reproject_downsample_step. cbv zeta.
  rewrite events_bind, events_barrier.
  eexists. split; [| reflexivity].
  match goal with
  | |- Forall ?P (events ?m s) => generalize s; change (emits P m)
  end.
  repeat kernel_step; reflexivity.
Qed.

(** The downsampling ends, for thread (0, 0) alone, with the loads of
    entry [0][0] and the store of their average; the shared memory that
    the loads find is the one the downsampling ends with. *)
Lemma downsample_run_end dtid gid ss radiance s :
  let run := Reproject.Reproject_downsample env dtid gid ss radiance in
  exists pre,
    Forall (fun e => is_average_store e = false) pre
    /\ events run s
       = pre ++ EvBarrier
            :: (if int2_eqb (int2_sub gid (splat 4)) (0, 0)
                then [EvSharedLoad Shared0 (0, 0); EvSharedLoad Shared1 (0, 0);
                      EvStoreAverageRadiance (int2_div dtid 8)
                        (downsample_average (final run s))]
                else []).
Proof.
  intros run. unfold run, Reproject.Reproject_downsample. cbv zeta.
  set (own := int2_sub gid (splat 4)).
  set (store := Reproject.FFX_DNSR_Reflections_StoreInGroupSharedMemory own _ _).
  cbn [for_each].
  rewrite !final_bind, !events_bind, final_ret, events_ret, events_barrier, final_barrier.
  set (s1 := Reproject.other_threads env 1 (final store s)).
  set (s2 := final (Reproject.Reproject_downsample_step env own 2) s1).
  set (s3 := final (Reproject.Reproject_downsample_step env own 4) s2).
  set (s4 := final (Reproject.Reproject_downsample_step env own 8) s3).
  destruct (downsample_step_ends_with_barrier own 8 s3) as (body8 & Hbody8 & Hev8).
  rewrite Hev8.
  exists (events store s ++ [EvBarrier]
          ++ events (Reproject.Reproject_downsample_step env own 2) s1
          ++ events (Reproject.Reproject_downsample_step env own 4) s2
          ++ body8).
  split.
  - repeat (apply Forall_app; split);
      first
        [ exact Hbody8
        | solve [repeat constructor]
        | subst store;
          match goal with
          | |- Forall ?P (events ?m ?st) => generalize st; change (emits P m)
          end;
          repeat first [apply reproject_store_emits; intros ? | kernel_step]; reflexivity ].
  - destruct (int2_eqb own (0, 0)).
    + unfold Reproject.FFX_DNSR_Reflections_LoadFromGroupSharedMemoryRaw.
      autorewrite with run. rewrite <- !app_assoc. cbn [app]. reflexivity.
    + autorewrite with run. rewrite <- !app_assoc. cbn [app]. reflexivity.
Qed.

Lemma Reproject_final dtid gid ss tsf ms s :
  let roughness := Reproject.FFX_DNSR_Reflections_LoadRoughness env dtid in
  let temporal :=
    if Reproject.FFX_DNSR_Reflections_IsGlossyReflection env roughness
    then Reproject.Reproject_glossy env dtid (int2_add gid (splat 4)) ss ms roughness
           (Reproject.FFX_DNSR_Reflections_LoadRayLength env dtid)
           (Reproject.FFX_DNSR_Reflections_LoadRadiance env dtid)
    else ret (Reproject.FFX_DNSR_Reflections_LoadRadiance env dtid) in
  final (Reproject.FFX_DNSR_Reflections_Reproject env dtid gid ss tsf ms) s
  = final (Reproject.Reproject_downsample env dtid (int2_add gid (splat 4)) ss
             (value temporal (reproject_synced env dtid gid ss s)))
          (final temporal (reproject_synced env dtid gid ss s)).
Proof.
  intros roughness temporal.
  unfold Reproject.FFX_DNSR_Reflections_Reproject, Reproject.GetContactHardenedRadiance.
  cbv zeta. autorewrite with run.
  unfold reproject_synced. subst temporal roughness. reflexivity.
Qed.

(** The same for the whole kernel. *)
Lemma Reproject_run_end dtid gid ss tsf ms s :
  let run := Reproject.FFX_DNSR_Reflections_Reproject env dtid gid ss tsf ms in
  exists pre,
    Forall (fun e => is_average_store e = false) pre
    /\ events run s
       = pre ++ EvBarrier
            :: (if int2_eqb (int2_sub (int2_add gid (splat 4)) (splat 4)) (0, 0)
                then [EvSharedLoad Shared0 (0, 0); EvSharedLoad Shared1 (0, 0);
                      EvStoreAverageRadiance (int2_div dtid 8)
                        (downsample_average (final run s))]
                else []).
Proof.
  intros run. unfold run. rewrite Reproject_events, Reproject_final. cbv zeta.
  set (temporal := if Reproject.FFX_DNSR_Reflections_IsGlossyReflection env _
                   then _ else _).
  destruct (downsample_run_end dtid (int2_add gid (splat 4)) ss
              (value temporal (reproject_synced env dtid gid ss s))
              (final temporal (reproject_synced env dtid gid ss s)))
    as (pre & Hpre & Hev).
  cbv zeta in Hev. rewrite Hev.
  exists (events (Reproject.FFX_DNSR_Reflections_InitializeGroupSharedMemory env dtid gid
                    (wrap32 (fst ss), wrap32 (snd ss))) s
          ++ EvBarrier
             :: [EvLoad Roughness dtid; EvLoad WorldSpaceNormal dtid; EvLoad Radiance dtid;
                 EvLoad RayLength dtid; EvLoad RayLength dtid]
             ++ events temporal (reproject_synced env dtid gid ss s) ++ pre).
  split.
  - apply Forall_app. split; [as_emits; apply reproject_initialize_emits; reflexivity|].
    constructor; [reflexivity|].
    apply Forall_app. split; [repeat constructor|].
    apply Forall_app. split; [| exact Hpre].
    as_emits. unfold temporal.
    destruct (Reproject.FFX_DNSR_Reflections_IsGlossyReflection env _);
      [| apply emits_ret].
    unfold Reproject.Reproject_glossy. repeat kernel_step; reflexivity.
  - rewrite <- !app_assoc. cbn [app]. rewrite <- !app_assoc. reflexivity.
Qed.
End AverageStore.

Lemma filter_none {F} (f : event F -> bool) (l : list (event F)) :
  Forall (fun e => f e = false) l -> filter f l = [].
Proof.
  induction 1 as [|e l He _ IH]; cbn [filter]; [reflexivity|]. rewrite He. exact IH.
Qed.

(** X14: of the threads of a group only thread (0, 0) stores an average
    radiance in [FFX_DNSR_Reflections_Reproject], and it stores exactly
    one, for the pixel [dispatch_thread_id / 8] and as its last access:
    after its last barrier it loads entry [0][0] of the two tiles and
    stores the radiance there divided by max(the weight there, 1.0e-3),
    its alpha saturated; the entries are those of the shared memory that
    the last barrier leaves, which is the shared memory the kernel ends
    with.  Over the reals the stored alpha lies between 0 and 1. *)
Theorem reproject_average_radiance_store :
  forall (F : Type) (FO : FloatOps F) (env : Reproject.Env F) (renv : Reproject.Env R)
         (dispatch_thread_id group_thread_id screen_size : int2) (max_samples : Z),
    in_group group_thread_id ->
    (forall temporal_stability_factor s,
       let run :=
         Reproject.FFX_DNSR_Reflections_Reproject env dispatch_thread_id group_thread_id
           screen_size temporal_stability_factor max_samples in
       let average := downsample_average (final run s) in
       filter is_average_store (events run s)
       = (if int2_eqb group_thread_id (0, 0)
          then [EvStoreAverageRadiance (int2_div dispatch_thread_id 8) average]
          else [])
       /\ (group_thread_id = (0, 0) ->
           exists pre,
             events run s
             = pre ++ [EvBarrier; EvSharedLoad Shared0 (0, 0); EvSharedLoad Shared1 (0, 0);
                       EvStoreAverageRadiance (int2_div dispatch_thread_id 8) average]))
    /\ (forall temporal_stability_factor s p v,
          In (EvStoreAverageRadiance p v)
             (events (Reproject.FFX_DNSR_Reflections_Reproject renv dispatch_thread_id
                        group_thread_id screen_size temporal_stability_factor max_samples) s) ->
          group_thread_id = (0, 0) /\ p = int2_div dispatch_thread_id 8
          /\ v = downsample_average
                   (final (Reproject.FFX_DNSR_Reflections_Reproject renv dispatch_thread_id
                             group_thread_id screen_size temporal_stability_factor
                             max_samples) s)
          /\ (0 <= w4 v <= 1)%R).
Proof.
  intros F FO env renv dtid gid ss ms Hg.
  assert (Hfilter : forall (G : Type) (GO : FloatOps G) (e : Reproject.Env G) tsf s,
             filter is_average_store
               (events (Reproject.FFX_DNSR_Reflections_Reproject e dtid gid ss tsf ms) s)
             = if int2_eqb gid (0, 0)
               then [EvStoreAverageRadiance (int2_div dtid 8)
                       (downsample_average
                          (final (Reproject.FFX_DNSR_Reflections_Reproject e dtid gid ss
                                    tsf ms) s))]
               else []).
  { intros G GO e tsf s.
    destruct (Reproject_run_end e dtid gid ss tsf ms s) as (pre & Hpre & Hev).
    cbv zeta in Hev. rewrite (uncentered gid Hg) in Hev. rewrite Hev.
    rewrite filter_app, (filter_none _ _ Hpre). cbn [app filter is_average_store].
    destruct (int2_eqb gid (0, 0)); reflexivity. }
  split.
  - intros tsf s run average. split; [apply Hfilter|].
    intros ->.
    destruct (Reproject_run_end env dtid (0, 0) ss tsf ms s) as (pre & _ & Hev).
    cbv zeta in Hev. rewrite (uncentered (0, 0) Hg) in Hev.
    exists pre. exact Hev.
  - intros tsf s p v Hin.
    assert (Hf : In (EvStoreAverageRadiance p v)
                    (filter is_average_store
                       (events (Reproject.FFX_DNSR_Reflections_Reproject renv dtid gid ss
                                  tsf ms) s)))
      by (apply filter_In; split; [exact Hin | reflexivity]).
    rewrite Hfilter in Hf. destruct (int2_eqb gid (0, 0)) eqn:E; [| destruct Hf].
    destruct Hf as [Heq | []]. inversion Heq; subst.
    split; [apply int2_eqb_eq, E|]. split; [reflexivity|]. split; [reflexivity|].
    unfold downsample_average. cbv zeta. cbn [w4]. apply saturate_range.
Qed.

Lemma reproject_average_radiance_store_witness :
  in_group (0, 0)
  /\ filter is_average_store
       (events (Reproject.FFX_DNSR_Reflections_Reproject disoccluded_env (16, 8) (0, 0)
                  (64, 64) 0%R 8) (flat_reproject_shared 1))
     = [EvStoreAverageRadiance (2, 1)
          (downsample_average
             (final (Reproject.FFX_DNSR_Reflections_Reproject disoccluded_env (16, 8) (0, 0)
                       (64, 64) 0%R 8) (flat_reproject_shared 1)))].
Proof.
  assert (Hg : in_group (0, 0)) by (unfold in_group; cbn; lia).
  split; [exact Hg|].
  exact (proj1 (proj1 (reproject_average_radiance_store R R_FloatOps disoccluded_env
                         disoccluded_env (16, 8) (0, 0) (64, 64) 8 Hg)
                  0%R (flat_reproject_shared 1))).
Defined.

(** ** What a thread puts into the downsampling *)

Lemma Q2R_lit_1000 : Q2R 1000 = 1000%R.
Proof. unfold Q2R. simpl. lra. Qed.

(** X15: the downsampling part of [FFX_DNSR_Reflections_Reproject] begins
    with the store, at the thread's own index, of its contribution (lines
    340-349).  Over the reals the contribution is zero radiance and zero
    weight for a pixel outside the screen, and otherwise either that again
    or the radiance with its colour scaled by the luminance weight and
    its alpha kept, the weight lying between 1.0e-2 and 1.0e3. *)
Theorem reproject_downsample_contribution :
  forall (env : Reproject.Env R) (dispatch_thread_id group_thread_id screen_size : int2)
         (radiance : float4 R),
    let c := downsample_contribution env dispatch_thread_id screen_size radiance in
    (exists rest,
       Reproject.Reproject_downsample env dispatch_thread_id group_thread_id screen_size
         radiance
       = bind (Reproject.FFX_DNSR_Reflections_StoreInGroupSharedMemory
                 (int2_sub group_thread_id (splat 4)) (fst c) (snd c))
              (fun _ => rest))
    /\ (Reproject.any_ge dispatch_thread_id screen_size = true ->
        c = (mk4 0%R 0%R 0%R 0%R, 0%R))
    /\ (c = (mk4 0%R 0%R 0%R 0%R, 0%R)
        \/ (Reproject.any_ge dispatch_thread_id screen_size = false
            /\ (1 / 100 <= snd c <= 1000)%R
            /\ fst c = mk4 (x4 radiance * snd c)%R (y4 radiance * snd c)%R
                           (z4 radiance * snd c)%R (w4 radiance))).
Proof.
  intros env dtid gid ss radiance c.
  split; [eexists; reflexivity|].
  assert (Hzero : (splat4 f0, f0) = (mk4 0%R 0%R 0%R 0%R, 0%R)).
  { unfold splat4, f0. cbn [flit R_FloatOps]. rewrite Q2R_lit_0. reflexivity. }
  unfold c, downsample_contribution. cbv zeta.
  set (weight := Reproject.FFX_DNSR_Reflections_GetLuminanceWeight env (xyz radiance)).
  assert (Hw : (1 / 100 <= weight)%R).
  { unfold weight, Reproject.FFX_DNSR_Reflections_GetLuminanceWeight. cbv zeta.
    cbn [fmax flit R_FloatOps]. rewrite Q2R_lit_1_100. apply Rmax_r. }
  split.
  - intros ->. cbn [orb]. exact Hzero.
  - destruct (Reproject.any_ge dtid ss); cbn [orb]; [left; exact Hzero|].
    destruct (fltb (flit 1000) weight) eqn:E; [left; exact Hzero|].
    right. split; [reflexivity|].
    cbn [fltb flit R_FloatOps] in E. apply Rltb_false in E. rewrite Q2R_lit_1000 in E.
    cbn [fst snd]. split; [lra|]. reflexivity.
Qed.

(** ** Pixels that are not glossy, and the barriers *)

Lemma barrier_count_app {F} (tr tr' : list (event F)) :
  barrier_count (tr ++ tr') = (barrier_count tr + barrier_count tr')%nat.
Proof. unfold barrier_count. rewrite filter_app. apply length_app. Qed.

Lemma barrier_count_quiet {F S A} (m : M F S A) s :
  emits (fun e => is_barrier e = false) m -> barrier_count (events m s) = 0%nat.
Proof. intros H. unfold barrier_count. rewrite (filter_quiet is_barrier) by exact H. reflexivity. Qed.

Section ReprojectUniform.
Context {F : Type} {FO : FloatOps F}.
Variable env : Reproject.Env F.

Lemma downsample_reads_no_history dtid gid ss radiance :
  emits reads_no_history (Reproject.Reproject_downsample env dtid gid ss radiance).
Proof.
  unfold Reproject.Reproject_downsample.
  repeat kernel_step; intros r Hr; try discriminate Hr.
Qed.

Lemma downsample_step_barriers gid i s :
  barrier_count (events (Reproject.Reproject_downsample_step env gid i) s) = 1%nat.
Proof.
  unfold Reproject.Reproject_downsample_step, barrier_count. cbv zeta.
  rewrite events_bind, filter_app, events_barrier.
  rewrite (filter_quiet is_barrier).
  - reflexivity.
  - destruct (_ && _); [| apply emits_ret].
    unfold Reproject.FFX_DNSR_Reflections_LoadFromGroupSharedMemoryRaw.
    repeat first [apply reproject_store_emits; intros ? | emits_step]; reflexivity.
Qed.

Lemma downsample_barriers dtid gid ss radiance s :
  barrier_count (events (Reproject.Reproject_downsample env dtid gid ss radiance) s) = 4%nat.
Proof.
  unfold Reproject.Reproject_downsample. cbv zeta.
  rewrite events_bind, barrier_count_app.
  rewrite barrier_count_quiet by (apply reproject_store_emits; reflexivity).
  rewrite events_bind, barrier_count_app, events_barrier.
  rewrite events_bind, barrier_count_app.
  cbn [for_each].
  rewrite !events_bind, !barrier_count_app, !downsample_step_barriers, events_ret.
  rewrite barrier_count_quiet; [reflexivity|].
  destruct (int2_eqb _ _); [| apply emits_ret].
  unfold Reproject.FFX_DNSR_Reflections_LoadFromGroupSharedMemoryRaw.
  repeat emits_step; reflexivity.
Qed.
End ReprojectUniform.

(** X16: for a pixel that is not a glossy reflection,
    [FFX_DNSR_Reflections_Reproject] reads no history texture at all: it
    loads the roughness, the normal, the radiance and the ray length of
    its pixel and the radiance of the tile, and goes on to the
    downsampling. *)
Theorem reproject_matte_pixel_reads_no_history :
  forall (F : Type) (FO : FloatOps F) (env : Reproject.Env F)
         (dispatch_thread_id group_thread_id screen_size : int2)
         (temporal_stability_factor : F) (max_samples : Z),
    Reproject.FFX_DNSR_Reflections_IsGlossyReflection env
      (Reproject.FFX_DNSR_Reflections_LoadRoughness env dispatch_thread_id) = false ->
    emits reads_no_history
      (Reproject.FFX_DNSR_Reflections_Reproject env dispatch_thread_id group_thread_id
         screen_size temporal_stability_factor max_samples).
Proof.
  intros F FO env dtid gid ss tsf ms Hg s.
  rewrite Reproject_events. cbv zeta. rewrite Hg.
  apply Forall_app. split.
  - apply reproject_initialize_emits.
    + intros p r Hr. inversion Hr. reflexivity.
    + intros o t _ r Hr. discriminate Hr.
  - constructor; [intros r Hr; discriminate Hr|].
    rewrite events_ret, value_ret, final_ret. cbn [app].
    repeat (constructor; [intros r Hr; inversion Hr; reflexivity|]).
    apply downsample_reads_no_history.
Qed.

Lemma reproject_matte_pixel_reads_no_history_witness :
  Reproject.FFX_DNSR_Reflections_IsGlossyReflection matte_env
    (Reproject.FFX_DNSR_Reflections_LoadRoughness matte_env (3, 2)) = false
  /\ emits reads_no_history
       (Reproject.FFX_DNSR_Reflections_Reproject matte_env (3, 2) (3, 2) (64, 64) 0%R 8).
Proof.
  split; [reflexivity|].
  exact (reproject_matte_pixel_reads_no_history R R_FloatOps matte_env (3, 2) (3, 2) (64, 64)
           0%R 8 eq_refl).
Defined.

(** X17: every invocation passes the same barriers whatever the data:
    [FFX_DNSR_Reflections_Reproject] five (after the initialization,
    after the store of the contribution, and one in each of the three
    rounds of the downsampling loop, taken also by the threads that skip
    the round's body) and [FFX_DNSR_Reflections_Prefilter] one.  No
    barrier stands in a branch that only some threads take. *)
Theorem kernels_pass_the_same_barriers :
  forall (F : Type) (FO : FloatOps F) (renv : Reproject.Env F) (penv : Prefilter.Env F)
         (dispatch_thread_id group_thread_id screen_size : int2)
         (temporal_stability_factor : F) (max_samples : Z),
    (forall s,
       barrier_count
         (events (Reproject.FFX_DNSR_Reflections_Reproject renv dispatch_thread_id
                    group_thread_id screen_size temporal_stability_factor max_samples) s)
       = 5%nat)
    /\ (forall s,
          barrier_count
            (events (Prefilter.FFX_DNSR_Reflections_Prefilter penv dispatch_thread_id
                       group_thread_id screen_size) s)
          = 1%nat).
Proof.
  intros F FO renv penv dtid gid ss tsf ms. split; intros s.
  - rewrite Reproject_events. cbv zeta.
    rewrite barrier_count_app.
    rewrite barrier_count_quiet by (apply reproject_initialize_emits; reflexivity).
    change (EvBarrier :: ?l ++ ?r) with ((EvBarrier :: l) ++ r).
    rewrite !barrier_count_app.
    rewrite (barrier_count_quiet _ (reproject_synced renv dtid gid ss s)).
    + rewrite downsample_barriers. reflexivity.
    + destruct (Reproject.FFX_DNSR_Reflections_IsGlossyReflection renv _);
        [| apply emits_ret].
      unfold Reproject.Reproject_glossy. repeat kernel_step; reflexivity.
  - unfold Prefilter.FFX_DNSR_Reflections_Prefilter. cbv zeta.
    rewrite events_bind, events_tex_load, final_tex_load, value_tex_load.
    rewrite events_bind, events_bind, events_barrier, final_barrier.
    rewrite !barrier_count_app.
    rewrite (barrier_count_quiet _ s) by (apply prefilter_initialize_emits; reflexivity).
    rewrite barrier_count_quiet; [reflexivity|].
    repeat kernel_step; reflexivity.
Qed.

(** ** The interval between the first two barriers of the reprojection *)

Lemma barrier_interval_0 {F} (l rest : list (event F)) :
  Forall (fun e => is_barrier e = false) l ->
  barrier_interval 0 (l ++ EvBarrier :: rest) = l.
Proof.
  induction 1 as [|e l He _ IH]; cbn [app barrier_interval]; [reflexivity|].
  destruct e; try (rewrite IH; reflexivity). discriminate He.
Qed.

Lemma barrier_interval_S {F} n (l rest : list (event F)) :
  Forall (fun e => is_barrier e = false) l ->
  barrier_interval (S n) (l ++ EvBarrier :: rest) = barrier_interval n rest.
Proof.
  induction 1 as [|e l He _ IH]; cbn [app barrier_interval]; [reflexivity|].
  destruct e; try exact IH. discriminate He.
Qed.

Section SecondInterval.
Context {F : Type} {FO : FloatOps F}.
Variable env : Reproject.Env F.

Lemma temporal_no_barrier dtid gid ss ms :
  emits (fun e => is_barrier e = false)
    (if Reproject.FFX_DNSR_Reflections_IsGlossyReflection env
          (Reproject.FFX_DNSR_Reflections_LoadRoughness env dtid)
     then Reproject.Reproject_glossy env dtid (int2_add gid (splat 4)) ss ms
            (Reproject.FFX_DNSR_Reflections_LoadRoughness env dtid)
            (Reproject.FFX_DNSR_Reflections_LoadRayLength env dtid)
            (Reproject.FFX_DNSR_Reflections_LoadRadiance env dtid)
     else ret (Reproject.FFX_DNSR_Reflections_LoadRadiance env dtid)).
Proof.
  destruct (Reproject.FFX_DNSR_Reflections_IsGlossyReflection env _); [| apply emits_ret].
  unfold Reproject.Reproject_glossy. repeat kernel_step; reflexivity.
Qed.

(** What the kernel does between its first and its second barrier. *)
Lemma Reproject_second_interval dtid gid ss tsf ms s :
  let roughness := Reproject.FFX_DNSR_Reflections_LoadRoughness env dtid in
  let temporal :=
    if Reproject.FFX_DNSR_Reflections_IsGlossyReflection env roughness
    then Reproject.Reproject_glossy env dtid (int2_add gid (splat 4)) ss ms roughness
           (Reproject.FFX_DNSR_Reflections_LoadRayLength env dtid)
           (Reproject.FFX_DNSR_Reflections_LoadRadiance env dtid)
    else ret (Reproject.FFX_DNSR_Reflections_LoadRadiance env dtid) in
  let own := int2_sub (int2_add gid (splat 4)) (splat 4) in
  barrier_interval 1 (events (Reproject.FFX_DNSR_Reflections_Reproject env dtid gid ss tsf ms) s)
  = [EvLoad Roughness dtid; EvLoad WorldSpaceNormal dtid; EvLoad Radiance dtid;
     EvLoad RayLength dtid; EvLoad RayLength dtid]
    ++ events temporal (reproject_synced env dtid gid ss s)
    ++ [EvSharedStore Shared0 own; EvSharedStore Shared1 own].
Proof.
  intros roughness temporal own.
  rewrite Reproject_events. cbv zeta. fold roughness temporal.
  rewrite barrier_interval_S by (apply reproject_initialize_emits; reflexivity).
  unfold Reproject.Reproject_downsample. cbv zeta. fold own.
  rewrite events_bind.
  unfold Reproject.FFX_DNSR_Reflections_StoreInGroupSharedMemory at 1.
  rewrite events_bind, !events_shared_store.
  rewrite events_bind, events_barrier.
  match goal with
  | |- barrier_interval 0 (?a ++ ?b ++ (?c ++ ?d) ++ [EvBarrier] ++ ?rest) = _ =>
      replace (a ++ b ++ (c ++ d) ++ [EvBarrier] ++ rest)
        with ((a ++ b ++ c ++ d) ++ EvBarrier :: rest)
        by (rewrite <- !app_assoc; reflexivity)
  end.
  rewrite barrier_interval_0; [reflexivity|].
  apply Forall_app. split; [repeat constructor|].
  apply Forall_app. split; [apply temporal_no_barrier | repeat constructor].
Qed.
End SecondInterval.

(** X18: between its first and its second barrier a thread of
    [FFX_DNSR_Reflections_Reproject] stores its downsampling contribution
    at its own index of the radiance tile (line 349), and a thread with a
    glossy pixel loads, for its neighborhood estimate (line 127), the
    entries within the radius around its centered index.  So for two
    threads [g] and [g'] of a group with [g'] within the radius of
    [g + 4], the load of [g] and the store of [g'] go to the same entry
    of the tile in the same barrier interval: no barrier separates
    them. *)
Theorem reproject_store_meets_neighborhood_loads :
  forall (F : Type) (FO : FloatOps F) (env : Reproject.Env F)
         (dispatch_thread_id dispatch_thread_id' g g' screen_size : int2)
         (temporal_stability_factor : F) (max_samples : Z) (s s' : Reproject.shared F),
    let radius := Reproject.FFX_DNSR_REFLECTIONS_LOCAL_NEIGHBORHOOD_RADIUS env in
    in_group g -> in_group g' ->
    Reproject.FFX_DNSR_Reflections_IsGlossyReflection env
      (Reproject.FFX_DNSR_Reflections_LoadRoughness env dispatch_thread_id) = true ->
    - radius <= fst g' - (fst g + 4) <= radius ->
    - radius <= snd g' - (snd g + 4) <= radius ->
    In (EvSharedLoad Shared0 g')
       (barrier_interval 1
          (events (Reproject.FFX_DNSR_Reflections_Reproject env dispatch_thread_id g
                     screen_size temporal_stability_factor max_samples) s))
    /\ In (EvSharedStore Shared0 g')
          (barrier_interval 1
             (events (Reproject.FFX_DNSR_Reflections_Reproject env dispatch_thread_id' g'
                        screen_size temporal_stability_factor max_samples) s')).
Proof.
  intros F FO env dtid dtid' g g' ss tsf ms s s' radius Hg Hg' Hglossy Hx Hy.
  rewrite !Reproject_second_interval. cbv zeta. rewrite Hglossy.
  rewrite (uncentered g' Hg'). split.
  - apply in_or_app. right. apply in_or_app. left.
    unfold Reproject.Reproject_glossy, Reproject.FFX_DNSR_Reflections_PickReprojection,
      Reproject.Pick_candidate.
    rewrite !events_bind. apply in_or_app. left. apply in_or_app. left.
    apply in_or_app. left.
    unfold events. rewrite Estimate_run. cbn [snd].
    apply in_map_iff. exists (fst g' - (fst g + 4), snd g' - (snd g + 4)). split.
    + destruct g as [gx gy], g' as [gx' gy'], Hg as [Hgx Hgy], Hg' as [Hgx' Hgy'].
      cbn [fst snd] in *. unfold splat.
      rewrite (int2_add_small (gx, gy)) by (cbn [fst snd]; lia). cbn [fst snd].
      rewrite int2_add_small by (cbn [fst snd]; lia). cbn [fst snd].
      do 2 f_equal; lia.
    + apply neighborhood_In_iff. cbn [fst snd]. fold radius. split; assumption.
  - apply in_or_app. right. apply in_or_app. right. left. reflexivity.
Qed.

Lemma reproject_store_meets_neighborhood_loads_witness :
  in_group (0, 0) /\ in_group (1, 0)
  /\ In (EvSharedLoad Shared0 (1, 0))
        (barrier_interval 1
           (events (Reproject.FFX_DNSR_Reflections_Reproject disoccluded_env (8, 8) (0, 0)
                      (64, 64) 0%R 8) (flat_reproject_shared 1)))
  /\ In (EvSharedStore Shared0 (1, 0))
        (barrier_interval 1
           (events (Reproject.FFX_DNSR_Reflections_Reproject disoccluded_env (9, 8) (1, 0)
                      (64, 64) 0%R 8) (flat_reproject_shared 1))).
Proof.
  assert (H0 : in_group (0, 0)) by (unfold in_group; cbn; lia).
  assert (H1 : in_group (1, 0)) by (unfold in_group; cbn; lia).
  split; [exact H0|]. split; [exact H1|].
  apply (reproject_store_meets_neighborhood_loads R R_FloatOps disoccluded_env (8, 8) (9, 8)
           (0, 0) (1, 0) (64, 64) 0%R 8 (flat_reproject_shared 1) (flat_reproject_shared 1)
           H0 H1 eq_refl); cbn; lia.
Defined.

(** ** The prefiltered values of an invocation, over the reals *)

(** The resolved radiance and variance when the whole tile is in range. *)
Lemma Resolve_of_tile_in_range (env : Prefilter.Env R) gid avg center
    (s : Prefilter.shared R) (lo hi V : R) :
  (0 <= Prefilter.FFX_DNSR_REFLECTIONS_PREFILTER_VARIANCE_BIAS env)%R ->
  within4 lo hi (Prefilter.radiance center) ->
  (0 <= Prefilter.variance center <= V)%R ->
  (forall idx, within4 lo hi (tget (Prefilter.g_ffx_dnsr_shared_0 s) idx)) ->
  (forall idx, (0 <= w4 (tget (Prefilter.g_ffx_dnsr_shared_1 s) idx) <= V)%R) ->
  let resolved := fst (fst (Prefilter.FFX_DNSR_Reflections_Resolve env gid avg center s)) in
  within4 lo hi (fst resolved) /\ (0 <= snd resolved <= V)%R.
Proof.
  intros Hbias Hc_rad Hc_var Hrad Hvar.
  destruct (Resolve_accumulate_radiance env gid avg center s Hbias lo hi Hc_rad
              (fun o _ => Hrad (int2_add gid o))) as [Hw Hr].
  destruct (Resolve_accumulate_variance env gid avg center s Hbias V Hc_var
              (fun o _ => Hvar (int2_add gid o))) as [_ Hv].
  rewrite Resolve_run. cbn [fst snd].
  destruct (value (Prefilter.Resolve_accumulate env gid avg center) s) as [[w r] v].
  cbn [fst snd] in *. unfold within4 in *.
  cbn [sdiv4 x4 y4 z4 w4 fdiv fmul R_FloatOps].
  destruct Hr as (Hx & Hy & Hz & Hw4).
  split; [split; [| split; [| split]] |]; apply Rdiv_between;
    solve [lra | nra | assumption].
Qed.

(** X19: over the reals, with a variance bias that is not negative, what
    [FFX_DNSR_Reflections_Prefilter] stores for its pixel stays within
    the range of the shared memory that the barrier leaves: when every
    radiance of the tile lies between [lo] and [hi] and every variance
    between 0 and [V], so do the stored radiance and the stored variance,
    on the copy path and on the denoising path alike. *)
Theorem prefilter_stores_within_tile_range :
  forall (env : Prefilter.Env R) (dispatch_thread_id group_thread_id screen_size : int2)
         (s : Prefilter.shared R) (lo hi V : R),
    let synced := prefilter_synced env dispatch_thread_id group_thread_id screen_size s in
    (0 <= Prefilter.FFX_DNSR_REFLECTIONS_PREFILTER_VARIANCE_BIAS env)%R ->
    (forall idx, within4 lo hi (tget (Prefilter.g_ffx_dnsr_shared_0 synced) idx)) ->
    (forall idx, (0 <= w4 (tget (Prefilter.g_ffx_dnsr_shared_1 synced) idx) <= V)%R) ->
    exists pre radiance variance,
      events (Prefilter.FFX_DNSR_Reflections_Prefilter env dispatch_thread_id
                group_thread_id screen_size) s
      = pre ++ [EvStorePrefilteredReflections dispatch_thread_id radiance variance]
      /\ Forall (fun e => store_target e = None) pre
      /\ within4 lo hi radiance
      /\ (0 <= variance <= V)%R.
Proof.
  intros env dtid gid ss s lo hi V synced Hbias Hrad Hvar.
  destruct (Prefilter_events env dtid gid ss s) as (pre & resolved & Hev & Hpre).
  exists pre, (fst resolved), (snd resolved).
  split; [exact Hev|]. split; [exact Hpre|].
  pose proof (Prefilter_after_barrier env dtid gid ss s) as Hafter. cbv zeta in Hafter.
  fold synced in Hafter.
  set (center := prefilter_center env dtid gid ss s) in *.
  assert (Hc_rad : within4 lo hi (Prefilter.radiance center)) by apply Hrad.
  assert (Hc_var : (0 <= Prefilter.variance center <= V)%R) by apply Hvar.
  match type of Hafter with
  | _ = _ ++ events ?m _ ++ _ => set (resolve := m) in *
  end.
  assert (Hres : within4 lo hi (fst (value resolve synced))
                 /\ (0 <= snd (value resolve synced) <= V)%R).
  { unfold resolve.
    destruct (fltb f0 (Prefilter.variance center) && _ && _).
    - rewrite value_bind, value_tex_sample, final_tex_sample.
      apply Resolve_of_tile_in_range; assumption.
    - rewrite value_ret. cbn [fst snd]. split; assumption. }
  assert (Hlast : EvStorePrefilteredReflections dtid (fst resolved) (snd resolved)
                  = EvStorePrefilteredReflections dtid (fst (value resolve synced))
                      (snd (value resolve synced))).
  { assert (Hsplit : forall (tr : list (event R)) e, after_first_barrier (tr ++ [e]) <> [] ->
                       exists tr', after_first_barrier (tr ++ [e]) = tr' ++ [e]).
    { induction tr as [|x tr IH]; intros e Hne; cbn [app] in *.
      - destruct e; cbn in Hne; contradiction.
      - destruct x; cbn [after_first_barrier] in *; try (apply IH; exact Hne).
        exists tr. reflexivity. }
    rewrite Hev in Hafter.
    destruct (Hsplit pre (EvStorePrefilteredReflections dtid (fst resolved) (snd resolved)))
      as [tr' Htr'].
    { rewrite Hafter. unfold sample_loads. discriminate. }
    rewrite Htr' in Hafter.
    rewrite !app_assoc in Hafter. apply app_inj_tail in Hafter. apply Hafter. }
  inversion Hlast as [[H1 H2]]. rewrite H1, H2. exact Hres.
Qed.

Lemma prefilter_stores_within_tile_range_witness :
  (0 <= Prefilter.FFX_DNSR_REFLECTIONS_PREFILTER_VARIANCE_BIAS facing_prefilter_env)%R
  /\ fltb f0 (Prefilter.variance
                (prefilter_center facing_prefilter_env (11, 10) (3, 2) (64, 64)
                   facing_prefilter_shared)) = true
  /\ exists pre radiance variance,
       events (Prefilter.FFX_DNSR_Reflections_Prefilter facing_prefilter_env
                 (11, 10) (3, 2) (64, 64)) facing_prefilter_shared
       = pre ++ [EvStorePrefilteredReflections (11, 10) radiance variance]
       /\ within4 0 2 radiance
       /\ (0 <= variance <= 1)%R.
Proof.
  assert (Hcell : forall idx,
             tget (Prefilter.g_ffx_dnsr_shared_0
                     (prefilter_synced facing_prefilter_env (11, 10) (3, 2) (64, 64)
                        facing_prefilter_shared)) idx = (mk4 1 1 1 1)%R
             /\ w4 (tget (Prefilter.g_ffx_dnsr_shared_1
                            (prefilter_synced facing_prefilter_env (11, 10) (3, 2)
                               (64, 64) facing_prefilter_shared)) idx) = 1%R).
  { intros [x y]. unfold prefilter_synced.
    cbn [Prefilter.other_threads facing_prefilter_env].
    destruct (prefilter_initialize_run facing_prefilter_env (11, 10) (3, 2)
                (wrap32 (fst (64, 64)), wrap32 (snd (64, 64))) facing_prefilter_shared)
      as [Hf _].
    rewrite Hf. clear Hf.
    unfold prefilter_init_writes, block_offset, apply_writes, prefilter_put, prefilter_pack.
    cbn [map fold_left fst snd Prefilter.g_ffx_dnsr_shared_0 Prefilter.g_ffx_dnsr_shared_1
         Prefilter.g_ffx_dnsr_shared_depth facing_prefilter_env facing_prefilter_shared
         Prefilter.FFX_DNSR_Reflections_LoadNeighborhood].
    unfold tget, tset, float4_of. cbn [fst snd x3 y3 z3].
    repeat match goal with
           | |- context [if ?c then _ else _] => destruct c
           end; split; reflexivity. }
  assert (Hbias : (0 <= Prefilter.FFX_DNSR_REFLECTIONS_PREFILTER_VARIANCE_BIAS
                          facing_prefilter_env)%R)
    by (simpl; lra).
  split; [exact Hbias|]. split.
  { apply Rltb_true. unfold f0. cbn [flit R_FloatOps]. rewrite Q2R_lit_0.
    unfold prefilter_center, value, Prefilter.FFX_DNSR_Reflections_LoadFromGroupSharedMemory.
    cbn [bind shared_load get_state emit ret fst snd Prefilter.variance].
    rewrite (proj2 (Hcell (int2_add (3, 2) (splat 4)))). lra. }
  destruct (prefilter_stores_within_tile_range facing_prefilter_env (11, 10) (3, 2)
              (64, 64) facing_prefilter_shared 0%R 2%R 1%R Hbias)
    as (pre & r & v & H1 & _ & H2 & H3).
  - intros idx. rewrite (proj1 (Hcell idx)). unfold within4. cbn [x4 y4 z4 w4]. lra.
  - intros idx. rewrite (proj2 (Hcell idx)). lra.
  - exists pre, r, v. split; [exact H1|]. split; assumption.
Defined.

(** ** The reprojection of the hit position *)

Lemma GetHitPositionReprojection_leaves_shared {F} {FO : FloatOps F}
    (env : Reproject.Env F) dtid uv reflected_ray_length :
  leaves_shared
    (Reproject.FFX_DNSR_Reflections_GetHitPositionReprojection env dtid uv
       reflected_ray_length).
Proof.
  unfold Reproject.FFX_DNSR_Reflections_GetHitPositionReprojection. repeat leaves_step.
Qed.

(** X20: over the reals, for a view ray that is not the zero vector,
    [FFX_DNSR_Reflections_GetHitPositionReprojection] reprojects the point
    camera + ray * (1 + reflected_ray_length / |ray|), the ray being the
    unprojected (uv, depth of the pixel): the hit position lies on the
    line from the camera through the surface point, and with a reflected
    ray of length 0 it is the surface point itself.  The function loads
    the depth of the pixel, samples the motion buffer once and leaves the
    shared memory as it is. *)
Theorem hit_position_lies_on_the_view_ray :
  forall (env : Reproject.Env R) (dispatch_thread_id : int2) (uv : float2 R)
         (reflected_ray_length : R) (s : Reproject.shared R),
    let z := Reproject.FFX_DNSR_Reflections_LoadDepth env dispatch_thread_id in
    let ray := Reproject.InvProjectPosition env (float3_of uv z) in
    let hit :=
      add3 (Reproject.g_vCameraPositionWs env)
           (scale3 ray (1 + reflected_ray_length / length ray)%R) in
    let hit_ss := mul2 (xy3 (Reproject.ProjectPosition env hit)) (Reproject.Dimensions env) in
    length ray <> 0%R ->
    Reproject.FFX_DNSR_Reflections_GetHitPositionReprojection env dispatch_thread_id uv
      reflected_ray_length s
    = (mul2 (Reproject.Motion_Get env (add2 hit_ss (splat2 (flit (1 # 2)))))
            (Reproject.InvDimensions env),
       s,
       [EvLoad Depth dispatch_thread_id;
        EvSample MotionBuffer (add2 hit_ss (splat2 (flit (1 # 2))))]).
Proof.
  intros env dtid uv l s z ray hit hit_ss Hray.
  assert (Hhit : add3 (Reproject.g_vCameraPositionWs env)
                   (scale3 (normalize ray) (fadd (length ray) l)) = hit).
  { unfold hit, normalize, sdiv3, scale3, add3, map2_3.
    cbn [x3 y3 z3 fadd fmul fdiv R_FloatOps]. f_equal; field; exact Hray. }
  set (m := Reproject.FFX_DNSR_Reflections_GetHitPositionReprojection env dtid uv l).
  assert (Hv : value m s
               = mul2 (Reproject.Motion_Get env (add2 hit_ss (splat2 (flit (1 # 2)))))
                      (Reproject.InvDimensions env)).
  { unfold m, Reproject.FFX_DNSR_Reflections_GetHitPositionReprojection. cbv zeta.
    rewrite !value_bind, value_ret, value_tex_sample, value_tex_load.
    fold z ray. rewrite Hhit. reflexivity. }
  assert (Hf : final m s = s) by apply GetHitPositionReprojection_leaves_shared.
  assert (He : events m s
               = [EvLoad Depth dtid;
                  EvSample MotionBuffer (add2 hit_ss (splat2 (flit (1 # 2))))]).
  { unfold m, Reproject.FFX_DNSR_Reflections_GetHitPositionReprojection. cbv zeta.
    rewrite !events_bind, events_ret, events_tex_sample, events_tex_load, value_tex_load.
    fold z ray. rewrite Hhit. reflexivity. }
  unfold value, final, events in Hv, Hf, He.
  destruct (m s) as [[a b] c]. cbn [fst snd] in Hv, Hf, He. subst. reflexivity.
Qed.

Lemma hit_position_lies_on_the_view_ray_witness :
  fst (fst (Reproject.FFX_DNSR_Reflections_GetHitPositionReprojection disoccluded_env (3, 2)
              (mk2 0 0)%R 0%R (flat_reproject_shared 1)))
  = mul2 (Reproject.Motion_Get disoccluded_env
            (add2 (mul2 (xy3 (Reproject.ProjectPosition disoccluded_env
                                (add3 (Reproject.g_vCameraPositionWs disoccluded_env)
                                      (scale3 (mk3 0 0 1)%R
                                         (1 + 0 / length (mk3 0 0 1)%R)%R))))
                        (Reproject.Dimensions disoccluded_env))
                  (splat2 (flit (1 # 2)))))
         (Reproject.InvDimensions disoccluded_env).
Proof.
  assert (H : length (Reproject.InvProjectPosition disoccluded_env
                        (float3_of (mk2 0 0)%R
                           (Reproject.FFX_DNSR_Reflections_LoadDepth disoccluded_env (3, 2))))
              <> 0%R).
  { unfold length, dot.
    cbn [Reproject.InvProjectPosition Reproject.FFX_DNSR_Reflections_LoadDepth
         disoccluded_env flat_reproject_env float3_of x2 y2 x3 y3 z3
         fsqrt fadd fmul R_FloatOps].
    replace (0 * 0 + 0 * 0 + 1 * 1)%R with 1%R by ring. rewrite sqrt_1. lra. }
  rewrite (hit_position_lies_on_the_view_ray disoccluded_env (3, 2) (mk2 0 0)%R 0%R
             (flat_reproject_shared 1) H).
  reflexivity.
Defined.
